(** * SuperClaude auto-flags: the adaptive recommendation core

    A shallow embedding of the flag recommender of
    [claude_sc_preprocessor.py] and of the learning package
    ([learning_storage.py], [learning_engine.py], [feedback_processor.py],
    [performance_optimizer.py], [data_collector.py],
    [adaptive_recommender.py]), with the properties the specification
    states about them and further properties of the code.

    Conventions of the embedding.
    - A Python [str] is a Rocq [string] holding its UTF-8 bytes; substring
      tests on valid UTF-8 agree with the tests on code points.
    - A Python [float] is a rational ([Q]): every constant of the source
      (0.5, 0.3, 40, ...) is a rational, and the arithmetic is exact.
    - A Python exception is a value [Raise e] of the [result] type; a
      function without a handler passes it on.
    - [datetime.now()] and [time.time()] are an explicit argument [now].

    Limits of the embedding.
    - [str.lower] lowers the ASCII letters only, and the word characters
      of a regular expression are the ASCII ones and every byte above 127.
    - Integers and instants are unbounded: the 64-bit range of an SQLite
      INTEGER column and the years 1 to 9999 of [datetime] are not
      modelled; a statement about stored counts says where it needs them
      in range.
    - [ORDER BY timestamp DESC] puts rows of equal timestamp in the
      reverse of their insertion order, and a query without a project
      filter takes the last inserted of the rows of a pattern; SQLite
      leaves both open.
    - A number is truncated and formatted as the exact rational, which
      can differ from the binary float next to an integer or a tie. *)

From Stdlib Require Import String Ascii List ZArith QArith Qround Qabs Lia Bool.
From Stdlib Require Import DecimalString.
From Stdlib Require DecimalZ DecimalPos.
Import ListNotations.
Open Scope string_scope.

(* ===================================================================== *)
(** ** Python strings *)
(* ===================================================================== *)

Module PyStr.

Definition byte (c : ascii) : nat := nat_of_ascii c.

Definition between (lo hi n : nat) : bool := (lo <=? n)%nat && (n <=? hi)%nat.

(** [str.lower()] on the ASCII letters.  The other code points of the
    catalogues are Hangul syllables, which have no case. *)
Definition lower_char (c : ascii) : ascii :=
  if between 65 90 (byte c) then ascii_of_nat (byte c + 32) else c.

Definition upper_char (c : ascii) : ascii :=
  if between 97 122 (byte c) then ascii_of_nat (byte c - 32) else c.

Fixpoint lower (s : string) : string :=
  match s with
  | "" => ""
  | String c s' => String (lower_char c) (lower s')
  end.

Definition startswith (p s : string) : bool := String.prefix p s.

(** [sub in s] *)
Fixpoint contains (sub s : string) : bool :=
  if String.prefix sub s then true
  else match s with
       | "" => false
       | String _ s' => contains sub s'
       end.

Fixpoint drop (n : nat) (s : string) : string :=
  match n, s with
  | O, _ => s
  | S _, "" => ""
  | S k, String _ s' => drop k s'
  end.

Fixpoint rev_onto (s acc : string) : string :=
  match s with
  | "" => acc
  | String c s' => rev_onto s' (String c acc)
  end.

Definition rev (s : string) : string := rev_onto s "".

Definition endswith (p s : string) : bool := String.prefix (rev p) (rev s).

(** [s.replace(old, new)]: the occurrences of [old] are found from the
    left and do not overlap.  [skip] counts the characters of the
    occurrence just replaced that are still to be passed over. *)
Fixpoint replace_from (old new : string) (skip : nat) (s : string) : string :=
  match s with
  | "" => ""
  | String c s' =>
      match skip with
      | S k => replace_from old new k s'
      | O =>
          if String.prefix old s
          then new ++ replace_from old new (String.length old - 1) s'
          else String c (replace_from old new 0 s')
      end
  end.

Fixpoint intersperse (new s : string) : string :=
  match s with
  | "" => new
  | String c s' => new ++ String c (intersperse new s')
  end.

Definition replace (old new s : string) : string :=
  match old with
  | "" => intersperse new s
  | _ => replace_from old new 0 s
  end.

(** The characters [str.isspace] accepts, by their UTF-8 encodings:
    U+0009..U+000D, U+001C..U+0020, U+0085, U+00A0, U+1680,
    U+2000..U+200A, U+2028, U+2029, U+202F, U+205F, U+3000. *)
Definition ascii_ws (n : nat) : bool := between 9 13 n || between 28 32 n.

Definition ws2 (a b : nat) : bool :=
  (a =? 194)%nat && ((b =? 133)%nat || (b =? 160)%nat).

Definition e2_80_ws (n : nat) : bool :=
  between 128 138 n || (n =? 168)%nat || (n =? 169)%nat || (n =? 175)%nat.

Definition ws3 (a b c : nat) : bool :=
  (a =? 225)%nat && (b =? 154)%nat && (c =? 128)%nat
  || (a =? 226)%nat && (b =? 128)%nat && e2_80_ws c
  || (a =? 226)%nat && (b =? 129)%nat && (c =? 159)%nat
  || (a =? 227)%nat && (b =? 128)%nat && (c =? 128)%nat.

(** [ws_len s] is the number of bytes of the white-space character [s]
    starts with, and 0 when it starts with none. *)
Definition ws_len (s : string) : nat :=
  match s with
  | "" => 0
  | String a s1 =>
      if ascii_ws (byte a) then 1
      else match s1 with
           | "" => 0
           | String b s2 =>
               if ws2 (byte a) (byte b) then 2
               else match s2 with
                    | "" => 0
                    | String c _ =>
                        if ws3 (byte a) (byte b) (byte c) then 3 else 0
                    end
           end
  end%nat.

(** [s.lstrip()]: the white-space characters [s] starts with are passed
    over; [skip] counts the bytes still to pass of the character met. *)
Fixpoint lstrip_from (skip : nat) (s : string) : string :=
  match s with
  | "" => ""
  | String _ s' =>
      match skip with
      | S k => lstrip_from k s'
      | O =>
          match ws_len s with
          | O => s
          | S k => lstrip_from k s'
          end
      end
  end.

Definition lstrip (s : string) : string := lstrip_from 0 s.

(** [s] is made of white-space characters only. *)
Fixpoint all_ws_from (skip : nat) (s : string) : bool :=
  match s with
  | "" => (skip =? 0)%nat
  | String _ s' =>
      match skip with
      | S k => all_ws_from k s'
      | O =>
          match ws_len s with
          | O => false
          | S k => all_ws_from k s'
          end
      end
  end.

(** [s.rstrip()]: [s] up to the white space it ends with. *)
Fixpoint rstrip (s : string) : string :=
  match s with
  | "" => ""
  | String c s' => if all_ws_from 0 s then "" else String c (rstrip s')
  end.

(** [s.strip()] *)
Definition strip (s : string) : string := rstrip (lstrip s).

Definition flush (cur : string) : list string :=
  match cur with "" => [] | _ => [cur] end.

(** [s.split()]: the maximal runs of characters that are not white
    space. *)
Fixpoint split_from (skip : nat) (cur : string) (s : string) : list string :=
  match s with
  | "" => flush cur
  | String c s' =>
      match skip with
      | S k => split_from k cur s'
      | O =>
          match ws_len s with
          | O => split_from 0 (cur ++ String c "") s'
          | S k => flush cur ++ split_from k "" s'
          end
      end
  end.

Definition split (s : string) : list string := split_from 0 "" s.

(** [sep.join(l)] *)
Fixpoint join (sep : string) (l : list string) : string :=
  match l with
  | [] => ""
  | [x] => x
  | x :: rest => x ++ sep ++ join sep rest
  end.

Definition is_alpha (c : ascii) : bool :=
  between 65 90 (byte c) || between 97 122 (byte c).

(** [s.title()] on ASCII letters: a letter that follows a letter is made
    lower case, any other letter upper case. *)
Fixpoint title_from (prev_cased : bool) (s : string) : string :=
  match s with
  | "" => ""
  | String c s' =>
      String (if prev_cased then lower_char c else upper_char c)
             (title_from (is_alpha c) s')
  end.

Definition title (s : string) : string := title_from false s.

(** [str(n)] for an integer. *)
Definition of_Z (n : Z) : string := NilZero.string_of_int (Z.to_int n).

(** [x in l] for a list of strings. *)
Definition mem (x : string) (l : list string) : bool :=
  existsb (String.eqb x) l.

End PyStr.

(* ===================================================================== *)
(** ** Python floats, exceptions *)
(* ===================================================================== *)

Module Py.

(** [int(x)] truncates toward zero. *)
Definition int (x : Q) : Z := Z.quot (Qnum x) (Zpos (Qden x)).

(** [round(x)] rounds to the nearest integer, a tie to the even one. *)
Definition round (x : Q) : Z :=
  let f := Qfloor x in
  let d := x - inject_Z f in
  match Qcompare d (1 # 2) with
  | Lt => f
  | Gt => (f + 1)%Z
  | Eq => if Z.even f then f else (f + 1)%Z
  end.

Definition Qltb (a b : Q) : bool :=
  match Qcompare a b with Lt => true | _ => false end.

Definition Qmin (a b : Q) : Q := if Qle_bool a b then a else b.
Definition Qmax (a b : Q) : Q := if Qle_bool a b then b else a.

Fixpoint zeros (n : nat) : string :=
  match n with
  | O => ""
  | S n' => "0" ++ zeros n'
  end.

(** [f"{x:.df}"] for [d] decimals: the nearest multiple of [10^-d].  A
    tie of the rational goes to the even multiple; Python decides by the
    binary value of the float, which seldom is the tie itself. *)
Definition format_f (d : nat) (x : Q) : string :=
  let unit := (10 ^ Z.of_nat d)%Z in
  let h := round (Qabs x * inject_Z unit) in
  let frac := PyStr.of_Z (h mod unit) in
  (if Qltb x 0 then "-" else "")
    ++ PyStr.of_Z (h / unit) ++ "."
    ++ zeros (d - String.length frac) ++ frac.

Definition format_1f : Q -> string := format_f 1.
Definition format_2f : Q -> string := format_f 2.

(** The exceptions the modelled code can raise. *)
Inductive exn : Type :=
| NameError (name : string)
| KeyError (key : string)
| TypeError (msg : string)
| ZeroDivisionError
| DatabaseError (msg : string).

(** [str(e)] *)
Definition exn_str (e : exn) : string :=
  match e with
  | NameError name => "name '" ++ name ++ "' is not defined"
  | KeyError key => "'" ++ key ++ "'"
  | TypeError msg => msg
  | ZeroDivisionError => "division by zero"
  | DatabaseError msg => msg
  end.

Inductive result (A : Type) : Type :=
| Ok (a : A)
| Raise (e : exn).
Arguments Ok {A} a.
Arguments Raise {A} e.

Definition bind {A B : Type} (r : result A) (k : A -> result B) : result B :=
  match r with
  | Ok a => k a
  | Raise e => Raise e
  end.

Definition raised {A : Type} (r : result A) : bool :=
  match r with Ok _ => false | Raise _ => true end.

End Py.

Notation "x <- c ;; k" := (Py.bind c (fun x => k))
  (at level 61, c at next level, right associativity).

(* ===================================================================== *)
(** ** claude_sc_preprocessor.py *)
(* ===================================================================== *)

Module Preprocessor.
Import Py.

Record ProjectContext : Type := {
  project_type : string;
  domain : string;
  complexity : string;
  file_count : Z;
  framework : option string;
  language : option string
}.

Record FlagRecommendation : Type := {
  flags : string;
  confidence : Z;
  reasoning : string;
  mcp_servers : list string;
  personas : list string
}.

(** An entry of [rules['patterns']]; [rule_mcp_servers] is [None] when the
    entry has no such key. *)
Record PatternInfo : Type := {
  keywords : list string;
  base_flags : string;
  rule_confidence : Z;
  rule_mcp_servers : option (list string)
}.

(** A dict keeps its insertion order, which the loops below follow. *)
Definition Rules : Type := list (string * PatternInfo).

Definition _get_default_rules : Rules :=
  [ ("analyze_general",
     {| keywords := ["analyze"; "분석"; "review"; "검토"];
        base_flags := "--persona-analyzer --think";
        rule_confidence := 85;
        rule_mcp_servers := Some ["Sequential"] |});
    ("analyze_security",
     {| keywords := ["security"; "보안"; "vulnerability"; "취약점"; "audit"];
        base_flags := "--persona-security --focus security --think --validate";
        rule_confidence := 95;
        rule_mcp_servers := Some ["Sequential"] |});
    ("analyze_performance",
     {| keywords := ["performance"; "성능"; "optimize"; "최적화"; "bottleneck"];
        base_flags := "--persona-performance --think-hard --focus performance";
        rule_confidence := 90;
        rule_mcp_servers := Some ["Sequential"; "Playwright"] |});
    ("implement_ui",
     {| keywords := ["component"; "컴포넌트"; "ui"; "interface"; "frontend"];
        base_flags := "--persona-frontend --magic --c7";
        rule_confidence := 94;
        rule_mcp_servers := Some ["Magic"; "Context7"] |});
    ("implement_api",
     {| keywords := ["api"; "endpoint"; "backend"; "server"; "서버"];
        base_flags := "--persona-backend --seq --c7";
        rule_confidence := 92;
        rule_mcp_servers := Some ["Sequential"; "Context7"] |});
    ("improve_quality",
     {| keywords := ["improve"; "개선"; "refactor"; "리팩토링"; "cleanup"];
        base_flags := "--persona-refactorer --loop --validate";
        rule_confidence := 88;
        rule_mcp_servers := Some ["Sequential"] |}) ].

(** A routing pattern [(a1|a2).*(b1|b2)] by its two alternations. *)
Record OrchestratorPattern : Type := {
  first_alt : list string;
  second_alt : list string;
  orch_flags : string;
  orch_confidence : Z;
  orch_complexity : string
}.

Definition _load_orchestrator_patterns : list (string * OrchestratorPattern) :=
  [ ("analyze_architecture",
     {| first_alt := ["analyze"; "분석"];
        second_alt := ["architecture"; "아키텍처"];
        orch_flags := "--persona-architect --ultrathink --seq";
        orch_confidence := 95; orch_complexity := "complex" |});
    ("security_audit",
     {| first_alt := ["security"; "보안"];
        second_alt := ["audit"; "감사"];
        orch_flags := "--persona-security --ultrathink --seq --validate";
        orch_confidence := 95; orch_complexity := "complex" |});
    ("implement_auth",
     {| first_alt := ["implement"; "구현"];
        second_alt := ["auth"; "인증"];
        orch_flags := "--persona-security --persona-backend --validate";
        orch_confidence := 90; orch_complexity := "complex" |});
    ("optimize_performance",
     {| first_alt := ["optimize"; "최적화"];
        second_alt := ["performance"; "성능"];
        orch_flags := "--persona-performance --think-hard --play";
        orch_confidence := 90; orch_complexity := "complex" |}) ].

Definition newline : ascii := ascii_of_nat 10.

(** Some word of [alts] occurs in [s] before the end of its first line:
    what [.*(b1|b2)] matches, [.] standing for any character but a
    newline. *)
Fixpoint line_contains_any (alts : list string) (s : string) : bool :=
  if existsb (fun b => String.prefix b s) alts then true
  else match s with
       | "" => false
       | String c s' =>
           if Ascii.eqb c newline then false else line_contains_any alts s'
       end.

(** [re.search(r'(a1|a2).*(b1|b2)', s)] finds a match. *)
Fixpoint re_search (p : OrchestratorPattern) (s : string) : bool :=
  if existsb (fun a => String.prefix a s
                       && line_contains_any (second_alt p)
                            (PyStr.drop (String.length a) s))
             (first_alt p)
  then true
  else match s with
       | "" => false
       | String _ s' => re_search p s'
       end.

Definition _calculate_match_score (text : string) (kws : list string) : Q :=
  let text_lower := PyStr.lower text in
  let matches :=
    List.length (filter (fun k => PyStr.contains (PyStr.lower k) text_lower) kws) in
  match kws with
  | [] => 0%Q
  | _ => (inject_Z (Z.of_nat matches) / inject_Z (Z.of_nat (List.length kws)))%Q
  end.

Definition _apply_context_modifiers (base : string) (context : ProjectContext)
  : string :=
  let flags := base in
  let flags :=
    if String.eqb (complexity context) "complex"
       && PyStr.contains "--think" flags
       && negb (PyStr.contains "--think-hard" flags)
    then PyStr.replace "--think" "--think-hard" flags
    else flags in
  let flags :=
    if String.eqb (project_type context) "python_backend"
    then (if negb (PyStr.contains "--persona-backend" flags)
             && PyStr.contains "analyze" flags
          then flags ++ " --validate" else flags)
    else flags in
  let flags :=
    if (file_count context >? 50)%Z then flags ++ " --delegate" else flags in
  flags ++ " --uc".

Definition _extract_mcp_servers (flags : string) : list string :=
  (if PyStr.contains "--seq" flags || PyStr.contains "--sequential" flags
   then ["Sequential"] else [])
  ++ (if PyStr.contains "--c7" flags || PyStr.contains "--context7" flags
      then ["Context7"] else [])
  ++ (if PyStr.contains "--magic" flags then ["Magic"] else [])
  ++ (if PyStr.contains "--play" flags || PyStr.contains "--playwright" flags
      then ["Playwright"] else []).

Definition persona_map : list (string * string) :=
  [ ("--persona-analyzer", "analyzer");
    ("--persona-architect", "architect");
    ("--persona-security", "security");
    ("--persona-performance", "performance");
    ("--persona-frontend", "frontend");
    ("--persona-backend", "backend");
    ("--persona-refactorer", "refactorer") ].

Definition _extract_personas (flags : string) : list string :=
  map snd (filter (fun fp => PyStr.contains (fst fp) flags) persona_map).

Definition _get_default_recommendation (command : string)
           (context : ProjectContext) : FlagRecommendation :=
  let '(fl, conf) :=
    if PyStr.contains "analyze" command
    then ("--persona-analyzer --think --uc", 70%Z)
    else if PyStr.contains "implement" command
    then ((if String.eqb (project_type context) "python_backend"
           then "--persona-backend --c7 --uc"
           else "--persona-frontend --magic --uc"), 75%Z)
    else if PyStr.contains "improve" command
    then ("--persona-refactorer --think --uc", 70%Z)
    else ("--think --uc", 60%Z) in
  {| flags := fl;
     confidence := conf;
     reasoning := "기본 명령어 패턴 기반 추천";
     mcp_servers := _extract_mcp_servers fl;
     personas := _extract_personas fl |}.

Definition lookup {A : Type} (k : string) (d : list (string * A)) : option A :=
  option_map snd (find (fun kv => String.eqb (fst kv) k) d).

Definition priority_patterns : list string :=
  ["analyze_security"; "analyze_performance"; "analyze_architecture";
   "implement_authentication"].

(** The loop over [priority_patterns]: the first one that is a rule and
    matches a keyword, with its score raised by the priority bonus. *)
Fixpoint priority_scan (rules : Rules) (full_text : string) (names : list string)
  : option (string * PatternInfo * Q) :=
  match names with
  | [] => None
  | n :: rest =>
      match lookup n rules with
      | Some info =>
          let score := _calculate_match_score full_text (keywords info) in
          if Qltb 0%Q score then Some (n, info, (score + (1 # 2))%Q)
          else priority_scan rules full_text rest
      | None => priority_scan rules full_text rest
      end
  end.

(** The loop over all the rules: a rule replaces the best one so far when
    its score is strictly higher. *)
Fixpoint general_scan (full_text : string) (todo : Rules)
         (best : option (string * PatternInfo)) (highest : Q)
  : option (string * PatternInfo) * Q :=
  match todo with
  | [] => (best, highest)
  | (n, info) :: rest =>
      let score := _calculate_match_score full_text (keywords info) in
      if Qltb highest score
      then general_scan full_text rest (Some (n, info)) score
      else general_scan full_text rest best highest
  end.

Definition find_best_match (rules : Rules) (command description : string)
           (context : ProjectContext) : FlagRecommendation :=
  let full_text := PyStr.lower (command ++ " " ++ description) in
  match find (fun np => re_search (snd np) full_text) _load_orchestrator_patterns with
  | Some (pattern_name, pattern_info) =>
      {| flags := orch_flags pattern_info;
         confidence := orch_confidence pattern_info;
         reasoning := "ORCHESTRATOR 패턴 매칭: " ++ pattern_name;
         mcp_servers := _extract_mcp_servers (orch_flags pattern_info);
         personas := _extract_personas (orch_flags pattern_info) |}
  | None =>
      let '(best, highest_score) :=
        match priority_scan rules full_text priority_patterns with
        | Some (n, info, score) => (Some (n, info), score)
        | None => general_scan full_text rules None 0%Q
        end in
      match best with
      | Some (best_pattern_name, best_match) =>
          if Qltb 0%Q highest_score then
            let fl := _apply_context_modifiers (base_flags best_match) context in
            {| flags := fl;
               confidence :=
                 Z.min 95 (int (inject_Z (rule_confidence best_match)
                                * ((1 # 2) + highest_score * (1 # 2)))%Q);
               reasoning := "패턴 매칭: " ++ best_pattern_name ++ " (점수: "
                            ++ format_2f highest_score ++ ")";
               mcp_servers :=
                 match rule_mcp_servers best_match with
                 | Some l => l
                 | None => []
                 end;
               personas := _extract_personas fl |}
          else _get_default_recommendation command context
      | None => _get_default_recommendation command context
      end
  end.

(** The processor: its rules, and what [ProjectAnalyzer(current_dir).analyze()]
    yields for the directory it runs in (it reads the file system; a
    failure there is an exception). *)
Record SCCommandProcessor : Type := {
  pattern_matcher : Rules;
  current_dir_analysis : result ProjectContext
}.

Definition is_word_byte (c : ascii) : bool :=
  let n := PyStr.byte c in
  PyStr.between 48 57 n || PyStr.between 65 90 n || PyStr.between 97 122 n
  || (n =? 95)%nat || (128 <=? n)%nat.

(** The longest prefix [\w+] can match, and what follows it.  A byte
    above 127 counts as part of a word character, unless a white-space
    character starts there. *)
Fixpoint span_word (s : string) : string * string :=
  match s with
  | "" => ("", "")
  | String c s' =>
      if (PyStr.ws_len s =? 0)%nat && is_word_byte c
      then let '(w, r) := span_word s' in (String c w, r)
      else ("", s)
  end.

Fixpoint first_line (s : string) : string :=
  match s with
  | "" => ""
  | String c s' => if Ascii.eqb c newline then "" else String c (first_line s')
  end.

(** [re.match] of the stripped input against [/sc:], a word ([\w+]),
    optional white space ([\s*]) and the rest of the line: the word and
    that rest, or [('unknown', user_input)] when there is no match. *)
Definition _parse_sc_command (user_input : string) : string * string :=
  let s := PyStr.strip user_input in
  if PyStr.startswith "/sc:" s then
    match span_word (PyStr.drop 4 s) with
    | ("", _) => ("unknown", user_input)
    | (w, r) => (w, first_line (PyStr.lstrip r))
    end
  else ("unknown", user_input).

Definition _get_project_context (self : SCCommandProcessor)
  : result ProjectContext := current_dir_analysis self.

Definition nl : string := String newline "".

Definition join_or (l : list string) (dflt : string) : string :=
  match l with
  | [] => dflt
  | _ => PyStr.join ", " l
  end.

Definition _format_enhanced_command (original_input : string)
           (recommendation : FlagRecommendation) (context : ProjectContext)
  : string :=
  "🎯 SuperClaude 지능형 분석 활성화" ++ nl ++ nl
  ++ "📁 프로젝트: " ++ PyStr.title (PyStr.replace "_" " " (project_type context)) ++ nl
  ++ "🏗️ 도메인: " ++ PyStr.title (PyStr.replace "_" " " (domain context)) ++ nl
  ++ "📊 복잡도: " ++ complexity context ++ " (" ++ PyStr.of_Z (file_count context)
  ++ "개 파일)" ++ nl ++ nl
  ++ "🚀 적용된 플래그: " ++ flags recommendation ++ nl
  ++ "🎯 신뢰도: " ++ PyStr.of_Z (confidence recommendation) ++ "%" ++ nl
  ++ "💡 근거: " ++ reasoning recommendation ++ nl ++ nl
  ++ "🔧 MCP 서버: " ++ join_or (mcp_servers recommendation) "None" ++ nl
  ++ "👥 전문가: " ++ join_or (personas recommendation) "General" ++ nl ++ nl
  ++ "━━━━━━━━━━━━━━━━━━━━━━━━━━━━━━━━━━━━━━" ++ nl ++ nl
  ++ original_input ++ " " ++ flags recommendation.

Definition process (self : SCCommandProcessor) (user_input : string) : string :=
  if negb (PyStr.startswith "/sc:" (PyStr.strip user_input)) then user_input
  else
    let attempt :=
      let '(command, description) := _parse_sc_command user_input in
      context <- _get_project_context self ;;
      let recommendation :=
        find_best_match (pattern_matcher self) command description context in
      Ok (_format_enhanced_command user_input recommendation context) in
    match attempt with
    | Ok enhanced_input => enhanced_input
    | Raise _ => user_input
    end.

End Preprocessor.

(* ===================================================================== *)
(** ** Python dicts with string keys *)
(* ===================================================================== *)

(** A dict is the list of its items in insertion order; a key occurs at
    most once in a dict built with [set]. *)
Module PyDict.

Definition t (V : Type) : Type := list (string * V).

Fixpoint get {V : Type} (k : string) (d : t V) : option V :=
  match d with
  | [] => None
  | (k', v) :: rest => if String.eqb k' k then Some v else get k rest
  end.

Definition get_default {V : Type} (k : string) (dflt : V) (d : t V) : V :=
  match get k d with Some v => v | None => dflt end.

Definition has_key {V : Type} (k : string) (d : t V) : bool :=
  match get k d with Some _ => true | None => false end.

(** [d[k] = v]: the value is replaced where the key stands, or the item
    is added at the end. *)
Fixpoint set {V : Type} (k : string) (v : V) (d : t V) : t V :=
  match d with
  | [] => [(k, v)]
  | (k', v') :: rest =>
      if String.eqb k' k then (k, v) :: rest else (k', v') :: set k v rest
  end.

(** [del d[k]] *)
Definition remove {V : Type} (k : string) (d : t V) : t V :=
  filter (fun kv => negb (String.eqb (fst kv) k)) d.

(** [d.update(e)] *)
Definition update {V : Type} (e d : t V) : t V :=
  fold_left (fun acc kv => set (fst kv) (snd kv) acc) e d.

(** The dict a comprehension [{k: v for ...}] builds from its items. *)
Definition of_items {V : Type} (items : list (string * V)) : t V :=
  update items [].

Definition values {V : Type} (d : t V) : list V := map snd d.

End PyDict.

(* ===================================================================== *)
(** ** learning_storage.py *)
(* ===================================================================== *)

Module Storage.
Import Py.

(** Time is counted in microseconds, the resolution of [datetime]. *)
Definition second : Z := 1000000.
Definition day : Z := 86400 * second.

(** [timedelta.days] of a difference of two instants. *)
Definition timedelta_days (delta : Z) : Z := delta / day.

(** A TEXT column written with [datetime.isoformat()]: the instant it
    renders, or some other text, which [datetime.fromisoformat] rejects.
    ISO texts compare as their instants do. *)
Inductive IsoText : Type :=
| Iso (instant : Z)
| Malformed (text : string).

(** A row of [interactions], as [dict(row)] gives it. *)
Record Interaction : Type := {
  id : Z;
  timestamp : Z;
  user_input : string;
  command : string;
  description : string;
  recommended_flags : string;
  actual_flags : string;
  project_context : string;
  success : bool;
  execution_time : Q;
  confidence : Z;
  reasoning : string;
  user_id : string;
  project_hash : string
}.

Record FeedbackRecord : Type := {
  fb_timestamp : Z;
  fb_interaction_id : string;
  fb_feedback_type : string;
  fb_rating : option Z;
  fb_success_indicator : bool;
  fb_user_correction : option string;
  fb_user_id : string;
  fb_project_hash : string
}.

(** A row of [pattern_success]; the JSON object of [context_conditions]
    is read back as the weights [Dict[str, float]] of a learned
    pattern. *)
Record PatternSuccess : Type := {
  pattern_name : string;
  total_uses : Z;
  successful_uses : Z;
  success_rate : Q;
  last_updated : IsoText;
  context_conditions : PyDict.t Q
}.

Record Preference : Type := {
  pref_user_id : string;
  pref_project_hash : string;
  pref_pattern_name : string;
  preference_weight : Q;
  pref_last_updated : IsoText
}.

Record Database : Type := {
  interactions : list Interaction;
  feedback : list FeedbackRecord;
  pattern_success : list PatternSuccess;
  user_preferences : list Preference
}.

(** The storage object.  [db_file] is [None] when the file at [db_path]
    cannot be read as a database (corrupted, unreadable): every
    statement run on a connection to it raises. *)
Record LearningStorage : Type := {
  db_file : option Database;
  self_user_id : string
}.

(** [with sqlite3.connect(self.db_path) as conn: conn.execute(...)] *)
Definition connect (self : LearningStorage) : result Database :=
  match db_file self with
  | Some db => Ok db
  | None => Raise (DatabaseError "file is not a database")
  end.

Definition with_db (self : LearningStorage) (db : Database) : LearningStorage :=
  {| db_file := Some db; self_user_id := self_user_id self |}.

(** [if x:] for an optional string argument. *)
Definition truthy (o : option string) : bool :=
  match o with
  | Some s => negb (String.eqb s "")
  | None => false
  end.

(** [ORDER BY timestamp DESC] *)
Fixpoint insert_desc (x : Interaction) (l : list Interaction) : list Interaction :=
  match l with
  | [] => [x]
  | y :: rest =>
      if (timestamp y <? timestamp x)%Z then x :: l else y :: insert_desc x rest
  end.

Definition order_by_timestamp_desc (l : list Interaction) : list Interaction :=
  fold_right insert_desc [] l.

Definition record_feedback (self : LearningStorage) (fb : FeedbackRecord)
  : result LearningStorage :=
  db <- connect self ;;
  Ok (with_db self
        {| interactions := interactions db;
           feedback := feedback db ++ [fb];
           pattern_success := pattern_success db;
           user_preferences := user_preferences db |}).

Definition set_pattern_success (db : Database) (rows : list PatternSuccess)
  : Database :=
  {| interactions := interactions db;
     feedback := feedback db;
     pattern_success := rows;
     user_preferences := user_preferences db |}.

Definition find_pattern (name : string) (rows : list PatternSuccess)
  : option PatternSuccess :=
  find (fun r => String.eqb (pattern_name r) name) rows.

(** [UPDATE pattern_success SET ... WHERE pattern_name = ?] *)
Definition update_row (new : PatternSuccess) (rows : list PatternSuccess)
  : list PatternSuccess :=
  map (fun r => if String.eqb (pattern_name r) (pattern_name new) then new else r)
      rows.

Definition divide (a b : Z) : result Q :=
  if (b =? 0)%Z then Raise ZeroDivisionError
  else Ok (inject_Z a / inject_Z b)%Q.

Definition update_pattern_success (self : LearningStorage) (now : Z)
           (name : string) (succeeded : bool) (context : PyDict.t Q)
  : result LearningStorage :=
  db <- connect self ;;
  match find_pattern name (pattern_success db) with
  | Some row =>
      let total := (total_uses row + 1)%Z in
      let successful :=
        if succeeded then (successful_uses row + 1)%Z else successful_uses row in
      rate <- divide successful total ;;
      Ok (with_db self
            (set_pattern_success db
               (update_row
                  {| pattern_name := name;
                     total_uses := total;
                     successful_uses := successful;
                     success_rate := rate;
                     last_updated := Iso now;
                     context_conditions := context |}
                  (pattern_success db))))
  | None =>
      let total := 1%Z in
      let successful := if succeeded then 1%Z else 0%Z in
      rate <- divide successful total ;;
      Ok (with_db self
            (set_pattern_success db
               (pattern_success db ++
                  [ {| pattern_name := name;
                       total_uses := total;
                       successful_uses := successful;
                       success_rate := rate;
                       last_updated := Iso now;
                       context_conditions := context |} ])))
  end.

Definition get_user_interactions (self : LearningStorage) (now : Z)
           (days : Z) (project : option string) : result (list Interaction) :=
  let since_date := (now - days * day)%Z in
  db <- connect self ;;
  Ok (order_by_timestamp_desc
        (filter (fun r =>
                   String.eqb (user_id r) (self_user_id self)
                   && (since_date <? timestamp r)%Z
                   && (if truthy project
                       then String.eqb (project_hash r)
                              (match project with Some p => p | None => "" end)
                       else true))
                (interactions db))).

Definition get_pattern_success_rates (self : LearningStorage)
  : result (PyDict.t PatternSuccess) :=
  db <- connect self ;;
  Ok (PyDict.of_items (map (fun r => (pattern_name r, r)) (pattern_success db))).

Definition get_user_preferences (self : LearningStorage) (project : option string)
  : result (PyDict.t Q) :=
  db <- connect self ;;
  Ok (PyDict.of_items
        (map (fun r => (pref_pattern_name r, preference_weight r))
             (filter (fun r =>
                        String.eqb (pref_user_id r) (self_user_id self)
                        && (if truthy project
                            then String.eqb (pref_project_hash r)
                                   (match project with Some p => p | None => "" end)
                            else true))
                     (user_preferences db)))).

Definition set_user_preferences (db : Database) (rows : list Preference)
  : Database :=
  {| interactions := interactions db;
     feedback := feedback db;
     pattern_success := pattern_success db;
     user_preferences := rows |}.

(** The columns of the [UNIQUE] constraint of [user_preferences]. *)
Definition same_preference (uid project name : string) (r : Preference) : bool :=
  String.eqb (pref_user_id r) uid
  && String.eqb (pref_project_hash r) project
  && String.eqb (pref_pattern_name r) name.

(** [INSERT OR REPLACE INTO user_preferences]: the row of the same user,
    project and pattern is deleted, and the new row is added. *)
Definition update_user_preference (self : LearningStorage) (now : Z)
           (name : string) (weight : Q) (project : string)
  : result LearningStorage :=
  db <- connect self ;;
  Ok (with_db self
        (set_user_preferences db
           (filter (fun r => negb (same_preference (self_user_id self) project name r))
                   (user_preferences db)
            ++ [ {| pref_user_id := self_user_id self;
                    pref_project_hash := project;
                    pref_pattern_name := name;
                    preference_weight := weight;
                    pref_last_updated := Iso now |} ]))).

(** [DELETE FROM interactions WHERE timestamp < ?], and the same for
    [feedback]. *)
Definition cleanup_old_data (self : LearningStorage) (now : Z) (days : Z)
  : result LearningStorage :=
  let cutoff_date := (now - days * day)%Z in
  db <- connect self ;;
  Ok (with_db self
        {| interactions :=
             filter (fun r => negb (timestamp r <? cutoff_date)%Z) (interactions db);
           feedback :=
             filter (fun r => negb (fb_timestamp r <? cutoff_date)%Z) (feedback db);
           pattern_success := pattern_success db;
           user_preferences := user_preferences db |}).

End Storage.

(* ===================================================================== *)
(** ** The project context handed to the learning package *)
(* ===================================================================== *)

(** The [Dict[str, Any]] the learning package receives, by the keys it
    reads; [None] is an absent key, which [.get] replaces by a default. *)
Module Context.

Record t : Type := {
  project_type : option string;
  complexity : option string;
  project_size : option string;
  file_count : option Z;
  languages : option (list string);
  frameworks : option (list string);
  enhanced_flags : option string
}.

Definition get {A : Type} (field : option A) (dflt : A) : A :=
  match field with Some v => v | None => dflt end.

End Context.

(* ===================================================================== *)
(** ** learning_engine.py *)
(* ===================================================================== *)

Module Engine.
Import Py.

Record LearningPattern : Type := {
  pattern_id : string;
  base_flags : string;
  success_rate : Q;
  usage_count : Z;
  confidence_score : Q;
  context_weights : PyDict.t Q;
  last_updated : Storage.IsoText;
  user_preference_score : Q
}.

(** [learning_factors] maps a factor to its number; the fallback's
    [{'fallback': True}] is the number 1. *)
Record RecommendationScore : Type := {
  rec_pattern_id : string;
  flags : string;
  score : Q;
  confidence : Z;
  reasoning : list string;
  learning_factors : PyDict.t Q
}.

Record AdaptiveLearningEngine : Type := {
  storage : Storage.LearningStorage;
  _pattern_cache : PyDict.t LearningPattern;
  _cache_timestamp : Z
}.

Definition _cache_ttl : Z := 300 * Storage.second.

Definition _calculate_confidence_score (usage : Z) (rate : Q) : Q :=
  let usage_factor := Qmin (inject_Z usage / 20) 1 in
  let conf := (rate * usage_factor)%Q in
  Qmin conf 1.

Definition default_flags : PyDict.t string :=
  [ ("analyze_security", "--persona-security --focus security --think --validate");
    ("analyze_performance", "--persona-performance --think-hard --focus performance");
    ("analyze_architecture", "--persona-architect --ultrathink --seq");
    ("implement_ui", "--persona-frontend --magic --c7");
    ("implement_api", "--persona-backend --seq --c7");
    ("implement_auth", "--persona-security --persona-backend --validate");
    ("improve_quality", "--persona-refactorer --loop --validate");
    ("improve_performance", "--persona-performance --think-hard --play") ].

Definition _get_pattern_base_flags (name : string) : string :=
  PyDict.get_default name "--think --uc" default_flags.

(** The three comparisons of [_calculate_context_similarity] add to the
    pair (similarity, total weight). *)
Definition add_match (pattern_context : PyDict.t Q) (key : string) (w : Q)
           (acc : Q * Q) : Q * Q :=
  match PyDict.get key pattern_context with
  | Some v => (fst acc + v * w, snd acc + w)%Q
  | None => acc
  end.

Definition _calculate_context_similarity (pattern_context : PyDict.t Q)
           (current : Context.t) : Q :=
  match pattern_context with
  | [] => 1 # 2
  | _ =>
      let current_size := Context.get (Context.project_size current) "unknown" in
      let acc := add_match pattern_context ("size_" ++ current_size) (3 # 10) (0, 0)%Q in
      let acc :=
        fold_left (fun a lang => add_match pattern_context ("lang_" ++ lang) (4 # 10) a)
                  (Context.get (Context.languages current) []) acc in
      let acc :=
        fold_left (fun a fw => add_match pattern_context ("framework_" ++ fw) (3 # 10) a)
                  (Context.get (Context.frameworks current) []) acc in
      if Qltb 0 (snd acc) then (fst acc / snd acc)%Q else 1 # 2
  end.

Definition _adjust_flags_for_context (base : string) (ctx : Context.t) : string :=
  let flags := base in
  let project_size := Context.get (Context.project_size ctx) "small" in
  let file_count := Context.get (Context.file_count ctx) 0%Z in
  let flags :=
    if PyStr.mem project_size ["large"; "very_large"] || (file_count >? 50)%Z
    then (if negb (PyStr.contains "--delegate" flags)
          then flags ++ " --delegate" else flags)
    else flags in
  let flags :=
    if String.eqb project_size "very_large" || (file_count >? 100)%Z
    then (if negb (PyStr.contains "--uc" flags) then flags ++ " --uc" else flags)
    else flags in
  let languages := Context.get (Context.languages ctx) [] in
  let flags :=
    if PyStr.mem "python" languages && negb (PyStr.contains "--validate" flags)
    then flags ++ " --validate" else flags in
  let frameworks := Context.get (Context.frameworks ctx) [] in
  let flags :=
    if existsb (fun fw => PyStr.mem fw frameworks) ["react"; "vue"; "angular"]
       && negb (PyStr.contains "--magic" flags)
    then flags ++ " --magic" else flags in
  PyStr.strip flags.

Definition _get_fallback_recommendation (command description : string)
  : RecommendationScore :=
  let '(fl, conf) :=
    if String.eqb command "analyze" then ("--persona-analyzer --think --uc", 70%Z)
    else if String.eqb command "implement" then ("--persona-backend --c7 --uc", 65%Z)
    else if String.eqb command "improve" then ("--persona-refactorer --think --uc", 68%Z)
    else ("--think --uc", 60%Z) in
  {| rec_pattern_id := command ++ "_fallback";
     flags := fl;
     score := inject_Z conf;
     confidence := conf;
     reasoning := ["폴백 추천 (학습 데이터 부족)"];
     learning_factors := [("fallback", 1%Q)] |}.

Definition _find_candidate_patterns (cache : PyDict.t LearningPattern)
           (command description : string) (ctx : Context.t)
  : list LearningPattern :=
  let by_command :=
    filter (fun kv => PyStr.contains command (fst kv)
                      || PyStr.endswith "_general" (fst kv)) cache in
  let by_context :=
    filter (fun kv =>
              Qltb (1 # 2)
                   (_calculate_context_similarity (context_weights (snd kv)) ctx))
           cache in
  let candidates := map snd (by_command ++ by_context) in
  PyDict.values (PyDict.of_items (map (fun p => (pattern_id p, p)) candidates)).

(** [max(l, key=lambda x: x.score)]: the first of the items with the
    highest score. *)
Fixpoint max_by_score (best : RecommendationScore) (l : list RecommendationScore)
  : RecommendationScore :=
  match l with
  | [] => best
  | x :: rest =>
      if Qltb (score best) (score x) then max_by_score x rest
      else max_by_score best rest
  end.

Definition with_flags (r : RecommendationScore) (fl : string) : RecommendationScore :=
  {| rec_pattern_id := rec_pattern_id r;
     flags := fl;
     score := score r;
     confidence := confidence r;
     reasoning := reasoning r;
     learning_factors := learning_factors r |}.

Section Clock.

(** [math.exp], the exponential of the C library. *)
Variable math_exp : Q -> Q.

Definition _calculate_recency_score (now : Z) (updated : Storage.IsoText) : Q :=
  match updated with
  | Storage.Iso updated_time =>
      let days_diff := Storage.timedelta_days (now - updated_time) in
      if (days_diff <=? 30)%Z then 1
      else math_exp (- inject_Z days_diff / 60)
  | Storage.Malformed _ => 1 # 2
  end.

Definition _calculate_adaptive_score (now : Z) (pattern : LearningPattern)
           (command description : string) (ctx : Context.t)
  : RecommendationScore :=
  let success_score := (success_rate pattern * 40)%Q in
  let preference_score := (Qmin (user_preference_score pattern) 2 * 10)%Q in
  let context_similarity :=
    _calculate_context_similarity (context_weights pattern) ctx in
  let context_score := (context_similarity * 20)%Q in
  let conf_score := (confidence_score pattern * 10)%Q in
  let recency_score := (_calculate_recency_score now (last_updated pattern) * 10)%Q in
  let total_score :=
    (success_score + preference_score + context_score + conf_score
     + recency_score)%Q in
  let confidence_percentage := Z.min 95 (int total_score) in
  {| rec_pattern_id := pattern_id pattern;
     flags := base_flags pattern;
     score := total_score;
     confidence := confidence_percentage;
     reasoning :=
       [ "성공률: " ++ format_2f (success_rate pattern);
         "사용자 선호도: " ++ format_2f (user_preference_score pattern);
         "컨텍스트 유사성: " ++ format_2f context_similarity;
         "신뢰도: " ++ format_2f (confidence_score pattern);
         "최신성: " ++ format_2f (recency_score / 10) ];
     learning_factors :=
       [ ("success_rate", success_rate pattern);
         ("user_preference", user_preference_score pattern);
         ("context_similarity", context_similarity);
         ("confidence", confidence_score pattern);
         ("recency", (recency_score / 10)%Q) ] |}.

Definition cache_expired (self : AdaptiveLearningEngine) (now : Z) : bool :=
  (_cache_ttl <? now - _cache_timestamp self)%Z.

Definition load_pattern (prefs : PyDict.t Q) (item : string * Storage.PatternSuccess)
  : string * LearningPattern :=
  let '(name, data) := item in
  (name,
   {| pattern_id := name;
      base_flags := _get_pattern_base_flags name;
      success_rate := Storage.success_rate data;
      usage_count := Storage.total_uses data;
      confidence_score :=
        _calculate_confidence_score (Storage.total_uses data)
                                    (Storage.success_rate data);
      context_weights := Storage.context_conditions data;
      last_updated := Storage.last_updated data;
      user_preference_score := PyDict.get_default name 1%Q prefs |}).

Definition _load_patterns_cache (self : AdaptiveLearningEngine) (now : Z)
  : result AdaptiveLearningEngine :=
  if cache_expired self now then
    rates <- Storage.get_pattern_success_rates (storage self) ;;
    prefs <- Storage.get_user_preferences (storage self) None ;;
    Ok {| storage := storage self;
          _pattern_cache := PyDict.of_items (map (load_pattern prefs) rates);
          _cache_timestamp := now |}
  else Ok self.

Definition get_adaptive_recommendation (self : AdaptiveLearningEngine) (now : Z)
           (command description : string) (ctx : Context.t)
  : result (RecommendationScore * AdaptiveLearningEngine) :=
  self <- _load_patterns_cache self now ;;
  let candidate_patterns :=
    _find_candidate_patterns (_pattern_cache self) command description ctx in
  let scored :=
    map (fun p => _calculate_adaptive_score now p command description ctx)
        candidate_patterns in
  match scored with
  | first :: rest =>
      let best := max_by_score first rest in
      Ok (with_flags best (_adjust_flags_for_context (flags best) ctx), self)
  | [] => Ok (_get_fallback_recommendation command description, self)
  end.

End Clock.

(** A rational stand-in for [math.exp] on which the model can run: the
    Taylor polynomial of degree 20 of the exponential, inverted for a
    negative argument. *)
Fixpoint taylor (x : Q) (k : nat) (term acc : Q) (n : nat) : Q :=
  match n with
  | O => acc
  | S n' =>
      let term' := (term * x / inject_Z (Z.of_nat (S k)))%Q in
      taylor x (S k) term' (Qred (acc + term')) n'
  end.

Definition exp_taylor (x : Q) : Q :=
  if Qltb x 0 then Qred (1 / taylor (- x) 0 1 1 20) else taylor x 0 1 1 20.

(** The [priority_patterns] of [_identify_interaction_pattern], in the
    order of the dict. *)
Definition interaction_patterns : PyDict.t (list string) :=
  [ ("analyze_security", ["security"; "보안"; "vulnerability"; "취약점"; "audit"]);
    ("analyze_performance", ["performance"; "성능"; "optimize"; "최적화"; "bottleneck"]);
    ("analyze_architecture", ["architecture"; "아키텍처"; "system design"; "structure"]);
    ("implement_ui", ["component"; "컴포넌트"; "ui"; "interface"; "frontend"]);
    ("implement_api", ["api"; "endpoint"; "backend"; "백엔드"; "server"]);
    ("implement_auth", ["auth"; "인증"; "login"; "user"; "permission"]);
    ("improve_quality", ["improve"; "개선"; "refactor"; "리팩토링"; "cleanup"]);
    ("improve_performance", ["improve"; "개선"; "performance"; "성능"; "optimize"]) ].

Definition _identify_interaction_pattern (interaction : Storage.Interaction)
  : string :=
  let command := Storage.command interaction in
  let description := Storage.description interaction in
  let text := PyStr.lower (command ++ " " ++ description) in
  match find (fun nk => existsb (fun keyword => PyStr.contains keyword text) (snd nk))
             interaction_patterns with
  | Some (pattern_name, _) => pattern_name
  | None => command ++ "_general"
  end.

(** [sum(1 for i in interactions if i['success'])] *)
Definition successes (interactions : list Storage.Interaction) : Z :=
  Z.of_nat (List.length (filter Storage.success interactions)).

(** [interactions[5:10]] is [firstn 5 (skipn 5 interactions)]. *)
Definition _calculate_learning_trend (interactions : list Storage.Interaction)
  : result string :=
  if (Z.of_nat (List.length interactions) <? 5)%Z then Ok "insufficient_data"
  else
    recent_success_rate <- Storage.divide (successes (firstn 5 interactions)) 5 ;;
    let older := firstn 5 (skipn 5 interactions) in
    older_success_rate <-
      Storage.divide (successes older) (Z.min 5 (Z.of_nat (List.length older))) ;;
    if Qltb (older_success_rate + (1 # 10)) recent_success_rate then Ok "improving"
    else if Qltb recent_success_rate (older_success_rate - (1 # 10))
    then Ok "declining"
    else Ok "stable".

(** The engine's measure: a recommendation is accurate when its
    confidence is at least 80 and it succeeded, or at most 60 and it
    failed. *)
Definition _calculate_recommendation_accuracy
           (interactions : list Storage.Interaction) : Q :=
  match interactions with
  | [] => 0
  | _ =>
      let accurate_recommendations :=
        List.length
          (filter (fun i =>
                     (80 <=? Storage.confidence i)%Z && Storage.success i
                     || (Storage.confidence i <=? 60)%Z && negb (Storage.success i))
                  interactions) in
      inject_Z (Z.of_nat accurate_recommendations)
      / inject_Z (Z.of_nat (List.length interactions))
  end.

Definition _calculate_learning_weight (succeeded : bool) (execution_time : Q)
           (user_rating : option Z) : Q :=
  let weight : Q := 0 in
  let weight := if succeeded then weight + (5 # 10) else weight - (3 # 10) in
  let weight :=
    if Qltb execution_time 30 then weight + (2 # 10)
    else if Qltb 120 execution_time then weight - (1 # 10)
    else weight in
  let weight :=
    match user_rating with
    | Some rating =>
        if (4 <=? rating)%Z then weight + (3 # 10)
        else if (rating <=? 2)%Z then weight - (2 # 10)
        else weight
    | None => weight
    end in
  Qmax (- (1)) (Qmin 1 weight).

Definition learning_rate : Q := 1 # 10.

Definition with_storage (self : AdaptiveLearningEngine)
           (s : Storage.LearningStorage) : AdaptiveLearningEngine :=
  {| storage := s;
     _pattern_cache := _pattern_cache self;
     _cache_timestamp := _cache_timestamp self |}.

Section Json.

(** [json.loads] on the text of a [project_context] column, as the dict
    [update_pattern_success] takes. *)
Variable json_loads : string -> result (PyDict.t Q).

(** The cached pattern is changed in place; what the [try] block raises
    is dropped by its [except: pass]. *)
Definition _update_pattern_weights (self : AdaptiveLearningEngine) (now : Z)
           (pattern_name : string) (learning_weight : Q)
           (interaction : Storage.Interaction) : AdaptiveLearningEngine :=
  match PyDict.get pattern_name (_pattern_cache self) with
  | Some pattern =>
      let adjustment := (learning_weight * learning_rate)%Q in
      let new_success_rate := Qmax 0 (Qmin 1 (success_rate pattern + adjustment)) in
      let pattern :=
        {| pattern_id := pattern_id pattern;
           base_flags := base_flags pattern;
           success_rate := new_success_rate;
           usage_count := usage_count pattern;
           confidence_score := confidence_score pattern;
           context_weights := context_weights pattern;
           last_updated := Storage.Iso now;
           user_preference_score := user_preference_score pattern |} in
      let self :=
        {| storage := storage self;
           _pattern_cache := PyDict.set pattern_name pattern (_pattern_cache self);
           _cache_timestamp := _cache_timestamp self |} in
      let attempt :=
        context <- json_loads (Storage.project_context interaction) ;;
        Storage.update_pattern_success (storage self) now pattern_name
                                       (Qltb 0 learning_weight) context in
      match attempt with
      | Ok storage' => with_storage self storage'
      | Raise _ => self
      end
  | None => self
  end.


End Json.

(** [Counter.most_common()]: the items by decreasing count, those of the
    same count in the order they were first counted. *)
Fixpoint insert_by_count (x : string * Z) (l : list (string * Z))
  : list (string * Z) :=
  match l with
  | [] => [x]
  | y :: rest =>
      if (snd y <? snd x)%Z then x :: l else y :: insert_by_count x rest
  end.

Definition most_common (counter : PyDict.t Z) : list (string * Z) :=
  fold_left (fun sorted x => insert_by_count x sorted) counter [].

(** The loop of [_determine_optimal_flags] over [most_common()]; the
    first division raises when the counts add up to 0. *)
Fixpoint select_flags (total_usage : Z) (items : list (string * Z))
  : result (list string) :=
  match items with
  | [] => Ok []
  | (flag, count) :: rest =>
      usage_rate <- Storage.divide count total_usage ;;
      selected_flags <- select_flags total_usage rest ;;
      Ok (if Qltb (3 # 10) usage_rate then flag :: selected_flags
          else selected_flags)
  end.

Definition _determine_optimal_flags (flag_usage : PyDict.t Z) : result string :=
  match flag_usage with
  | [] => Ok "--think --uc"
  | _ =>
      let total_usage := fold_left Z.add (PyDict.values flag_usage) 0%Z in
      selected_flags <- select_flags total_usage (most_common flag_usage) ;;
      match selected_flags with
      | [] => Ok "--think --uc"
      | _ => Ok (PyStr.join " " selected_flags)
      end
  end.

End Engine.

(* ===================================================================== *)
(** ** feedback_processor.py *)
(* ===================================================================== *)

Module Feedback.
Import Py.

Inductive FeedbackType : Type :=
| IMPLICIT_SUCCESS
| IMPLICIT_FAILURE
| EXPLICIT_RATING
| USER_CORRECTION
| PERFORMANCE_FEEDBACK.

(** [FeedbackType.value] *)
Definition value (t : FeedbackType) : string :=
  match t with
  | IMPLICIT_SUCCESS => "implicit_success"
  | IMPLICIT_FAILURE => "implicit_failure"
  | EXPLICIT_RATING => "explicit_rating"
  | USER_CORRECTION => "user_correction"
  | PERFORMANCE_FEEDBACK => "performance_feedback"
  end.

Record ProcessedFeedback : Type := {
  feedback_id : string;
  feedback_type : FeedbackType;
  learning_weight : Q;
  confidence_impact : Q;
  pattern_adjustments : PyDict.t Q;
  personalization_updates : PyDict.t (PyDict.t Q);
  processing_timestamp : Z
}.

(** A line written by [print]: the values its f-string renders. *)
Inductive Printed : Type :=
| PatternAdjustment (key : string) (adjustment : Q)
| PersonalizationUpdate (category key : string) (update : Q)
| BatchUpdate (key : string) (avg_adjustment : Q) (samples : nat).

(** What a processor acts on: its storage and the standard output. *)
Record FeedbackProcessor : Type := {
  storage : Storage.LearningStorage;
  stdout : list Printed
}.

Definition print (self : FeedbackProcessor) (lines : list Printed)
  : FeedbackProcessor :=
  {| storage := storage self; stdout := stdout self ++ lines |}.

Definition implicit_feedback_threshold : Q := 2.
Definition learning_rate : Q := 1 # 10.
Definition confidence_adjustment_factor : Q := 5 # 100.

Definition feedback_weights (t : FeedbackType) : Q :=
  match t with
  | IMPLICIT_SUCCESS => 3 # 10
  | IMPLICIT_FAILURE => 4 # 10
  | EXPLICIT_RATING => 1
  | USER_CORRECTION => 12 # 10
  | PERFORMANCE_FEEDBACK => 6 # 10
  end.

(** The names the module binds at its top level: those of its import
    statements (lines 7 to 16) and of its own definitions. *)
Definition module_globals : list string :=
  [ "json"; "time"; "datetime"; "timedelta";
    "Dict"; "List"; "Optional"; "Any"; "Tuple";
    "dataclass"; "asdict"; "Enum"; "defaultdict";
    "LearningStorage"; "FeedbackRecord"; "get_learning_storage";
    "PersonalizedAdaptiveRecommender"; "get_personalized_recommender";
    "FeedbackType"; "ProcessedFeedback"; "FeedbackAnalysis";
    "FeedbackProcessor"; "_feedback_processor_instance";
    "get_feedback_processor" ].

(** Reading a global name of the module. *)
Definition load_global (name : string) : result unit :=
  if PyStr.mem name module_globals then Ok tt else Raise (NameError name).

Definition _classify_implicit_feedback (succeeded : bool) (execution_time : Q)
           (error_details : option string) : FeedbackType :=
  if succeeded then
    (if Qltb execution_time implicit_feedback_threshold
     then IMPLICIT_SUCCESS else PERFORMANCE_FEEDBACK)
  else IMPLICIT_FAILURE.

Definition _calculate_learning_weight (t : FeedbackType) (succeeded : bool)
           (execution_time : Q) : Q :=
  let base_weight := feedback_weights t in
  let success_multiplier : Q := if succeeded then 1 else 7 # 10 in
  let time_multiplier : Q :=
    if Qltb execution_time 5 then 12 # 10
    else if Qltb 60 execution_time then 8 # 10
    else 1 in
  (base_weight * success_multiplier * time_multiplier)%Q.

Definition _calculate_confidence_impact (t : FeedbackType) (succeeded : bool)
           (execution_time : Q) : Q :=
  let base_impact := confidence_adjustment_factor in
  match t with
  | IMPLICIT_SUCCESS => (base_impact * (5 # 10))%Q
  | IMPLICIT_FAILURE => (- base_impact * (8 # 10))%Q
  | PERFORMANCE_FEEDBACK =>
      if Qltb 30 execution_time then (- base_impact * (3 # 10))%Q
      else (base_impact * (2 # 10))%Q
  | _ => 0
  end.

(** The body of the loop over the flags of the interaction. *)
Definition adjust_for_flag (succeeded : bool) (execution_time : Q)
           (adjustments : PyDict.t Q) (flag : string) : PyDict.t Q :=
  if PyStr.startswith "--persona-" flag then
    let persona := PyStr.replace "--persona-" "" flag in
    if succeeded
    then PyDict.set ("persona_" ++ persona ++ "_boost") (1 # 10) adjustments
    else PyDict.set ("persona_" ++ persona ++ "_penalty") (- (5 # 100))%Q adjustments
  else if PyStr.startswith "--think" flag then
    let thinking_level := PyStr.replace "--" "" flag in
    if Qltb 60 execution_time
    then PyDict.set (thinking_level ++ "_performance_penalty") (- (1 # 10))%Q adjustments
    else if succeeded && Qltb execution_time 30
    then PyDict.set (thinking_level ++ "_performance_boost") (5 # 100) adjustments
    else adjustments
  else adjustments.

Definition _determine_pattern_adjustments (self : FeedbackProcessor) (now : Z)
           (interaction_id : string) (t : FeedbackType) (succeeded : bool)
           (execution_time : Q) : result (PyDict.t Q) :=
  interactions <- Storage.get_user_interactions (storage self) now 1 None ;;
  match find (fun i => String.eqb (PyStr.of_Z (Storage.id i)) interaction_id)
             interactions with
  | None => Ok []
  | Some target_interaction =>
      Ok (fold_left (adjust_for_flag succeeded execution_time)
                    (PyStr.split (Storage.recommended_flags target_interaction))
                    [])
  end.

Definition _prepare_personalization_updates (interaction_id : string)
           (t : FeedbackType) (succeeded : bool) : PyDict.t (PyDict.t Q) :=
  [ ("preference_adjustments",
     if succeeded then [("success_reinforcement", 1 # 10)]
     else [("failure_adjustment", (- (5 # 100))%Q)]);
    ("confidence_updates",
     match t with
     | IMPLICIT_SUCCESS => [("implicit_success_boost", 2 # 100)]
     | IMPLICIT_FAILURE => [("implicit_failure_penalty", (- (3 # 100))%Q)]
     | _ => []
     end);
    ("pattern_reinforcements", []) ].

Definition _apply_immediate_updates (self : FeedbackProcessor)
           (adjustments : PyDict.t Q) (updates : PyDict.t (PyDict.t Q))
  : FeedbackProcessor :=
  let self :=
    print self (map (fun kv => PatternAdjustment (fst kv) (snd kv)) adjustments) in
  print self
        (flat_map (fun cu =>
                     map (fun kv => PersonalizationUpdate (fst cu) (fst kv) (snd kv))
                         (snd cu))
                  updates).

Definition _success_to_rating (succeeded : bool) (execution_time : Q) : Z :=
  if negb succeeded then 1
  else if Qltb execution_time 10 then 5
  else if Qltb execution_time 30 then 4
  else if Qltb execution_time 60 then 3
  else 2.

Definition _calculate_explicit_confidence_impact (user_rating : Z)
           (user_correction : option string) : Q :=
  let rating_impact := (inject_Z (user_rating - 3) * (1 # 10))%Q in
  let correction_penalty : Q :=
    if Storage.truthy user_correction then - (15 # 100) else 0 in
  (rating_impact + correction_penalty)%Q.

Definition _process_explicit_pattern_adjustments (interaction_id : string)
           (user_rating : Z) (user_correction : option string) : PyDict.t Q :=
  let adjustments : PyDict.t Q :=
    if (4 <=? user_rating)%Z then [("explicit_positive_reinforcement", 2 # 10)]
    else if (user_rating <=? 2)%Z
    then [("explicit_negative_adjustment", (- (3 # 10))%Q)]
    else [] in
  match user_correction with
  | Some c =>
      if negb (String.eqb c "") then
        let adjustments := PyDict.set "user_correction_learning" (5 # 10) adjustments in
        if PyStr.contains "--" c
        then PyDict.set "user_suggested_flags" (3 # 10) adjustments
        else adjustments
      else adjustments
  | None => adjustments
  end.

Definition _process_explicit_personalization_updates (interaction_id : string)
           (user_rating : Z) (user_correction : option string)
  : PyDict.t (PyDict.t Q) :=
  [ ("preference_adjustments",
     if (4 <=? user_rating)%Z then [("strong_positive", 3 # 10)]
     else if (user_rating <=? 2)%Z then [("strong_negative", (- (2 # 10))%Q)]
     else []);
    ("confidence_updates", []);
    ("learning_signals",
     [("explicit_feedback_weight", (inject_Z user_rating / 5)%Q)]) ].

Section Host.

(** The working directory of the process, and the first sixteen
    hexadecimal digits of the SHA-256 of a string. *)
Variable cwd : string.
Variable sha256_16 : string -> string.

(** [os.getcwd()]: the name [os] is read from the module's globals. *)
Definition os_getcwd : result string :=
  _ <- load_global "os" ;; Ok cwd.

Definition get_project_hash (project_path : string) : string :=
  sha256_16 project_path.

(** [int(time.time())] *)
Definition unix_time (now : Z) : Z := now / Storage.second.

Definition process_immediate_feedback (self : FeedbackProcessor) (now : Z)
           (interaction_id : string) (succeeded : bool) (execution_time : Q)
           (error_details : option string)
  : result (ProcessedFeedback * FeedbackProcessor) :=
  let feedback_type :=
    _classify_implicit_feedback succeeded execution_time error_details in
  let learning_weight :=
    _calculate_learning_weight feedback_type succeeded execution_time in
  let confidence_impact :=
    _calculate_confidence_impact feedback_type succeeded execution_time in
  pattern_adjustments <-
    _determine_pattern_adjustments self now interaction_id feedback_type
                                   succeeded execution_time ;;
  let personalization_updates :=
    _prepare_personalization_updates interaction_id feedback_type succeeded in
  let rating := _success_to_rating succeeded execution_time in
  path <- os_getcwd ;;
  let feedback_record :=
    {| Storage.fb_timestamp := now;
       Storage.fb_interaction_id := interaction_id;
       Storage.fb_feedback_type := value feedback_type;
       Storage.fb_rating := Some rating;
       Storage.fb_success_indicator := succeeded;
       Storage.fb_user_correction := error_details;
       Storage.fb_user_id := Storage.self_user_id (storage self);
       Storage.fb_project_hash := get_project_hash path |} in
  storage' <- Storage.record_feedback (storage self) feedback_record ;;
  let self := {| storage := storage'; stdout := stdout self |} in
  let self :=
    _apply_immediate_updates self pattern_adjustments personalization_updates in
  Ok ({| feedback_id := interaction_id ++ "_" ++ PyStr.of_Z (unix_time now);
         feedback_type := feedback_type;
         learning_weight := learning_weight;
         confidence_impact := confidence_impact;
         pattern_adjustments := pattern_adjustments;
         personalization_updates := personalization_updates;
         processing_timestamp := now |}, self).

Definition process_explicit_feedback (self : FeedbackProcessor) (now : Z)
           (interaction_id : string) (user_rating : Z)
           (user_correction : option string)
  : result (ProcessedFeedback * FeedbackProcessor) :=
  let feedback_type :=
    if Storage.truthy user_correction then USER_CORRECTION else EXPLICIT_RATING in
  let learning_weight :=
    (feedback_weights feedback_type * (inject_Z user_rating / 5))%Q in
  let confidence_impact :=
    _calculate_explicit_confidence_impact user_rating user_correction in
  let pattern_adjustments :=
    _process_explicit_pattern_adjustments interaction_id user_rating
                                          user_correction in
  let personalization_updates :=
    _process_explicit_personalization_updates interaction_id user_rating
                                              user_correction in
  path <- os_getcwd ;;
  let feedback_record :=
    {| Storage.fb_timestamp := now;
       Storage.fb_interaction_id := interaction_id;
       Storage.fb_feedback_type := value feedback_type;
       Storage.fb_rating := Some user_rating;
       Storage.fb_success_indicator := (3 <=? user_rating)%Z;
       Storage.fb_user_correction := user_correction;
       Storage.fb_user_id := Storage.self_user_id (storage self);
       Storage.fb_project_hash := get_project_hash path |} in
  storage' <- Storage.record_feedback (storage self) feedback_record ;;
  let self := {| storage := storage'; stdout := stdout self |} in
  let self :=
    _apply_immediate_updates self pattern_adjustments personalization_updates in
  Ok ({| feedback_id :=
           interaction_id ++ "_explicit_" ++ PyStr.of_Z (unix_time now);
         feedback_type := feedback_type;
         learning_weight := learning_weight;
         confidence_impact := confidence_impact;
         pattern_adjustments := pattern_adjustments;
         personalization_updates := personalization_updates;
         processing_timestamp := now |}, self).

End Host.

(** The source has no record of what was processed: it answers [False]
    for every interaction. *)
Definition _is_feedback_processed (self : FeedbackProcessor)
           (interaction_id : string) : bool := false.

Definition _calculate_performance_score (succeeded : bool) (execution_time : Q)
  : Q :=
  let success_score : Q := if succeeded then 1 else 0 in
  let time_score : Q :=
    if Qltb 0 execution_time
    then Qmax 0 (Qmin 1 ((30 - execution_time) / 30))
    else 1 # 2 in
  (success_score * (7 # 10) + time_score * (3 # 10))%Q.

Definition _calculate_confidence_accuracy (succeeded : bool) (conf : Z) : Q :=
  let expected_success_prob := (inject_Z conf / 100)%Q in
  let actual_success : Q := if succeeded then 1 else 0 in
  (1 - Qabs (expected_success_prob - actual_success))%Q.

Definition _calculate_learning_value (interaction : Storage.Interaction) : Q :=
  let base_value : Q := 5 # 10 in
  let succeeded := Storage.success interaction in
  let success_value : Q := if succeeded then 3 # 10 else 4 # 10 in
  let execution_time := Storage.execution_time interaction in
  let time_value : Q := if Qltb 0 execution_time then 2 # 10 else 0 in
  let conf := Storage.confidence interaction in
  let confidence_accuracy := _calculate_confidence_accuracy succeeded conf in
  let accuracy_value := ((3 # 10) * (1 - confidence_accuracy))%Q in
  (base_value + success_value + time_value + accuracy_value)%Q.

Record BatchAnalysis : Type := {
  performance_score : Q;
  confidence_accuracy : Q;
  learning_value : Q
}.

Definition _analyze_interaction_for_batch_processing
           (interaction : Storage.Interaction) : option BatchAnalysis :=
  let succeeded := Storage.success interaction in
  let execution_time := Storage.execution_time interaction in
  let conf := Storage.confidence interaction in
  if Qeq_bool execution_time 0 then None
  else Some {| performance_score :=
                 _calculate_performance_score succeeded execution_time;
               confidence_accuracy :=
                 _calculate_confidence_accuracy succeeded conf;
               learning_value := _calculate_learning_value interaction |}.

Definition _create_batch_processed_feedback (now : Z)
           (interaction : Storage.Interaction) (analysis : BatchAnalysis)
  : ProcessedFeedback :=
  let weight := learning_value analysis in
  let impact := (confidence_accuracy analysis * (5 # 100))%Q in
  {| feedback_id :=
       "batch_" ++ PyStr.of_Z (Storage.id interaction) ++ "_"
       ++ PyStr.of_Z (now / Storage.second);
     feedback_type := PERFORMANCE_FEEDBACK;
     learning_weight := weight;
     confidence_impact := impact;
     pattern_adjustments :=
       [ ("batch_performance_adjustment",
          (performance_score analysis * (1 # 10))%Q);
         ("batch_confidence_adjustment", impact) ];
     personalization_updates := [ ("batch_learning", [("weight", weight)]) ];
     processing_timestamp := now |}.

Definition Qsum (l : list Q) : Q := fold_left Qplus l 0.

(** The averaged adjustments [_apply_batch_updates] puts out, one for
    each key that has samples. *)
Definition batch_lines (batch_updates : PyDict.t (list Q)) : list Printed :=
  flat_map (fun kv =>
              match snd kv with
              | [] => []
              | values =>
                  [ BatchUpdate (fst kv)
                                (Qsum values / inject_Z (Z.of_nat (List.length values)))
                                (List.length values) ]
              end)
           batch_updates.

Definition _apply_batch_updates (self : FeedbackProcessor)
           (batch_updates : PyDict.t (list Q)) : FeedbackProcessor :=
  print self (batch_lines batch_updates).

(** [batch_updates[key].append(value)] on a [defaultdict(list)] *)
Definition collect (batch_updates : PyDict.t (list Q)) (kv : string * Q)
  : PyDict.t (list Q) :=
  PyDict.set (fst kv)
             (PyDict.get_default (fst kv) [] batch_updates ++ [snd kv])%list
             batch_updates.

(** The body of the loop of [process_batch_feedback] over the recent
    interactions. *)
Definition batch_step (self : FeedbackProcessor) (now : Z)
           (acc : list ProcessedFeedback * PyDict.t (list Q))
           (interaction : Storage.Interaction)
  : list ProcessedFeedback * PyDict.t (list Q) :=
  if negb (_is_feedback_processed self (PyStr.of_Z (Storage.id interaction))) then
    match _analyze_interaction_for_batch_processing interaction with
    | Some analysis =>
        let processed := _create_batch_processed_feedback now interaction analysis in
        ((fst acc ++ [processed])%list,
         fold_left collect (pattern_adjustments processed) (snd acc))
    | None => acc
    end
  else acc.

Definition process_batch_feedback (self : FeedbackProcessor) (now : Z) (days : Z)
  : result (list ProcessedFeedback * FeedbackProcessor) :=
  recent_interactions <- Storage.get_user_interactions (storage self) now days None ;;
  let '(processed_feedbacks, batch_updates) :=
    fold_left (batch_step self now) recent_interactions ([], []) in
  Ok (processed_feedbacks, _apply_batch_updates self batch_updates).

(** The values of the dict [improvement_trends]. *)
Inductive TrendValue : Type :=
| TrendFlag (b : bool)
| TrendNumber (x : Q)
| TrendName (s : string).

Record FeedbackAnalysis : Type := {
  total_feedback_count : Z;
  positive_feedback_ratio : Q;
  negative_feedback_ratio : Q;
  average_response_time : Q;
  improvement_trends : PyDict.t TrendValue;
  user_satisfaction_score : Q;
  recommendation_accuracy : Q
}.

Definition _create_empty_analysis : FeedbackAnalysis :=
  {| total_feedback_count := 0;
     positive_feedback_ratio := 0;
     negative_feedback_ratio := 0;
     average_response_time := 0;
     improvement_trends := [];
     user_satisfaction_score := 0;
     recommendation_accuracy := 0 |}.

(** [len(l)] as a number. *)
Definition len {A : Type} (l : list A) : Q := inject_Z (Z.of_nat (List.length l)).

(** [sum(1 for i in interactions if i.get('success', False))] *)
Definition success_count (interactions : list Storage.Interaction) : Q :=
  len (filter Storage.success interactions).

(** [sorted(interactions, key=lambda x: x['timestamp'])]: the sort is
    stable. *)
Fixpoint insert_by_timestamp (x : Storage.Interaction)
         (l : list Storage.Interaction) : list Storage.Interaction :=
  match l with
  | [] => [x]
  | y :: rest =>
      if (Storage.timestamp x <? Storage.timestamp y)%Z then x :: l
      else y :: insert_by_timestamp x rest
  end.

Definition sorted_by_timestamp (l : list Storage.Interaction)
  : list Storage.Interaction :=
  fold_left (fun sorted x => insert_by_timestamp x sorted) l [].

(** The halves hold at least five interactions each, so that the
    divisions are by positive numbers. *)
Definition _calculate_improvement_trends (interactions : list Storage.Interaction)
  : PyDict.t TrendValue :=
  if (List.length interactions <? 10)%nat then [("insufficient_data", TrendFlag true)]
  else
    let sorted_interactions := sorted_by_timestamp interactions in
    let mid_point := (List.length sorted_interactions / 2)%nat in
    let first_half := firstn mid_point sorted_interactions in
    let second_half := skipn mid_point sorted_interactions in
    let first_success_rate := (success_count first_half / len first_half)%Q in
    let second_success_rate := (success_count second_half / len second_half)%Q in
    let success_improvement := (second_success_rate - first_success_rate)%Q in
    let first_confidence :=
      (Qsum (map (fun i => inject_Z (Storage.confidence i)) first_half)
       / len first_half)%Q in
    let second_confidence :=
      (Qsum (map (fun i => inject_Z (Storage.confidence i)) second_half)
       / len second_half)%Q in
    let confidence_improvement := (second_confidence - first_confidence)%Q in
    [ ("success_rate_improvement", TrendNumber success_improvement);
      ("confidence_improvement", TrendNumber confidence_improvement);
      ("overall_trend",
       TrendName (if Qltb (5 # 100) success_improvement then "improving"
                  else if Qltb (- (5 # 100)) success_improvement then "stable"
                  else "declining")) ].

(** A recommendation of high confidence that succeeded, or of low
    confidence that failed. *)
Definition confidence_matches (i : Storage.Interaction) : bool :=
  (80 <=? Storage.confidence i)%Z && Storage.success i
  || (Storage.confidence i <=? 60)%Z && negb (Storage.success i).

Definition _calculate_user_satisfaction (interactions : list Storage.Interaction)
  : Q :=
  match interactions with
  | [] => 0
  | _ =>
      let success_rate := (success_count interactions / len interactions)%Q in
      let execution_times := map Storage.execution_time interactions in
      let avg_execution_time := (Qsum execution_times / len execution_times)%Q in
      let time_satisfaction := Qmax 0 (Qmin 1 ((60 - avg_execution_time) / 60)) in
      let accuracy_scores :=
        map (fun i => if confidence_matches i then 1 else 0) interactions in
      let accuracy_satisfaction :=
        match accuracy_scores with
        | [] => 1 # 2
        | _ => (Qsum accuracy_scores / len accuracy_scores)%Q
        end in
      let overall_satisfaction :=
        (success_rate * (5 # 10) + time_satisfaction * (3 # 10)
         + accuracy_satisfaction * (2 # 10))%Q in
      Qmin 1 (Qmax 0 overall_satisfaction)
  end.

(** The processor's measure: a recommendation is accurate when it
    succeeded, or when its confidence was at most 60. *)
Definition _calculate_recommendation_accuracy
           (interactions : list Storage.Interaction) : Q :=
  match interactions with
  | [] => 0
  | _ =>
      let accurate_count :=
        filter (fun i =>
                  if (80 <=? Storage.confidence i)%Z then Storage.success i
                  else if (Storage.confidence i <=? 60)%Z then true
                  else Storage.success i)
               interactions in
      (len accurate_count / len interactions)%Q
  end.

Definition analyze_feedback_trends (self : FeedbackProcessor) (now : Z) (days : Z)
  : result FeedbackAnalysis :=
  interactions <- Storage.get_user_interactions (storage self) now days None ;;
  match interactions with
  | [] => Ok _create_empty_analysis
  | _ =>
      let total_count := len interactions in
      let successful_count := success_count interactions in
      let positive_ratio := (successful_count / total_count)%Q in
      let execution_times :=
        filter (fun t => negb (Qeq_bool t 0))
               (map Storage.execution_time interactions) in
      let avg_response_time :=
        match execution_times with
        | [] => 0
        | _ => (Qsum execution_times / len execution_times)%Q
        end in
      Ok {| total_feedback_count := Z.of_nat (List.length interactions);
            positive_feedback_ratio := positive_ratio;
            negative_feedback_ratio := 1 - positive_ratio;
            average_response_time := avg_response_time;
            improvement_trends := _calculate_improvement_trends interactions;
            user_satisfaction_score := _calculate_user_satisfaction interactions;
            recommendation_accuracy :=
              _calculate_recommendation_accuracy interactions |}
  end.

Definition _calculate_pattern_performance_score (success_rate avg_time : Q) : Q :=
  let success_score := (success_rate * (7 # 10))%Q in
  let time_score :=
    if Qltb 0 avg_time
    then Qmax 0 (Qmin (3 # 10) ((60 - avg_time) / 60 * (3 # 10)))
    else 15 # 100 in
  (success_score + time_score)%Q.

End Feedback.

(* ===================================================================== *)
(** ** performance_optimizer.py *)
(* ===================================================================== *)

Module Optimizer.
Import Py.

(** The values a cache entry holds under its keys. *)
Inductive Val : Type :=
| VStr (s : string)
| VInt (n : Z)
| VTime (instant : Z)
| VBool (b : bool).

(** A cache entry is a dict: [{'flags': ..., 'confidence': ...,
    'timestamp': ...}] when it is stored, with further keys once the
    background worker has updated it. *)
Definition Entry : Type := PyDict.t Val.

Record QuickRecommendation : Type := {
  flags : string;
  confidence : Z;
  reasoning : string;
  response_time_ms : Q;
  is_enhanced : bool;
  enhanced_flags : option string;
  enhanced_confidence : option Z
}.

Record Metrics : Type := {
  total_requests : Z;
  cache_hits : Z;
  quick_responses : Z;
  enhanced_responses : Z
}.

Record Task : Type := {
  task_user_input : string;
  task_context : Context.t;
  task_cache_key : string;
  task_timestamp : Z
}.

Record PerformanceOptimizer : Type := {
  pattern_cache : PyDict.t Entry;
  metrics : Metrics;
  background_queue : list Task;
  is_processing : bool
}.

Definition cache_ttl : Z := 1800 * Storage.second.

Definition with_cache (self : PerformanceOptimizer) (c : PyDict.t Entry)
  : PerformanceOptimizer :=
  {| pattern_cache := c;
     metrics := metrics self;
     background_queue := background_queue self;
     is_processing := is_processing self |}.

Definition with_metrics (self : PerformanceOptimizer) (m : Metrics)
  : PerformanceOptimizer :=
  {| pattern_cache := pattern_cache self;
     metrics := m;
     background_queue := background_queue self;
     is_processing := is_processing self |}.

(** [entry[key]] where the code goes on with a string, an integer or a
    time; an entry of another shape is an error. *)
Definition get_str (key : string) (e : Entry) : result string :=
  match PyDict.get key e with
  | Some (VStr s) => Ok s
  | Some _ => Raise (TypeError ("'" ++ key ++ "' is not a str"))
  | None => Raise (KeyError key)
  end.

Definition get_int (key : string) (e : Entry) : result Z :=
  match PyDict.get key e with
  | Some (VInt n) => Ok n
  | Some _ => Raise (TypeError ("'" ++ key ++ "' is not an int"))
  | None => Raise (KeyError key)
  end.

Definition get_time (key : string) (e : Entry) : result Z :=
  match PyDict.get key e with
  | Some (VTime t) => Ok t
  | Some _ => Raise (TypeError ("'" ++ key ++ "' is not a datetime"))
  | None => Raise (KeyError key)
  end.

Definition _adjust_flags_for_context (base : string) (ctx : Context.t) : string :=
  let flags := base in
  let complexity := Context.get (Context.complexity ctx) "moderate" in
  let flags :=
    if String.eqb complexity "complex"
       && PyStr.contains "--think" flags
       && negb (PyStr.contains "--think-hard" flags)
    then PyStr.replace "--think" "--think-hard" flags
    else flags in
  let file_count := Context.get (Context.file_count ctx) 0%Z in
  if (file_count >? 50)%Z && negb (PyStr.contains "--delegate" flags)
  then flags ++ " --delegate"
  else flags.

Record QuickPattern : Type := {
  quick_keywords : list string;
  quick_flags : string;
  quick_confidence : Z
}.

Definition priority_patterns : PyDict.t QuickPattern :=
  [ ("security",
     {| quick_keywords := ["security"; "보안"; "vulnerability"; "취약점"; "audit"];
        quick_flags := "--persona-security --focus security --validate --uc";
        quick_confidence := 95 |});
    ("performance",
     {| quick_keywords := ["performance"; "성능"; "optimize"; "최적화"; "bottleneck"];
        quick_flags := "--persona-performance --think-hard --focus performance --uc";
        quick_confidence := 90 |});
    ("frontend",
     {| quick_keywords := ["react"; "vue"; "component"; "컴포넌트"; "ui"; "interface"];
        quick_flags := "--persona-frontend --magic --c7 --uc";
        quick_confidence := 94 |});
    ("backend",
     {| quick_keywords := ["api"; "server"; "서버"; "backend"; "database"];
        quick_flags := "--persona-backend --seq --c7 --uc";
        quick_confidence := 92 |});
    ("architecture",
     {| quick_keywords := ["architecture"; "아키텍처"; "design"; "pattern"];
        quick_flags := "--persona-architect --ultrathink --seq --uc";
        quick_confidence := 95 |}) ].

Definition _quick_pattern_match (command description : string) (ctx : Context.t)
  : string * Z * string :=
  let text := PyStr.lower (command ++ " " ++ description) in
  match find (fun np => existsb (fun k => PyStr.contains k text)
                                (quick_keywords (snd np)))
             priority_patterns with
  | Some (pattern_name, pattern_info) =>
      (_adjust_flags_for_context (quick_flags pattern_info) ctx,
       quick_confidence pattern_info,
       "빠른 패턴 매칭: " ++ pattern_name)
  | None =>
      let '(fl, conf) :=
        if String.eqb command "analyze"
        then ("--persona-analyzer --think --uc", 80%Z)
        else if String.eqb command "implement"
        then ((if PyStr.startswith "python"
                    (Context.get (Context.project_type ctx) "")
               then "--persona-backend --c7 --uc"
               else "--persona-frontend --magic --uc"), 75%Z)
        else if String.eqb command "improve"
        then ("--persona-refactorer --loop --uc", 85%Z)
        else ("--think --uc", 60%Z) in
      (_adjust_flags_for_context fl ctx, conf, "기본 명령어 패턴: " ++ command)
  end.

(** The entry under [cache_key] when it is younger than the TTL; an
    expired entry is deleted.  The optimizer is returned as the call
    leaves it, also when the call raises. *)
Definition _get_cached_recommendation (self : PerformanceOptimizer) (now : Z)
           (cache_key : string) : result (option Entry) * PerformanceOptimizer :=
  match PyDict.get cache_key (pattern_cache self) with
  | Some cached =>
      match get_time "timestamp" cached with
      | Ok stamp =>
          if (now - stamp <? cache_ttl)%Z then (Ok (Some cached), self)
          else (Ok None,
                with_cache self (PyDict.remove cache_key (pattern_cache self)))
      | Raise e => (Raise e, self)
      end
  | None => (Ok None, self)
  end.

(** [min(cache.keys(), key=lambda k: cache[k]['timestamp'])]: the first
    of the keys with the least time stamp. *)
Fixpoint oldest_from (best : string) (best_stamp : Z) (c : PyDict.t Entry)
  : result string :=
  match c with
  | [] => Ok best
  | (k, e) :: rest =>
      stamp <- get_time "timestamp" e ;;
      if (stamp <? best_stamp)%Z then oldest_from k stamp rest
      else oldest_from best best_stamp rest
  end.

Definition oldest_key (c : PyDict.t Entry) : result (option string) :=
  match c with
  | [] => Ok None
  | (k, e) :: rest =>
      stamp <- get_time "timestamp" e ;;
      key <- oldest_from k stamp rest ;;
      Ok (Some key)
  end.

Definition _cache_recommendation (self : PerformanceOptimizer) (cache_key : string)
           (recommendation : Entry) : result unit * PerformanceOptimizer :=
  let self := with_cache self (PyDict.set cache_key recommendation (pattern_cache self)) in
  if (1000 <? Z.of_nat (List.length (pattern_cache self)))%Z then
    match oldest_key (pattern_cache self) with
    | Ok (Some k) => (Ok tt, with_cache self (PyDict.remove k (pattern_cache self)))
    | Ok None => (Ok tt, self)
    | Raise e => (Raise e, self)
    end
  else (Ok tt, self).

Definition _queue_background_enhancement (self : PerformanceOptimizer) (now : Z)
           (user_input : string) (ctx : Context.t) (cache_key : string)
  : PerformanceOptimizer :=
  {| pattern_cache := pattern_cache self;
     metrics := metrics self;
     background_queue :=
       background_queue self ++
         [ {| task_user_input := user_input;
              task_context := ctx;
              task_cache_key := cache_key;
              task_timestamp := now |} ];
     is_processing := true |}.

Definition _process_learning_enhancement (task : Task) : option Entry :=
  Some [ ("enhanced_flags",
          VStr (Context.get (Context.enhanced_flags (task_context task)) ""));
         ("enhanced_confidence", VInt 95);
         ("enhancement_reasoning", VStr "학습 기반 개선 완료") ].

Definition _update_enhanced_cache (self : PerformanceOptimizer) (cache_key : string)
           (enhanced_result : Entry) : PerformanceOptimizer :=
  match PyDict.get cache_key (pattern_cache self) with
  | Some entry =>
      let entry := PyDict.update enhanced_result entry in
      let entry := PyDict.set "enhanced" (VBool true) entry in
      with_cache self (PyDict.set cache_key entry (pattern_cache self))
  | None => self
  end.

(** One turn of the loop of the background worker: the first task of the
    queue is taken and its result written into the cache. *)
Definition background_step (self : PerformanceOptimizer) : PerformanceOptimizer :=
  match background_queue self with
  | [] => self
  | task :: rest =>
      let self :=
        {| pattern_cache := pattern_cache self;
           metrics := metrics self;
           background_queue := rest;
           is_processing := is_processing self |} in
      match _process_learning_enhancement task with
      | Some ((_ :: _) as enhanced_result) =>
          let self := _update_enhanced_cache self (task_cache_key task) enhanced_result in
          with_metrics self
            {| total_requests := total_requests (metrics self);
               cache_hits := cache_hits (metrics self);
               quick_responses := quick_responses (metrics self);
               enhanced_responses := enhanced_responses (metrics self) + 1 |}
      | _ => self
      end
  end.

Definition hit (self : PerformanceOptimizer) : PerformanceOptimizer :=
  with_metrics self
    {| total_requests := total_requests (metrics self);
       cache_hits := cache_hits (metrics self) + 1;
       quick_responses := quick_responses (metrics self);
       enhanced_responses := enhanced_responses (metrics self) |}.

Definition quick (self : PerformanceOptimizer) : PerformanceOptimizer :=
  with_metrics self
    {| total_requests := total_requests (metrics self);
       cache_hits := cache_hits (metrics self);
       quick_responses := quick_responses (metrics self) + 1;
       enhanced_responses := enhanced_responses (metrics self) |}.

(** The [except Exception] branch of [get_quick_recommendation]. *)
Definition recovered (e : exn) (response_time : Q) : QuickRecommendation :=
  {| flags := "--think --uc";
     confidence := 60;
     reasoning := "⚡ 기본 추천 (오류 복구: " ++ String.substring 0 50 (exn_str e) ++ "...)";
     response_time_ms := response_time;
     is_enhanced := false;
     enhanced_flags := None;
     enhanced_confidence := None |}.

Section Hash.

(** The built-in [hash] on strings. *)
Variable py_hash : string -> Z.

Definition make_cache_key (command description : string) (ctx : Context.t)
  : string :=
  command ++ ":" ++ PyStr.of_Z (py_hash description) ++ ":"
  ++ Context.get (Context.project_type ctx) "unknown".

(** [response_time] is the time the call measures for itself, in
    milliseconds. *)
Definition get_quick_recommendation (self : PerformanceOptimizer) (now : Z)
           (response_time : Q) (user_input command description : string)
           (ctx : Context.t) : QuickRecommendation * PerformanceOptimizer :=
  let cache_key := make_cache_key command description ctx in
  match _get_cached_recommendation self now cache_key with
  | (Raise e, self) => (recovered e response_time, self)
  | (Ok (Some ((_ :: _) as cached_result)), self) =>
      let self := hit self in
      match get_str "flags" cached_result with
      | Raise e => (recovered e response_time, self)
      | Ok cached_flags =>
          match get_int "confidence" cached_result with
          | Raise e => (recovered e response_time, self)
          | Ok cached_confidence =>
              ({| flags := cached_flags;
                  confidence := cached_confidence;
                  reasoning := "⚡ 캐시된 추천 (응답시간: " ++ format_1f response_time ++ "ms)";
                  response_time_ms := response_time;
                  is_enhanced := false;
                  enhanced_flags := None;
                  enhanced_confidence := None |}, self)
          end
      end
  | (Ok _, self) =>
      let '(quick_fl, conf, _) := _quick_pattern_match command description ctx in
      let self := quick self in
      match _cache_recommendation self cache_key
              [ ("flags", VStr quick_fl);
                ("confidence", VInt conf);
                ("timestamp", VTime now) ] with
      | (Raise e, self) => (recovered e response_time, self)
      | (Ok _, self) =>
          let self :=
            _queue_background_enhancement self now user_input ctx cache_key in
          ({| flags := quick_fl;
              confidence := conf;
              reasoning := "⚡ 즉시 추천 (응답시간: " ++ format_1f response_time ++ "ms) • 학습 개선 진행 중...";
              response_time_ms := response_time;
              is_enhanced := false;
              enhanced_flags := None;
              enhanced_confidence := None |}, self)
      end
  end.

(** [quick_recommend]: the request is counted on the global optimizer,
    which then answers it. *)
Definition quick_recommend (optimizer : PerformanceOptimizer) (now : Z)
           (response_time : Q) (user_input command description : string)
           (ctx : Context.t) : QuickRecommendation * PerformanceOptimizer :=
  let optimizer :=
    with_metrics optimizer
      {| total_requests := total_requests (metrics optimizer) + 1;
         cache_hits := cache_hits (metrics optimizer);
         quick_responses := quick_responses (metrics optimizer);
         enhanced_responses := enhanced_responses (metrics optimizer) |} in
  get_quick_recommendation optimizer now response_time user_input command
                           description ctx.

End Hash.

(** The key [cache_hit_rate] that [get_performance_metrics] adds to the
    metrics it returns. *)
Definition cache_hit_rate (self : PerformanceOptimizer) : Q :=
  if (total_requests (metrics self) >? 0)%Z
  then inject_Z (cache_hits (metrics self)) / inject_Z (total_requests (metrics self))
  else 0.

Definition get_performance_metrics (self : PerformanceOptimizer) : Metrics * Q :=
  (metrics self, cache_hit_rate self).

End Optimizer.

(* ===================================================================== *)
(** ** data_collector.py *)
(* ===================================================================== *)

Module Collector.
Import Py.

(** The dataclass [UserInteraction] of [learning_storage.py]. *)
Record UserInteraction : Type := {
  timestamp : Z;
  user_input : string;
  command : string;
  description : string;
  recommended_flags : string;
  actual_flags : string;
  project_context : Context.t;
  success : bool;
  execution_time : Q;
  confidence : Z;
  reasoning : string;
  user_id : string;
  project_hash : string
}.

(** The collector: its storage, the id of the interaction that is under
    way and the time it started at. *)
Record LearningDataCollector : Type := {
  storage : Storage.LearningStorage;
  current_interaction_id : option string;
  interaction_start_time : option Z
}.

(** [not x] for the two optional attributes: [None], the empty string and
    the time 0 are false. *)
Definition no_id (o : option string) : bool := negb (Storage.truthy o).

Definition no_time (o : option Z) : bool :=
  match o with
  | Some t => (t =? 0)%Z
  | None => true
  end.

(** The regular expression is that of the preprocessor; it is tried only
    on an input that starts with [/sc:] as it stands. *)
Definition _parse_user_input (user_input : string) : string * string :=
  if PyStr.startswith "/sc:" user_input
  then Preprocessor._parse_sc_command user_input
  else ("unknown", user_input).

Definition _analyze_success (command : string) (reported_success : bool)
           (error_message : option string) (execution_time : Q) : bool :=
  if negb reported_success then false
  else if Qltb execution_time 1
          && PyStr.mem command ["implement"; "analyze"; "improve"]
  then false
  else if Storage.truthy error_message
          && existsb (fun keyword =>
                        PyStr.contains keyword
                          (PyStr.lower (match error_message with
                                        | Some m => m
                                        | None => ""
                                        end)))
                     ["error"; "failed"; "exception"]
  then false
  else true.

Definition pattern_keywords : PyDict.t (list string) :=
  [ ("analyze_security", ["security"; "보안"; "vulnerability"; "취약점"]);
    ("analyze_performance", ["performance"; "성능"; "optimize"; "최적화"]);
    ("implement_ui", ["component"; "컴포넌트"; "ui"; "interface"]);
    ("implement_api", ["api"; "endpoint"; "backend"; "백엔드"]);
    ("improve_quality", ["improve"; "개선"; "refactor"; "리팩토링"]) ].

Definition _identify_pattern (command description : string) : string :=
  let text := PyStr.lower (command ++ " " ++ description) in
  match find (fun nk => existsb (fun keyword => PyStr.contains keyword text) (snd nk))
             pattern_keywords with
  | Some (pattern_name, _) => pattern_name
  | None => command ++ "_general"
  end.

Definition _calculate_implicit_rating (succeeded : bool) (execution_time : Q) : Z :=
  if negb succeeded then 1
  else if Qltb execution_time 10 then 5
  else if Qltb execution_time 30 then 4
  else if Qltb execution_time 60 then 3
  else if Qltb execution_time 120 then 2
  else 1.

Definition with_storage (self : LearningDataCollector)
           (s : Storage.LearningStorage) : LearningDataCollector :=
  {| storage := s;
     current_interaction_id := current_interaction_id self;
     interaction_start_time := interaction_start_time self |}.

Section Host.

(** The working directory of the process, the first sixteen hexadecimal
    digits of the SHA-256 of a string, and [json.dumps] and [json.loads]
    on a project context. *)
Variable cwd : string.
Variable sha256_16 : string -> string.
Variable json_dumps : Context.t -> string.
Variable json_loads : string -> result (PyDict.t Q).

(** [LearningStorage.record_interaction]: the row is added under the id
    SQLite assigns, [rowid], which is returned as a string. *)
Definition record_interaction (s : Storage.LearningStorage) (rowid : Z)
           (interaction : UserInteraction)
  : result (string * Storage.LearningStorage) :=
  db <- Storage.connect s ;;
  Ok (PyStr.of_Z rowid,
      Storage.with_db s
        {| Storage.interactions :=
             Storage.interactions db ++
               [ {| Storage.id := rowid;
                    Storage.timestamp := timestamp interaction;
                    Storage.user_input := user_input interaction;
                    Storage.command := command interaction;
                    Storage.description := description interaction;
                    Storage.recommended_flags := recommended_flags interaction;
                    Storage.actual_flags := actual_flags interaction;
                    Storage.project_context :=
                      json_dumps (project_context interaction);
                    Storage.success := success interaction;
                    Storage.execution_time := execution_time interaction;
                    Storage.confidence := confidence interaction;
                    Storage.reasoning := reasoning interaction;
                    Storage.user_id := user_id interaction;
                    Storage.project_hash := project_hash interaction |} ];
           Storage.feedback := Storage.feedback db;
           Storage.pattern_success := Storage.pattern_success db;
           Storage.user_preferences := Storage.user_preferences db |}).

(** The collector is returned as the call leaves it, also when the call
    raises. *)
Definition start_interaction (self : LearningDataCollector) (now : Z) (rowid : Z)
           (input flags : string) (conf : Z) (why : string)
           (context : Context.t) : result string * LearningDataCollector :=
  let self :=
    {| storage := storage self;
       current_interaction_id := current_interaction_id self;
       interaction_start_time := Some now |} in
  let '(parsed_command, parsed_description) := _parse_user_input input in
  let interaction :=
    {| timestamp := now;
       user_input := input;
       command := parsed_command;
       description := parsed_description;
       recommended_flags := flags;
       actual_flags := "";
       project_context := context;
       success := false;
       execution_time := 0;
       confidence := conf;
       reasoning := why;
       user_id := Storage.self_user_id (storage self);
       project_hash := sha256_16 cwd |} in
  match record_interaction (storage self) rowid interaction with
  | Ok (interaction_id, storage') =>
      (Ok interaction_id,
       {| storage := storage';
          current_interaction_id := Some interaction_id;
          interaction_start_time := Some now |})
  | Raise e => (Raise e, self)
  end.

Definition record_implicit_feedback (self : LearningDataCollector) (now : Z)
           (succeeded : bool) (elapsed : Q) : result LearningDataCollector :=
  if no_id (current_interaction_id self) then Ok self
  else
    storage' <-
      Storage.record_feedback (storage self)
        {| Storage.fb_timestamp := now;
           Storage.fb_interaction_id :=
             match current_interaction_id self with Some i => i | None => "" end;
           Storage.fb_feedback_type := "implicit";
           Storage.fb_rating := Some (_calculate_implicit_rating succeeded elapsed);
           Storage.fb_success_indicator := succeeded;
           Storage.fb_user_correction := None;
           Storage.fb_user_id := Storage.self_user_id (storage self);
           Storage.fb_project_hash := sha256_16 cwd |} ;;
    Ok (with_storage self storage').

Definition record_explicit_feedback (self : LearningDataCollector) (now : Z)
           (rating : Z) (correction : option string)
  : result LearningDataCollector :=
  if no_id (current_interaction_id self) then Ok self
  else
    storage' <-
      Storage.record_feedback (storage self)
        {| Storage.fb_timestamp := now;
           Storage.fb_interaction_id :=
             match current_interaction_id self with Some i => i | None => "" end;
           Storage.fb_feedback_type := "explicit";
           Storage.fb_rating := Some rating;
           Storage.fb_success_indicator := (3 <=? rating)%Z;
           Storage.fb_user_correction := correction;
           Storage.fb_user_id := Storage.self_user_id (storage self);
           Storage.fb_project_hash := sha256_16 cwd |} ;;
    Ok (with_storage self storage').

(** What the body of the loop of [end_interaction] does for the row it
    finds: the [UserInteraction] it builds is dropped, the success of the
    pattern is counted and the implicit feedback recorded. *)
Definition close_interaction (self : LearningDataCollector) (now : Z)
           (elapsed : Q) (succeeded : bool) (error_message : option string)
           (interaction : Storage.Interaction) : result LearningDataCollector :=
  let analyzed_success :=
    _analyze_success (Storage.command interaction) succeeded error_message
                     elapsed in
  _ <- json_loads (Storage.project_context interaction) ;;
  let pattern_name :=
    _identify_pattern (Storage.command interaction)
                      (Storage.description interaction) in
  self <-
    (if negb (String.eqb pattern_name "") then
       context <- json_loads (Storage.project_context interaction) ;;
       storage' <- Storage.update_pattern_success (storage self) now pattern_name
                     analyzed_success context ;;
       Ok (with_storage self storage')
     else Ok self) ;;
  record_implicit_feedback self now analyzed_success elapsed.

(** The collector is returned unchanged when the call raises: the rows
    are written by the last two statements of the loop, and the second
    does not raise where the first did not. *)
Definition end_interaction (self : LearningDataCollector) (now : Z)
           (flags : string) (succeeded : bool) (error_message : option string)
  : result LearningDataCollector :=
  if no_id (current_interaction_id self) || no_time (interaction_start_time self)
  then Ok self
  else
    let started := match interaction_start_time self with Some t => t | None => 0%Z end in
    let elapsed := (inject_Z (now - started) / inject_Z Storage.second)%Q in
    interactions <- Storage.get_user_interactions (storage self) now 1 None ;;
    self <-
      match find (fun i =>
                    String.eqb (PyStr.of_Z (Storage.id i))
                      (match current_interaction_id self with
                       | Some i => i
                       | None => ""
                       end))
                 interactions with
      | Some interaction =>
          close_interaction self now elapsed succeeded error_message interaction
      | None => Ok self
      end ;;
    Ok {| storage := storage self;
          current_interaction_id := None;
          interaction_start_time := None |}.

End Host.

End Collector.

(* ===================================================================== *)
(** ** adaptive_recommender.py *)
(* ===================================================================== *)

Module Recommender.
Import Py.

(** The dataclass [UserProfile]. *)
Record UserProfile : Type := {
  user_id : string;
  preferred_personas : PyDict.t Q;
  preferred_thinking_levels : PyDict.t Q;
  preferred_mcp_servers : PyDict.t Q;
  project_type_preferences : PyDict.t Q;
  complexity_preferences : PyDict.t Q;
  success_patterns : PyDict.t Q;
  last_updated : Storage.IsoText;
  total_interactions : Z
}.

(** The parameters [__init__] sets. *)
Definition personalization_weight : Q := 4 # 10.
Definition min_interactions_for_personalization : Z := 10.

(** A value of the dict [personalization_factors]. *)
Inductive Factor : Type :=
| FactorFlag (b : bool)
| FactorFloat (x : Q)
| FactorInt (n : Z).

(** The dict [_apply_personalization] returns. *)
Record Personalized : Type := {
  flags : string;
  confidence : Z;
  reasoning : list string;
  personalization_factors : PyDict.t Factor;
  fallback_used : bool
}.

(** [sorted(d.items(), key=lambda x: x[1], reverse=True)]: the items by
    decreasing value, those of the same value in the order of the dict. *)
Fixpoint insert_by_value (x : string * Q) (l : list (string * Q))
  : list (string * Q) :=
  match l with
  | [] => [x]
  | y :: rest =>
      if Qltb (snd y) (snd x) then x :: l else y :: insert_by_value x rest
  end.

Definition sorted_by_value (d : PyDict.t Q) : list (string * Q) :=
  fold_left (fun sorted x => insert_by_value x sorted) d [].

(** [max(d.items(), key=lambda x: x[1])]: the first of the items with the
    highest value. *)
Fixpoint max_by_value (best : string * Q) (l : list (string * Q)) : string * Q :=
  match l with
  | [] => best
  | x :: rest =>
      if Qltb (snd best) (snd x) then max_by_value x rest
      else max_by_value best rest
  end.

Definition incompatible_pairs : list (string * string) :=
  [ ("frontend", "backend"); ("security", "performance") ].

(** [x in pair] *)
Definition in_pair (x : string) (pair : string * string) : bool :=
  String.eqb x (fst pair) || String.eqb x (snd pair).

Definition _is_compatible_persona (persona : string) (current_personas : list string)
  : bool :=
  forallb (fun existing =>
             forallb (fun pair =>
                        negb (in_pair persona pair && in_pair existing pair
                              && negb (String.eqb persona existing)))
                     incompatible_pairs)
          current_personas.

Definition is_persona_flag (flag : string) : bool :=
  PyStr.startswith "--persona-" flag.

(** [flag.replace('--persona-', '')] *)
Definition persona_of (flag : string) : string :=
  PyStr.replace "--persona-" "" flag.

Definition _personalize_personas (flags : string) (preferred_personas : PyDict.t Q)
  : string :=
  match preferred_personas with
  | [] => flags
  | _ :: _ =>
      let current_personas :=
        map persona_of (filter is_persona_flag (PyStr.split flags)) in
      let flag_parts :=
        map (fun flag =>
               if is_persona_flag flag
                  && Qltb (PyDict.get_default (persona_of flag) (1 # 2)
                             preferred_personas) (3 # 10)
                  && (1 <? List.length current_personas)%nat
               then "" else flag)
            (PyStr.split flags) in
      let added :=
        match find (fun item =>
                      Qltb (8 # 10) (snd item)
                      && negb (PyStr.contains ("--persona-" ++ fst item) flags)
                      && _is_compatible_persona (fst item) current_personas)
                   (sorted_by_value preferred_personas) with
        | Some (persona, _) => ["--persona-" ++ persona]
        | None => []
        end in
      PyStr.join " "
        (filter (fun part => negb (String.eqb part "")) (flag_parts ++ added))
  end.

Definition thinking_flags : list string :=
  ["--think"; "--think-hard"; "--ultrathink"].

(** The loop that puts [new] in the place of the first thinking flag. *)
Fixpoint replace_first_thinking (new : string) (flag_parts : list string)
  : list string :=
  match flag_parts with
  | [] => []
  | flag :: rest =>
      if PyStr.mem flag thinking_flags then new :: rest
      else flag :: replace_first_thinking new rest
  end.

Definition complexity_multiplier (project_complexity : string) : Q :=
  PyDict.get_default project_complexity 1
    [ ("simple", 7 # 10); ("moderate", 1); ("complex", 13 # 10) ].

Definition _personalize_thinking_levels (flags : string)
           (preferred_levels : PyDict.t Q) (project_context : Context.t) : string :=
  match preferred_levels with
  | [] => flags
  | first :: rest =>
      let flag_parts := PyStr.split flags in
      let current_thinking :=
        option_map (PyStr.replace "--" "")
                   (find (fun flag => PyStr.mem flag flag_parts) thinking_flags) in
      let '(preferred_level, preference_score) := max_by_value first rest in
      let project_complexity :=
        Context.get (Context.complexity project_context) "moderate" in
      let adjusted_preference :=
        preference_score * complexity_multiplier project_complexity in
      PyStr.join " "
        (if Storage.truthy current_thinking && Qltb (7 # 10) adjusted_preference
         then replace_first_thinking ("--" ++ preferred_level) flag_parts
         else flag_parts)
  end.

Definition server_flags : PyDict.t (list string) :=
  [ ("Sequential", ["--seq"; "--sequential"]);
    ("Context7", ["--c7"; "--context7"]);
    ("Magic", ["--magic"]);
    ("Playwright", ["--play"; "--playwright"]) ].

(** [l.remove(x)]: the first [x] of [l] goes. *)
Fixpoint remove_first (x : string) (l : list string) : list string :=
  match l with
  | [] => []
  | y :: rest => if String.eqb y x then rest else y :: remove_first x rest
  end.

(** One turn of the loop that removes the flags of a server of low
    preference. *)
Definition drop_server (flag_parts : list string) (item : string * Q)
  : list string :=
  if Qltb (snd item) (4 # 10)
  then fold_left (fun parts flag_option =>
                    if PyStr.mem flag_option parts
                    then remove_first flag_option parts
                    else parts)
                 (PyDict.get_default (fst item) [] server_flags) flag_parts
  else flag_parts.

(** One turn of the loop that adds the first flag of a server of high
    preference. *)
Definition add_server (flag_parts : list string) (item : string * Q)
  : list string :=
  if Qltb (8 # 10) (snd item)
  then match PyDict.get_default (fst item) [] server_flags with
       | [] => flag_parts
       | first :: others =>
           if existsb (fun opt => PyStr.mem opt flag_parts) (first :: others)
           then flag_parts
           else flag_parts ++ [first]
       end
  else flag_parts.

Definition _personalize_mcp_servers (flags : string)
           (preferred_servers : PyDict.t Q) : string :=
  match preferred_servers with
  | [] => flags
  | _ :: _ =>
      PyStr.join " "
        (fold_left add_server (sorted_by_value preferred_servers)
           (fold_left drop_server preferred_servers (PyStr.split flags)))
  end.

Definition _personalize_for_project_type (flags : string)
           (project_preferences : PyDict.t Q) (project_context : Context.t)
  : string :=
  let current_project_type :=
    Context.get (Context.project_type project_context) "unknown" in
  let preference :=
    PyDict.get_default current_project_type (1 # 2) project_preferences in
  let flag_parts := PyStr.split flags in
  PyStr.join " "
    (if Qltb (8 # 10) preference
     then
       if String.eqb current_project_type "python_backend"
          && negb (PyStr.mem "--validate" flag_parts)
       then flag_parts ++ ["--validate"]
       else if String.eqb current_project_type "frontend"
               && negb (PyStr.mem "--magic" flag_parts)
       then flag_parts ++ ["--magic"]
       else if PyStr.contains "large" current_project_type
               && negb (PyStr.mem "--delegate" flag_parts)
       then flag_parts ++ ["--delegate"]
       else flag_parts
     else flag_parts).

Definition _calculate_personalized_confidence (base_confidence : Z)
           (user_profile : UserProfile) (project_context : Context.t) : Z :=
  let interaction_factor :=
    Qmin (inject_Z (total_interactions user_profile) / 50) 1 in
  let current_project_type :=
    Context.get (Context.project_type project_context) "unknown" in
  let project_preference :=
    PyDict.get_default current_project_type (1 # 2)
      (project_type_preferences user_profile) in
  let current_complexity :=
    Context.get (Context.complexity project_context) "moderate" in
  let complexity_preference :=
    PyDict.get_default current_complexity (1 # 2)
      (complexity_preferences user_profile) in
  let personalization_boost :=
    (interaction_factor * (3 # 10)
     + (project_preference - (1 # 2)) * (4 # 10)
     + (complexity_preference - (1 # 2)) * (3 # 10)) * 20 in
  let personalized_confidence := inject_Z base_confidence + personalization_boost in
  Z.max 50 (Z.min 98 (Py.int personalized_confidence)).

Definition _apply_personalization (base_recommendation : Engine.RecommendationScore)
           (user_profile : UserProfile) (project_context : Context.t)
  : Personalized :=
  if (total_interactions user_profile <? min_interactions_for_personalization)%Z
  then {| flags := Engine.flags base_recommendation;
          confidence := Engine.confidence base_recommendation;
          reasoning := (Engine.reasoning base_recommendation
                        ++ ["개인화 데이터 부족 (기본 추천 사용)"])%list;
          personalization_factors := [("insufficient_data", FactorFlag true)];
          fallback_used := true |}
  else
    let with_personas :=
      _personalize_personas (Engine.flags base_recommendation)
                            (preferred_personas user_profile) in
    let adjusted :=
      negb (String.eqb with_personas (Engine.flags base_recommendation)) in
    let reasoning :=
      if adjusted
      then (Engine.reasoning base_recommendation
            ++ ["사용자 선호 persona로 조정"])%list
      else Engine.reasoning base_recommendation in
    let with_thinking :=
      _personalize_thinking_levels with_personas
        (preferred_thinking_levels user_profile) project_context in
    let with_servers :=
      _personalize_mcp_servers with_thinking (preferred_mcp_servers user_profile) in
    let personalized_flags :=
      _personalize_for_project_type with_servers
        (project_type_preferences user_profile) project_context in
    let personalized_confidence :=
      _calculate_personalized_confidence
        (Engine.confidence base_recommendation) user_profile project_context in
    {| flags := personalized_flags;
       confidence := personalized_confidence;
       reasoning := reasoning;
       personalization_factors :=
         PyDict.update
           [ ("persona_preferences_applied",
              FactorFlag (0 <? List.length (preferred_personas user_profile))%nat);
             ("thinking_level_adjusted",
              FactorFlag (PyStr.mem "thinking_level_adjustment" reasoning));
             ("mcp_server_optimized",
              FactorFlag (0 <? List.length (preferred_mcp_servers user_profile))%nat);
             ("project_type_optimized",
              FactorFlag
                (0 <? List.length (project_type_preferences user_profile))%nat);
             ("personalization_strength", FactorFloat personalization_weight);
             ("confidence_boost",
              FactorInt (personalized_confidence
                         - Engine.confidence base_recommendation)) ]
           (if adjusted then [("persona_adjustment", FactorFlag true)] else []);
       fallback_used := false |}.

End Recommender.

(* ===================================================================== *)
(** ** Inputs and auxiliary definitions of the statements *)
(* ===================================================================== *)

Import Py.

Section StringNotions.
Import PyStr.

(** The character [c] does not occur in [p]. *)
Fixpoint lacks (c : ascii) (p : string) : bool :=
  match p with
  | "" => true
  | String x p' => negb (Ascii.eqb x c) && lacks c p'
  end.

(** The bytes of the encodings of the white-space characters. *)
Definition ws_byte (c : ascii) : bool :=
  let n := byte c in
  ascii_ws n
  || existsb (Nat.eqb n) [194; 133; 160; 225; 154; 128; 226; 129; 159; 227]%nat
  || e2_80_ws n.

(** The first [n] characters of [s] are there and satisfy [q]. *)
Fixpoint first_are (q : ascii -> bool) (n : nat) (s : string) : bool :=
  match n with
  | O => true
  | S n' =>
      match s with
      | "" => false
      | String c s' => q c && first_are q n' s'
      end
  end.

(** Every character of [s] satisfies [q]. *)
Fixpoint all_chars (q : ascii -> bool) (s : string) : bool :=
  match s with
  | "" => true
  | String c s' => q c && all_chars q s'
  end.

(** One adjustment of the engine: the flag is appended when it is asked
    for and missing. *)
Definition appended (need : bool) (flag flags : string) : string :=
  if need && negb (contains flag flags) then flags ++ String " " flag else flags.

End StringNotions.

(** A project context of type [python_backend] and complexity [complex]. *)
Definition python_backend_complex (dom : string) (files : Z)
  (fw lang : option string) : Preprocessor.ProjectContext :=
  {| Preprocessor.project_type := "python_backend";
     Preprocessor.domain := dom;
     Preprocessor.complexity := "complex";
     Preprocessor.file_count := files;
     Preprocessor.framework := fw;
     Preprocessor.language := lang |}.

(** A processor with the built-in rules, run in a Python backend. *)
Definition default_processor : Preprocessor.SCCommandProcessor :=
  {| Preprocessor.pattern_matcher := Preprocessor._get_default_rules;
     Preprocessor.current_dir_analysis :=
       Ok (python_backend_complex "general" 12 None (Some "python")) |}.

(** A small project that is no Python backend. *)
Definition small_python_project : Preprocessor.ProjectContext :=
  {| Preprocessor.project_type := "python_general";
     Preprocessor.domain := "general";
     Preprocessor.complexity := "simple";
     Preprocessor.file_count := 12;
     Preprocessor.framework := None;
     Preprocessor.language := Some "python" |}.

(** A storage whose file cannot be read as a database, and one whose
    file holds [db]. *)
Definition unreadable (uid : string) : Storage.LearningStorage :=
  {| Storage.db_file := None; Storage.self_user_id := uid |}.

Definition readable (db : Storage.Database) (uid : string) : Storage.LearningStorage :=
  {| Storage.db_file := Some db; Storage.self_user_id := uid |}.

Definition hour : Z := 3600 * Storage.second.

Definition minute : Z := 60 * Storage.second.

(** [n] days of the clock. *)
Definition days (n : Z) : Z := n * Storage.day.

(** A database with one closed interaction of the user, recorded at
    [at_time]. *)
Definition one_interaction (at_time : Z) : Storage.Database :=
  {| Storage.interactions :=
       [ {| Storage.id := 1;
            Storage.timestamp := at_time;
            Storage.user_input := "/sc:analyze find security vulnerabilities";
            Storage.command := "analyze";
            Storage.description := "find security vulnerabilities";
            Storage.recommended_flags := "--persona-security --think";
            Storage.actual_flags := "--persona-security --think";
            Storage.project_context := "{}";
            Storage.success := true;
            Storage.execution_time := 3 # 2;
            Storage.confidence := 80;
            Storage.reasoning := "";
            Storage.user_id := "user";
            Storage.project_hash := "0123456789abcdef" |} ];
     Storage.feedback := [];
     Storage.pattern_success := [];
     Storage.user_preferences := [] |}.

(** A row with 2 successes of 4 uses, last updated at time 0. *)
Definition half_successful_row : Storage.PatternSuccess :=
  {| Storage.pattern_name := "analyze_security";
     Storage.total_uses := 4;
     Storage.successful_uses := 2;
     Storage.success_rate := 2 # 4;
     Storage.last_updated := Storage.Iso 0;
     Storage.context_conditions := [] |}.

(** A database with that row only. *)
Definition one_pattern : Storage.Database :=
  {| Storage.interactions := [];
     Storage.feedback := [];
     Storage.pattern_success := [half_successful_row];
     Storage.user_preferences := [] |}.

(** The row of [pattern_success] for a pattern. *)
Definition row_of (name : string) (self : Storage.LearningStorage)
  : option Storage.PatternSuccess :=
  match Storage.db_file self with
  | Some db => Storage.find_pattern name (Storage.pattern_success db)
  | None => None
  end.

(** The invariant of a row of [pattern_success]. *)
Definition consistent (r : Storage.PatternSuccess) : Prop :=
  (0 <= Storage.successful_uses r <= Storage.total_uses r)%Z
  /\ (0 < Storage.total_uses r)%Z
  /\ Storage.success_rate r
     == inject_Z (Storage.successful_uses r) / inject_Z (Storage.total_uses r).

(** The row of the pattern, if there is one, satisfies the invariant. *)
Definition row_consistent (name : string) (self : Storage.LearningStorage) : Prop :=
  forall r, row_of name self = Some r -> consistent r.

(** The successful and the total uses stored for a pattern, (0, 0) when
    it has no row. *)
Definition counts (name : string) (self : Storage.LearningStorage) : Z * Z :=
  match row_of name self with
  | Some r => (Storage.successful_uses r, Storage.total_uses r)
  | None => (0, 0)%Z
  end.

(** One successful update at each of the given times. *)
Fixpoint record_successes (self : Storage.LearningStorage) (times : list Z)
  (name : string) (context : PyDict.t Q) : result Storage.LearningStorage :=
  match times with
  | [] => Ok self
  | now :: later =>
      self' <- Storage.update_pattern_success self now name true context ;;
      record_successes self' later name context
  end.

Definition fresh_processor : Feedback.FeedbackProcessor :=
  {| Feedback.storage := readable (one_interaction 0) "user";
     Feedback.stdout := [] |}.

Section EngineNotions.
Import Engine.

(** The empty project context [{}]. *)
Definition no_context : Context.t :=
  {| Context.project_type := None;
     Context.complexity := None;
     Context.project_size := None;
     Context.file_count := None;
     Context.languages := None;
     Context.frameworks := None;
     Context.enhanced_flags := None |}.

(** A pattern used three times, half of them with success, updated at
    time 0. *)
Definition half_successful_pattern : LearningPattern :=
  {| pattern_id := "analyze_general";
     base_flags := "--think --uc";
     success_rate := 1 # 2;
     usage_count := 3;
     confidence_score := _calculate_confidence_score 3 (1 # 2);
     context_weights := [];
     last_updated := Storage.Iso 0;
     user_preference_score := 1 |}.

(** An engine over that database whose cache was never loaded. *)
Definition cold_engine : AdaptiveLearningEngine :=
  {| storage := readable one_pattern "user";
     _pattern_cache := [];
     _cache_timestamp := 0 |}.

(** The [last_updated] columns a recommendation can read: those of the
    cached patterns and of the rows of the storage. *)
Definition timestamps (self : AdaptiveLearningEngine) : list Storage.IsoText :=
  (map last_updated (PyDict.values (_pattern_cache self))
   ++ match Storage.db_file (storage self) with
      | Some db => map Storage.last_updated (Storage.pattern_success db)
      | None => []
      end)%list.

(** The recommendation a call returns, without the engine it leaves. *)
Definition recommendation
  (r : result (RecommendationScore * AdaptiveLearningEngine))
  : result RecommendationScore :=
  match r with
  | Ok (x, _) => Ok x
  | Raise e => Raise e
  end.

(** The confidence of the recommendation a call returns. *)
Definition recommended_confidence
  (r : result (RecommendationScore * AdaptiveLearningEngine)) : option Z :=
  match r with
  | Ok (x, _) => Some (confidence x)
  | Raise _ => None
  end.

End EngineNotions.

Section OptimizerNotions.
Import Optimizer.

Definition has_timestamp (e : Entry) : bool :=
  match PyDict.get "timestamp" e with
  | Some (VTime _) => true
  | _ => false
  end.

(** Every entry of the cache carries the time it was stored at. *)
Definition well_formed (c : PyDict.t Entry) : bool :=
  forallb (fun kv => has_timestamp (snd kv)) c.

(** The entry under [key] holds these flags and this confidence, stored
    at [stamp]. *)
Definition stored (c : PyDict.t Entry) (key fl : string) (conf stamp : Z) : Prop :=
  exists e,
    PyDict.get key c = Some e
    /\ PyDict.get "flags" e = Some (VStr fl)
    /\ PyDict.get "confidence" e = Some (VInt conf)
    /\ PyDict.get "timestamp" e = Some (VTime stamp).

(** The call finds an entry under [key] that is younger than the TTL. *)
Definition is_hit (self : PerformanceOptimizer) (now : Z) (key : string) : bool :=
  match fst (_get_cached_recommendation self now key) with
  | Ok (Some (_ :: _)) => true
  | _ => false
  end.

(** A hash function for running the model. *)
Definition length_hash (s : string) : Z := Z.of_nat (String.length s).

(** An optimizer as [__init__] leaves it. *)
Definition empty_optimizer : PerformanceOptimizer :=
  {| pattern_cache := [];
     metrics := {| total_requests := 0; cache_hits := 0;
                   quick_responses := 0; enhanced_responses := 0 |};
     background_queue := [];
     is_processing := false |}.

(** A large Python backend. *)
Definition backend_context : Context.t :=
  {| Context.project_type := Some "python_backend";
     Context.complexity := Some "complex";
     Context.project_size := None;
     Context.file_count := Some 120%Z;
     Context.languages := Some ["python"];
     Context.frameworks := None;
     Context.enhanced_flags := Some "--ultrathink --seq" |}.

(** What happens to an optimizer: a request through [quick_recommend], or
    a turn of the background worker. *)
Inductive Event : Type :=
| Request (now : Z) (response_time : Q) (user_input command description : string)
          (ctx : Context.t)
| WorkerTurn.

(** The optimizer after the events of a trace, from the first. *)
Fixpoint run (py_hash : string -> Z) (self : PerformanceOptimizer)
         (trace : list Event) : PerformanceOptimizer :=
  match trace with
  | [] => self
  | Request now response_time user_input command description ctx :: later =>
      run py_hash
          (snd (quick_recommend py_hash self now response_time user_input
                                command description ctx))
          later
  | WorkerTurn :: later => run py_hash (background_step self) later
  end.

End OptimizerNotions.

(** The value a sequence of assignments [d[k] = v] leaves under a key. *)
Definition assigned {V : Type} (k : string) (acc : option V) (kv : string * V)
  : option V :=
  if String.eqb (fst kv) k then Some (snd kv) else acc.

(** The row of a preference as [get_user_preferences] reads it. *)
Definition as_item (r : Storage.Preference) : string * Q :=
  (Storage.pref_pattern_name r, Storage.preference_weight r).


(** A [json.loads] that rejects every text. *)
Definition no_json (text : string) : result (PyDict.t Q) :=
  Raise (TypeError "no JSON").

(** The pair (similarity, total weight) of [_calculate_context_similarity]
    while the weights met lie between 0 and 1. *)
Definition averaging (acc : Q * Q) : Prop :=
  0 <= fst acc /\ fst acc <= snd acc.

(** The counts of a [Counter] added up. *)
Definition count_total (items : list (string * Z)) : Z :=
  fold_left Z.add (map snd items) 0%Z.

(** The state an optimizer keeps between the events: every entry of the
    cache has its time stamp, the cache holds 1000 entries at most, every
    request was either a hit or a quick response, and every quick
    response is either enhanced or still in the queue. *)
Definition steady (self : Optimizer.PerformanceOptimizer) : Prop :=
  let m := Optimizer.metrics self in
  well_formed (Optimizer.pattern_cache self) = true
  /\ (List.length (Optimizer.pattern_cache self) <= 1000)%nat
  /\ (0 <= Optimizer.cache_hits m)%Z
  /\ (0 <= Optimizer.enhanced_responses m)%Z
  /\ (Optimizer.cache_hits m + Optimizer.quick_responses m
      = Optimizer.total_requests m)%Z
  /\ (Optimizer.enhanced_responses m
      + Z.of_nat (List.length (Optimizer.background_queue self))
      = Optimizer.quick_responses m)%Z.

(** The first request of a fresh optimizer, at time 0. *)
Definition first_answer
  : Optimizer.QuickRecommendation * Optimizer.PerformanceOptimizer :=
  Optimizer.get_quick_recommendation length_hash empty_optimizer 0 (1 # 2)
    "/sc:implement api endpoint" "implement" "api endpoint" backend_context.

(** An interaction as [start_interaction] writes it: not successful, and
    without an execution time. *)
Definition open_interaction (i : Storage.Interaction) : bool :=
  negb (Storage.success i) && Qeq_bool (Storage.execution_time i) 0.

(** The database can be read and all its interactions are open. *)
Definition all_open (s : Storage.LearningStorage) : bool :=
  match Storage.db_file s with
  | Some db => forallb open_interaction (Storage.interactions db)
  | None => false
  end.

(** Every id of the table is below [rowid]. *)
Definition fresh_id (rowid : Z) (s : Storage.LearningStorage) : Prop :=
  forall db i,
    Storage.db_file s = Some db -> In i (Storage.interactions db) ->
    (Storage.id i < rowid)%Z.

Definition empty_database : Storage.Database :=
  {| Storage.interactions := [];
     Storage.feedback := [];
     Storage.pattern_success := [];
     Storage.user_preferences := [] |}.

(** A collector as [__init__] leaves it, over a database without rows. *)
Definition new_collector (uid : string) : Collector.LearningDataCollector :=
  {| Collector.storage := readable empty_database uid;
     Collector.current_interaction_id := None;
     Collector.interaction_start_time := None |}.

(** The calls a program makes on a collector. *)
Inductive Step : Type :=
| Start (now rowid : Z) (input flags : string) (conf : Z) (why : string)
        (context : Context.t)
| Finish (now : Z) (flags : string) (succeeded : bool)
         (error_message : option string)
| Rate (now : Z) (rating : Z) (correction : option string).

(** The state a call leaves: the new one, or the old one when the call
    raised before it wrote. *)
Definition after {A : Type} (r : result A) (old : A) : A :=
  match r with
  | Ok a => a
  | Raise _ => old
  end.

(** The collector after a sequence of calls. *)
Fixpoint collect (cwd : string) (sha256_16 : string -> string)
         (json_dumps : Context.t -> string)
         (json_loads : string -> result (PyDict.t Q))
         (self : Collector.LearningDataCollector) (steps : list Step)
  : Collector.LearningDataCollector :=
  match steps with
  | [] => self
  | Start now rowid input flags conf why context :: later =>
      collect cwd sha256_16 json_dumps json_loads
        (snd (Collector.start_interaction cwd sha256_16 json_dumps self now rowid
                input flags conf why context))
        later
  | Finish now flags succeeded error_message :: later =>
      collect cwd sha256_16 json_dumps json_loads
        (after (Collector.end_interaction cwd sha256_16 json_loads self now flags
                  succeeded error_message) self)
        later
  | Rate now rating correction :: later =>
      collect cwd sha256_16 json_dumps json_loads
        (after (Collector.record_explicit_feedback cwd sha256_16 self now rating
                  correction) self)
        later
  end.

(** The interactions [s'] holds are those of [s]. *)
Definition same_interactions (s s' : Storage.LearningStorage) : Prop :=
  s' = s
  \/ exists db db',
       Storage.db_file s = Some db /\ Storage.db_file s' = Some db'
       /\ Storage.interactions db' = Storage.interactions db.

(** An ASCII letter, digit or underscore: the characters of a command
    word. *)
Definition word_char (c : ascii) : bool :=
  let n := PyStr.byte c in
  PyStr.between 48 57 n || PyStr.between 65 90 n || PyStr.between 97 122 n
  || (n =? 95)%nat.

(** A host for running the collector: a hash and a [json.dumps] that do
    not look at their argument. *)
Definition fixed_hash (path : string) : string := "0123456789abcdef".

Definition empty_dumps (context : Context.t) : string := "{}".

(** No white-space character starts anywhere in [s]. *)
Fixpoint unbroken (s : string) : bool :=
  match s with
  | "" => true
  | String _ s' => (PyStr.ws_len s =? 0)%nat && unbroken s'
  end.

(** No white-space character starts in [cur] when [s] follows it. *)
Fixpoint unbroken_before (cur s : string) : Prop :=
  match cur with
  | "" => True
  | String _ cur' => PyStr.ws_len (cur ++ s) = 0%nat /\ unbroken_before cur' s
  end.

(** A flag personalization may replace or remove: a persona, a thinking
    level or the flag of an MCP server. *)
Definition personal_flag (flag : string) : bool :=
  Recommender.is_persona_flag flag
  || PyStr.mem flag Recommender.thinking_flags
  || PyStr.mem flag (concat (PyDict.values Recommender.server_flags)).

(** The names of the dict have no white space. *)
Definition plain_keys {V : Type} (d : PyDict.t V) : bool :=
  forallb (fun kv => all_chars (fun c => negb (ws_byte c)) (fst kv)) d.

(** The two personas exclude each other. *)
Definition conflicting (a b : string) : bool :=
  existsb (fun pair => String.eqb a (fst pair) && String.eqb b (snd pair)
                       || String.eqb b (fst pair) && String.eqb a (snd pair))
          Recommender.incompatible_pairs.

(** A recommendation of the engine, and the profile of a user of twelve
    interactions. *)
Definition backend_recommendation : Engine.RecommendationScore :=
  {| Engine.rec_pattern_id := "implement_api";
     Engine.flags := "--persona-backend --think --seq --validate";
     Engine.score := 90;
     Engine.confidence := 85%Z;
     Engine.reasoning := ["pattern"];
     Engine.learning_factors := [] |}.

Definition seasoned_profile : Recommender.UserProfile :=
  {| Recommender.user_id := "user";
     Recommender.preferred_personas := [("backend", 1); ("frontend", 9 # 10)];
     Recommender.preferred_thinking_levels := [("think_hard", 1)];
     Recommender.preferred_mcp_servers :=
       [("Sequential", 2 # 10); ("Context7", 9 # 10)];
     Recommender.project_type_preferences := [("python_backend", 9 # 10)];
     Recommender.complexity_preferences := [("complex", 1)];
     Recommender.success_patterns := [];
     Recommender.last_updated := Storage.Iso 0;
     Recommender.total_interactions := 12%Z |}.

(** An engine whose cache holds the pattern [half_successful_pattern],
    loaded at time 0. *)
Definition warm_engine : Engine.AdaptiveLearningEngine :=
  {| Engine.storage := readable one_pattern "user";
     Engine._pattern_cache := [("analyze_general", half_successful_pattern)];
     Engine._cache_timestamp := 0 |}.

(** An interaction of the command [analyze] without a context. *)
Definition analyze_interaction : Storage.Interaction :=
  {| Storage.id := 1;
     Storage.timestamp := 0;
     Storage.user_input := "/sc:analyze the parser";
     Storage.command := "analyze";
     Storage.description := "the parser";
     Storage.recommended_flags := "--think --uc";
     Storage.actual_flags := "--think --uc";
     Storage.project_context := "{}";
     Storage.success := true;
     Storage.execution_time := 3 # 2;
     Storage.confidence := 50;
     Storage.reasoning := "";
     Storage.user_id := "user";
     Storage.project_hash := "0123456789abcdef" |}.

Section CacheOrigin.
Import Optimizer.

Variable py_hash : string -> Z.

(** The event, which comes after the events [earlier], computes no
    recommendation for [key]: it is a turn of the worker, a request for
    another key, or a request that finds the entry of [key]. *)
Definition keeps_entry (key : string) (earlier : list Event) (event : Event)
  : bool :=
  match event with
  | Request now _ _ command description ctx =>
      if String.eqb (make_cache_key py_hash command description ctx) key
      then is_hit (run py_hash empty_optimizer earlier) now key
      else true
  | WorkerTurn => true
  end.

(** None of the events [later], which come after [earlier], computes a
    recommendation for [key]. *)
Fixpoint all_keep (key : string) (earlier later : list Event) : bool :=
  match later with
  | [] => true
  | event :: rest =>
      keeps_entry key earlier event && all_keep key (earlier ++ [event]) rest
  end.

(** The original computation of what the cache holds for [key] after
    [trace]: a request of the trace, made at [stamp], found no entry for
    [key], computed [fl] and [conf] with [_quick_pattern_match] and
    returned them, and no later event of the trace computed for [key]
    again. *)
Definition original_computation (trace : list Event) (key fl : string)
           (conf stamp : Z) : Prop :=
  exists before after response_time user_input command description ctx,
    let request :=
      Request stamp response_time user_input command description ctx in
    let first :=
      fst (quick_recommend py_hash (run py_hash empty_optimizer before) stamp
             response_time user_input command description ctx) in
    trace = (before ++ request :: after)%list
    /\ make_cache_key py_hash command description ctx = key
    /\ is_hit (run py_hash empty_optimizer before) stamp key = false
    /\ fst (_quick_pattern_match command description ctx) = (fl, conf)
    /\ flags first = fl
    /\ confidence first = conf
    /\ all_keep key (before ++ [request]) after = true.

End CacheOrigin.
(** A miss for [analyze] at time 0, a turn of the worker, a hit a minute
    later, a request for another key, and a second turn of the worker. *)
Definition busy_trace : list Event :=
  [ Request 0 (3 # 10) "/sc:analyze find bugs" "analyze" "find bugs" backend_context;
    WorkerTurn;
    Request minute (1 # 10) "/sc:analyze find bugs" "analyze" "find bugs"
            backend_context;
    Request (2 * minute) (2 # 10) "/sc:implement api endpoint" "implement"
            "api endpoint" backend_context;
    WorkerTurn ].

(* ===================================================================== *)
(** ** Properties *)
(* ===================================================================== *)

(** *** Strings *)

Section StringFacts.
Import PyStr.

Lemma length_app (a b : string) :
  String.length (a ++ b) = (String.length a + String.length b)%nat.
Proof. induction a as [|c a IH]; cbn; [reflexivity|rewrite IH; reflexivity]. Qed.

Lemma app_empty (s : string) : s ++ "" = s.
Proof. induction s as [|c s IH]; cbn; [reflexivity|rewrite IH; reflexivity]. Qed.

Lemma prefix_app (p x : string) : String.prefix p (p ++ x) = true.
Proof.
  induction p as [|c p IH]; cbn; [destruct x; reflexivity|].
  destruct (ascii_dec c c) as [_|n]; [exact IH|contradiction].
Qed.

Lemma prefix_app_l (p a b : string) :
  String.prefix p a = true -> String.prefix p (a ++ b) = true.
Proof.
  revert a. induction p as [|c p IH]; intros a; cbn.
  - intros _. destruct (a ++ b); reflexivity.
  - destruct a as [|d a]; [discriminate|]. cbn.
    destruct (ascii_dec c d); [apply IH|discriminate].
Qed.

Lemma contains_step (p : string) (c : ascii) (s : string) :
  contains p (String c s)
  = String.prefix p (String c s) || contains p s.
Proof. cbn [contains]. destruct (String.prefix p (String c s)); reflexivity. Qed.

Lemma contains_cons (p : string) (c : ascii) (s : string) :
  contains p s = true -> contains p (String c s) = true.
Proof. intros H. rewrite contains_step, H. apply orb_true_r. Qed.

Lemma contains_app_l (p a b : string) :
  contains p a = true -> contains p (a ++ b) = true.
Proof.
  induction a as [|c a IH].
  - cbn [contains append]. destruct p; [|discriminate].
    intros _. destruct b; reflexivity.
  - change (String c a ++ b) with (String c (a ++ b)).
    rewrite !contains_step. intros H. apply orb_prop in H.
    destruct H as [H|H].
    + change (String c (a ++ b)) with (String c a ++ b).
      rewrite (prefix_app_l _ _ _ H). reflexivity.
    + rewrite (IH H). apply orb_true_r.
Qed.

Lemma contains_app_r (p a b : string) :
  contains p b = true -> contains p (a ++ b) = true.
Proof.
  intros H. induction a as [|c a IH]; cbn [append]; [exact H|].
  apply contains_cons, IH.
Qed.

Lemma contains_self_app (p x : string) : contains p (p ++ x) = true.
Proof.
  destruct p as [|c p]; [destruct x; reflexivity|].
  change (String c p ++ x) with (String c (p ++ x)). rewrite contains_step.
  change (String c (p ++ x)) with (String c p ++ x).
  rewrite prefix_app. reflexivity.
Qed.

(** Replacing a word by a word that starts with it leaves an occurrence
    of the new word wherever the old one occurred. *)
Lemma replace_from_contains (old suffix : string) (c : ascii) :
  forall (s : string) (skip : nat),
    contains (String c old) (drop skip s) = true ->
    contains (String c old ++ suffix)
             (replace_from (String c old) (String c old ++ suffix) skip s) = true.
Proof.
  induction s as [|d s IH]; intros skip.
  - destruct skip; cbn; discriminate.
  - destruct skip as [|k].
    + cbn [drop replace_from].
      rewrite contains_step.
      destruct (String.prefix (String c old) (String d s)) eqn:Hp.
      * intros _. apply contains_self_app.
      * cbn [orb]. intros H.
        apply contains_cons. apply (IH 0%nat). exact H.
    + cbn [drop replace_from]. apply IH.
Qed.

Lemma replace_contains (old suffix s : string) :
  old <> "" ->
  contains old s = true ->
  contains (old ++ suffix) (replace old (old ++ suffix) s) = true.
Proof.
  destruct old as [|c old]; [contradiction|]. intros _ H.
  cbn [replace]. apply (replace_from_contains old suffix c s 0%nat). exact H.
Qed.

Lemma replace_think_contains (s : string) :
  contains "--think" s = true ->
  contains "--think-hard" (replace "--think" "--think-hard" s) = true.
Proof.
  intros H.
  exact (replace_contains "--think" "-hard" s ltac:(discriminate) H).
Qed.

Lemma replace_from_length (old new : string) (c : ascii) :
  (String.length (String c old) <= String.length new)%nat ->
  forall (s : string) (skip : nat),
    (String.length s
     <= String.length (replace_from (String c old) new skip s) + skip)%nat.
Proof.
  intros Hlen. induction s as [|d s IH]; intros skip; [cbn; lia|].
  destruct skip as [|k]; cbn [replace_from].
  - destruct (String.prefix (String c old) (String d s)).
    + rewrite length_app. specialize (IH (String.length (String c old) - 1)%nat).
      cbn [String.length] in *. lia.
    + specialize (IH 0%nat). cbn [String.length]. lia.
  - specialize (IH k). cbn [String.length]. lia.
Qed.

Lemma replace_think_length (s : string) :
  (String.length s <= String.length (replace "--think" "--think-hard" s))%nat.
Proof.
  pose proof (replace_from_length "-think" "--think-hard" "-" ltac:(cbn; lia) s 0%nat).
  cbn [replace]. lia.
Qed.

Lemma prefix_across (c : ascii) (p : string) : forall a b : string,
  lacks c p = true ->
  String.prefix p (a ++ String c b) = String.prefix p a.
Proof.
  induction p as [|x p IH]; intros a b Hp.
  - destruct a; reflexivity.
  - cbn [lacks] in Hp. apply andb_prop in Hp. destruct Hp as [Hx Hp].
    destruct a as [|y a]; cbn [append String.prefix].
    + destruct (ascii_dec x c) as [->|_]; [|reflexivity].
      rewrite Ascii.eqb_refl in Hx. discriminate Hx.
    + destruct (ascii_dec x y); [apply IH, Hp|reflexivity].
Qed.

(** A word without the character [c] occurs in [a ++ c :: b] only inside
    [a] or inside [b]. *)
Lemma contains_across (c x : ascii) (p a b : string) :
  lacks c (String x p) = true ->
  contains (String x p) (a ++ String c b)
  = contains (String x p) a || contains (String x p) b.
Proof.
  intros Hp. induction a as [|y a IH].
  - change ("" ++ String c b) with (String c b). rewrite contains_step.
    change (String c b) with ("" ++ String c b) at 1.
    rewrite (prefix_across c _ "" b Hp). reflexivity.
  - change (String y a ++ String c b) with (String y (a ++ String c b)).
    rewrite !contains_step.
    change (String y (a ++ String c b)) with (String y a ++ String c b).
    rewrite (prefix_across c _ _ b Hp), IH. apply orb_assoc.
Qed.

(** *** White space *)

Lemma ws_byte_ascii c : ascii_ws (byte c) = true -> ws_byte c = true.
Proof. intros H. unfold ws_byte. rewrite H. reflexivity. Qed.

Lemma ws_byte_e2_80 c : e2_80_ws (byte c) = true -> ws_byte c = true.
Proof. intros H. unfold ws_byte. rewrite H. apply orb_true_r. Qed.

Lemma ws_byte_eq c n :
  (byte c =? n)%nat = true ->
  existsb (Nat.eqb n) [194; 133; 160; 225; 154; 128; 226; 129; 159; 227]%nat = true ->
  ws_byte c = true.
Proof.
  intros H Hn. apply Nat.eqb_eq in H. unfold ws_byte. rewrite H, Hn.
  rewrite orb_true_r. reflexivity.
Qed.

Lemma ws2_bytes a b :
  ws2 (byte a) (byte b) = true -> ws_byte a = true /\ ws_byte b = true.
Proof.
  unfold ws2. intros H. apply andb_prop in H. destruct H as [Ha Hb].
  split; [apply (ws_byte_eq _ _ Ha); reflexivity|].
  apply orb_prop in Hb. destruct Hb as [Hb|Hb];
    apply (ws_byte_eq _ _ Hb); reflexivity.
Qed.

Lemma ws3_bytes a b c :
  ws3 (byte a) (byte b) (byte c) = true ->
  ws_byte a = true /\ ws_byte b = true /\ ws_byte c = true.
Proof.
  unfold ws3. intros H.
  repeat (apply orb_prop in H; destruct H as [H|H]);
    apply andb_prop in H; destruct H as [H Hc];
    apply andb_prop in H; destruct H as [Ha Hb];
    (split; [apply (ws_byte_eq _ _ Ha); reflexivity|]);
    (split; [apply (ws_byte_eq _ _ Hb); reflexivity|]);
    first [apply (ws_byte_eq _ _ Hc); reflexivity | apply ws_byte_e2_80, Hc].
Qed.

(** A white-space character of [k + 1] bytes is there, byte by byte. *)
Lemma ws_len_bytes s k :
  ws_len s = S k -> first_are ws_byte (S k) s = true.
Proof.
  destruct s as [|a s]; [discriminate|]. unfold ws_len.
  destruct (ascii_ws (byte a)) eqn:Ha.
  { intros E. injection E as <-. cbn. rewrite (ws_byte_ascii a Ha). reflexivity. }
  destruct s as [|b s]; [discriminate|].
  destruct (ws2 (byte a) (byte b)) eqn:Hab.
  { intros E. injection E as <-. destruct (ws2_bytes a b Hab) as [H1 H2].
    cbn. rewrite H1, H2. reflexivity. }
  destruct s as [|c s]; [discriminate|].
  destruct (ws3 (byte a) (byte b) (byte c)) eqn:Habc; [|discriminate].
  intros E. injection E as <-. destruct (ws3_bytes a b c Habc) as [H1 [H2 H3]].
  cbn. rewrite H1, H2, H3. reflexivity.
Qed.

Lemma ws_len_app t w j : ws_len t = S j -> ws_len (t ++ w) = S j.
Proof.
  destruct t as [|a t]; [discriminate|]. unfold ws_len. cbn [append].
  destruct (ascii_ws (byte a)); [trivial|].
  destruct t as [|b t]; [discriminate|]. cbn [append].
  destruct (ws2 (byte a) (byte b)); [trivial|].
  destruct t as [|c t]; [discriminate|]. cbn [append].
  destruct (ws3 (byte a) (byte b) (byte c)); trivial.
Qed.

Lemma lstrip_splits s : forall skip,
  first_are ws_byte skip s = true ->
  exists w, s = w ++ lstrip_from skip s /\ all_chars ws_byte w = true.
Proof.
  induction s as [|c s IH]; intros skip Hskip.
  - exists "". split; reflexivity.
  - destruct skip as [|k]; cbn [lstrip_from].
    + destruct (ws_len (String c s)) as [|k] eqn:Hlen.
      * exists "". split; reflexivity.
      * pose proof (ws_len_bytes _ _ Hlen) as Hb. cbn [first_are] in Hb.
        apply andb_prop in Hb. destruct Hb as [Hc Hk].
        destruct (IH k Hk) as [w [Hs Hw]].
        exists (String c w). split; [cbn [append]; f_equal; exact Hs|].
        cbn [all_chars]. rewrite Hc. exact Hw.
    + cbn [first_are] in Hskip. apply andb_prop in Hskip. destruct Hskip as [Hc Hk].
      destruct (IH k Hk) as [w [Hs Hw]].
      exists (String c w). split; [cbn [append]; f_equal; exact Hs|].
      cbn [all_chars]. rewrite Hc. exact Hw.
Qed.

Lemma rstrip_splits s :
  exists w, s = rstrip s ++ w /\ all_ws_from 0 w = true.
Proof.
  induction s as [|c s [w [Hs Hw]]].
  - exists "". split; reflexivity.
  - cbn [rstrip]. destruct (all_ws_from 0 (String c s)) eqn:Hall.
    + exists (String c s). split; [reflexivity|exact Hall].
    + exists w. split; [cbn [append]; f_equal; exact Hs|exact Hw].
Qed.

Lemma all_ws_bytes s : forall skip,
  first_are ws_byte skip s = true ->
  all_ws_from skip s = true -> all_chars ws_byte s = true.
Proof.
  induction s as [|c s IH]; intros skip Hskip Hall; [reflexivity|].
  destruct skip as [|k]; cbn [all_ws_from] in Hall.
  - destruct (ws_len (String c s)) as [|k] eqn:Hlen; [discriminate|].
    pose proof (ws_len_bytes _ _ Hlen) as Hb. cbn [first_are] in Hb.
    apply andb_prop in Hb. destruct Hb as [Hc Hk].
    cbn [all_chars]. rewrite Hc. apply (IH k Hk Hall).
  - cbn [first_are] in Hskip. apply andb_prop in Hskip. destruct Hskip as [Hc Hk].
    cbn [all_chars]. rewrite Hc. apply (IH k Hk Hall).
Qed.

Lemma all_ws_app t : forall skip w,
  all_ws_from skip t = true -> all_ws_from 0 w = true ->
  all_ws_from skip (t ++ w) = true.
Proof.
  induction t as [|c t IH]; intros skip w Ht Hw.
  - cbn [all_ws_from] in Ht. apply Nat.eqb_eq in Ht. subst skip. exact Hw.
  - change (String c t ++ w) with (String c (t ++ w)).
    destruct skip as [|k]; cbn [all_ws_from] in *.
    + destruct (ws_len (String c t)) as [|k] eqn:Hlen; [discriminate|].
      change (String c (t ++ w)) with (String c t ++ w).
      rewrite (ws_len_app _ w _ Hlen). apply IH; assumption.
    + apply IH; assumption.
Qed.

Lemma rstrip_of_white s : all_ws_from 0 s = true -> rstrip s = "".
Proof. destruct s; [reflexivity|]. cbn [rstrip]. intros ->. reflexivity. Qed.

Lemma rstrip_never_white s : all_ws_from 0 (rstrip s) = true -> rstrip s = "".
Proof.
  intros H. destruct (rstrip_splits s) as [w [Hs Hw]].
  apply rstrip_of_white. rewrite Hs. apply all_ws_app; assumption.
Qed.

Lemma rstrip_idempotent s : rstrip (rstrip s) = rstrip s.
Proof.
  induction s as [|c s IH]; [reflexivity|].
  pose proof (rstrip_never_white (String c s)) as Hnever.
  cbn [rstrip] in *. destruct (all_ws_from 0 (String c s)); [reflexivity|].
  cbn [rstrip]. destruct (all_ws_from 0 (String c (rstrip s))).
  - discriminate (Hnever eq_refl).
  - rewrite IH. reflexivity.
Qed.

Lemma lstrip_from_unspaced s : forall skip, ws_len (lstrip_from skip s) = 0%nat.
Proof.
  induction s as [|c s IH]; intros skip; [reflexivity|].
  destruct skip as [|k]; cbn [lstrip_from]; [|apply IH].
  destruct (ws_len (String c s)) eqn:Hlen; [exact Hlen|apply IH].
Qed.

Lemma lstrip_of_unspaced s : ws_len s = 0%nat -> lstrip s = s.
Proof.
  unfold lstrip. destruct s; [reflexivity|]. cbn [lstrip_from]. intros ->. reflexivity.
Qed.

Lemma rstrip_unspaced s : ws_len s = 0%nat -> ws_len (rstrip s) = 0%nat.
Proof.
  intros H. destruct (ws_len (rstrip s)) as [|j] eqn:Hlen; [reflexivity|].
  destruct (rstrip_splits s) as [w [Hs _]].
  rewrite Hs, (ws_len_app _ w _ Hlen) in H. discriminate H.
Qed.

Lemma strip_idempotent s : strip (strip s) = strip s.
Proof.
  unfold strip.
  rewrite (lstrip_of_unspaced (rstrip (lstrip s))).
  - apply rstrip_idempotent.
  - apply rstrip_unspaced. apply lstrip_from_unspaced.
Qed.

(** A word that starts with a byte of no white-space character occurs in
    [w ++ v], for white space [w], only inside [v]. *)
Lemma contains_after_white (x : ascii) (p w v : string) :
  ws_byte x = false -> all_chars ws_byte w = true ->
  contains (String x p) (w ++ v) = contains (String x p) v.
Proof.
  intros Hx. induction w as [|c w IH]; intros Hw; [reflexivity|].
  cbn [all_chars] in Hw. apply andb_prop in Hw. destruct Hw as [Hc Hw].
  change (String c w ++ v) with (String c (w ++ v)).
  rewrite contains_step, (IH Hw). cbn [String.prefix].
  destruct (ascii_dec x c) as [->|_]; [congruence|reflexivity].
Qed.

Lemma prefix_before_white (p : string) : forall t w : string,
  all_chars (fun c => negb (ws_byte c)) p = true ->
  all_chars ws_byte w = true ->
  String.prefix p (t ++ w) = String.prefix p t.
Proof.
  induction p as [|x p IH]; intros t w Hp Hw.
  - destruct t, w; reflexivity.
  - cbn [all_chars] in Hp. apply andb_prop in Hp. destruct Hp as [Hx Hp].
    destruct t as [|c t].
    + destruct w as [|y w]; [reflexivity|].
      cbn [all_chars] in Hw. apply andb_prop in Hw. destruct Hw as [Hy _].
      cbn [append String.prefix].
      destruct (ascii_dec x y) as [->|_]; [|reflexivity].
      rewrite Hy in Hx. discriminate Hx.
    + cbn [append String.prefix].
      destruct (ascii_dec x c); [apply IH; assumption|reflexivity].
Qed.

Lemma contains_before_white (x : ascii) (p t w : string) :
  all_chars (fun c => negb (ws_byte c)) (String x p) = true ->
  all_chars ws_byte w = true ->
  contains (String x p) (t ++ w) = contains (String x p) t.
Proof.
  intros Hp Hw. induction t as [|c t IH].
  - cbn [append]. rewrite <- (app_empty w) at 1.
    assert (Hx : ws_byte x = false).
    { cbn [all_chars] in Hp. apply andb_prop in Hp. destruct Hp as [Hx _].
      apply negb_true_iff, Hx. }
    rewrite (contains_after_white x p w "" Hx Hw). reflexivity.
  - change (String c t ++ w) with (String c (t ++ w)).
    rewrite !contains_step, IH.
    change (String c (t ++ w)) with (String c t ++ w).
    rewrite (prefix_before_white _ _ _ Hp Hw). reflexivity.
Qed.

(** Stripping keeps the occurrences of a word without white space. *)
Lemma contains_strip (x : ascii) (p s : string) :
  all_chars (fun c => negb (ws_byte c)) (String x p) = true ->
  contains (String x p) (strip s) = contains (String x p) s.
Proof.
  intros Hp. unfold strip, lstrip.
  destruct (lstrip_splits s 0 eq_refl) as [w1 [Hs Hw1]].
  destruct (rstrip_splits (lstrip_from 0 s)) as [w2 [Hv Hw2]].
  assert (Hx : ws_byte x = false).
  { cbn [all_chars] in Hp. apply andb_prop in Hp. destruct Hp as [Hx _].
    apply negb_true_iff, Hx. }
  rewrite Hs at 2. rewrite (contains_after_white x p w1 _ Hx Hw1).
  rewrite Hv at 2. symmetry. apply contains_before_white; [exact Hp|].
  apply (all_ws_bytes w2 0 eq_refl Hw2).
Qed.

Lemma appended_has (flag flags : string) :
  contains flag (appended true flag flags) = true.
Proof.
  unfold appended. cbn [andb].
  destruct (contains flag flags) eqn:H; cbn [negb]; [exact H|].
  apply contains_app_r, contains_cons.
  rewrite <- (app_empty flag) at 2. apply contains_self_app.
Qed.

Lemma appended_keeps (need : bool) (flag flags other : string) :
  contains other flags = true -> contains other (appended need flag flags) = true.
Proof.
  intros H. unfold appended.
  destruct (need && negb (contains flag flags)); [apply contains_app_l|]; exact H.
Qed.

Lemma appended_fixed (need : bool) (flag flags : string) :
  (need = true -> contains flag flags = true) -> appended need flag flags = flags.
Proof.
  intros H. unfold appended. destruct need; [|reflexivity].
  rewrite (H eq_refl). reflexivity.
Qed.

End StringFacts.

(** *** Dicts *)

Section DictFacts.
Context {V : Type}.

Lemma get_set_same (k : string) (v : V) (d : PyDict.t V) :
  PyDict.get k (PyDict.set k v d) = Some v.
Proof.
  induction d as [|[k' v'] d IH]; cbn [PyDict.set PyDict.get].
  - rewrite String.eqb_refl. reflexivity.
  - destruct (String.eqb k' k) eqn:Hk; cbn [PyDict.get].
    + rewrite String.eqb_refl. reflexivity.
    + rewrite Hk. exact IH.
Qed.

Lemma get_set_other (k k' : string) (v : V) (d : PyDict.t V) :
  String.eqb k' k = false ->
  PyDict.get k (PyDict.set k' v d) = PyDict.get k d.
Proof.
  intros Hne.
  induction d as [|[k0 v0] d IH]; cbn [PyDict.set PyDict.get].
  - rewrite Hne. reflexivity.
  - destruct (String.eqb k0 k') eqn:Hk0; cbn [PyDict.get].
    + apply String.eqb_eq in Hk0. subst k0. rewrite Hne. reflexivity.
    + destruct (String.eqb k0 k); [reflexivity|exact IH].
Qed.

Lemma get_remove_same (k : string) (d : PyDict.t V) :
  PyDict.get k (PyDict.remove k d) = None.
Proof.
  unfold PyDict.remove.
  induction d as [|[k' v'] d IH]; cbn [filter PyDict.get fst]; [reflexivity|].
  destruct (String.eqb k' k) eqn:Hk; cbn [negb PyDict.get]; [exact IH|].
  rewrite Hk. exact IH.
Qed.

Lemma get_remove_other (k k' : string) (d : PyDict.t V) :
  String.eqb k' k = false ->
  PyDict.get k (PyDict.remove k' d) = PyDict.get k d.
Proof.
  intros Hne. unfold PyDict.remove.
  induction d as [|[k0 v0] d IH]; cbn [filter PyDict.get fst]; [reflexivity|].
  destruct (String.eqb k0 k') eqn:Hk0; cbn [negb PyDict.get].
  - apply String.eqb_eq in Hk0. subst k0. rewrite Hne. exact IH.
  - destruct (String.eqb k0 k); [reflexivity|exact IH].
Qed.

Lemma get_update_absent (k : string) (e : PyDict.t V) : forall d : PyDict.t V,
  PyDict.get k e = None ->
  PyDict.get k (PyDict.update e d) = PyDict.get k d.
Proof.
  unfold PyDict.update.
  induction e as [|[k' v'] e IH]; intros d; cbn [fold_left PyDict.get fst snd];
    [reflexivity|].
  destruct (String.eqb k' k) eqn:Hk; [discriminate|].
  intros He. rewrite (IH _ He). apply get_set_other, Hk.
Qed.

Lemma in_set (k : string) (v : V) (d : PyDict.t V) (kv : string * V) :
  In kv (PyDict.set k v d) -> kv = (k, v) \/ In kv d.
Proof.
  induction d as [|[k' v'] d IH]; cbn [PyDict.set].
  - intros [<-|[]]. left. reflexivity.
  - destruct (String.eqb k' k).
    + intros [<-|H]; [left; reflexivity|right; right; exact H].
    + intros [<-|H]; [right; left; reflexivity|].
      destruct (IH H) as [->|H']; [left; reflexivity|right; right; exact H'].
Qed.

Lemma in_update (e : PyDict.t V) : forall (d : PyDict.t V) (kv : string * V),
  In kv (PyDict.update e d) -> In kv e \/ In kv d.
Proof.
  unfold PyDict.update.
  induction e as [|[k v] e IH]; intros d kv; cbn [fold_left fst snd].
  - intros H. right. exact H.
  - intros H. destruct (IH _ _ H) as [He|Hd]; [left; right; exact He|].
    destruct (in_set _ _ _ _ Hd) as [->|Hd']; [left; left; reflexivity|right; exact Hd'].
Qed.

Lemma in_of_items (items : list (string * V)) (kv : string * V) :
  In kv (PyDict.of_items items) -> In kv items.
Proof.
  unfold PyDict.of_items. intros H.
  destruct (in_update _ _ _ H) as [Hi|[]]. exact Hi.
Qed.

End DictFacts.

(** *** The preprocessor *)

Section PreprocessorFacts.
Import PyStr.

(** C10.  An input whose stripped form does not start with [/sc:] is
    returned unchanged by [SCCommandProcessor.process]. *)
Theorem process_identity_on_plain_input
  (self : Preprocessor.SCCommandProcessor) (user_input : string) :
  PyStr.startswith "/sc:" (PyStr.strip user_input) = false ->
  Preprocessor.process self user_input = user_input.
Proof.
  intros Hplain. unfold Preprocessor.process. rewrite Hplain. reflexivity.
Qed.

(** A request in plain words goes through unchanged. *)
Lemma process_identity_on_plain_input_witness :
  PyStr.startswith "/sc:" (PyStr.strip "  explain this module ") = false
  /\ Preprocessor.process default_processor "  explain this module "
     = "  explain this module ".
Proof.
  split; [reflexivity|].
  apply (process_identity_on_plain_input default_processor "  explain this module ").
  reflexivity.
Defined.

(** C1.  For the command [analyze] with the description
    [find security vulnerabilities], the built-in rules and a project of
    type [python_backend] and complexity [complex], the recommended flags
    hold the security persona and [--think-hard], and the confidence is
    80: one keyword of five of [analyze_security] occurs in the text
    ([vulnerability] is no substring of [vulnerabilities]), so the score is
    0.2 + 0.5 and the confidence [int(95 * 0.85)].  It is below 85. *)
Theorem security_analysis_confidence_is_80
  (dom : string) (files : Z) (fw lang : option string) :
  let r := Preprocessor.find_best_match Preprocessor._get_default_rules
             "analyze" "find security vulnerabilities"
             (python_backend_complex dom files fw lang) in
  PyStr.contains "--persona-security" (Preprocessor.flags r) = true
  /\ PyStr.contains "--think-hard" (Preprocessor.flags r) = true
  /\ Preprocessor.confidence r = 80%Z
  /\ (Preprocessor.confidence r <? 85)%Z = true.
Proof.
  cbv zeta. unfold Preprocessor.find_best_match.
  destruct (files >? 50)%Z eqn:Hfiles; cbv -[Z.gtb]; rewrite ?Hfiles;
    repeat split.
Qed.

(** Every application of the preprocessor's modifiers makes the flags
    longer by the five characters of [ --uc] at least. *)
Lemma apply_context_modifiers_length (base : string) (ctx : Preprocessor.ProjectContext) :
  (String.length base + 5
   <= String.length (Preprocessor._apply_context_modifiers base ctx))%nat.
Proof.
  unfold Preprocessor._apply_context_modifiers.
  rewrite length_app. cbn [String.length].
  pose proof (replace_think_length base).
  repeat match goal with
         | |- context [if ?b then _ else _] => destruct b
         end; rewrite ?length_app; cbn [String.length]; lia.
Qed.

(** C8.  The preprocessor's [_apply_context_modifiers] is not idempotent:
    it appends [ --uc] without looking for it, so a second application
    repeats the flag, and for every base string and context the second
    result is longer than the first. *)
Theorem apply_context_modifiers_appends_again :
  Preprocessor._apply_context_modifiers "--persona-analyzer --think"
    small_python_project
  = "--persona-analyzer --think --uc"
  /\ Preprocessor._apply_context_modifiers
       (Preprocessor._apply_context_modifiers "--persona-analyzer --think"
          small_python_project)
       small_python_project
     = "--persona-analyzer --think --uc --uc"
  /\ forall base ctx,
       (String.length (Preprocessor._apply_context_modifiers base ctx)
        < String.length
            (Preprocessor._apply_context_modifiers
               (Preprocessor._apply_context_modifiers base ctx) ctx))%nat.
Proof.
  split; [reflexivity|]. split; [reflexivity|].
  intros base ctx.
  pose proof (apply_context_modifiers_length
                (Preprocessor._apply_context_modifiers base ctx) ctx).
  lia.
Qed.

End PreprocessorFacts.

(** *** The context adjustments of the learning package *)

Section AdjustmentFacts.
Import PyStr.

(** The flags the optimizer leaves are not elevated again, with or
    without the delegation flag appended. *)
Lemma elevated_is_stable (complex : bool) (base tail : string) :
  tail = "" \/ tail = " --delegate" ->
  let elevated :=
    if complex && contains "--think" base && negb (contains "--think-hard" base)
    then replace "--think" "--think-hard" base else base in
  complex && contains "--think" (elevated ++ tail)
  && negb (contains "--think-hard" (elevated ++ tail)) = false.
Proof.
  intros Htail elevated. subst elevated.
  destruct complex; [|reflexivity]. cbn [andb].
  destruct (contains "--think" base) eqn:Hthink; cbn [andb].
  - destruct (contains "--think-hard" base) eqn:Hhard; cbn [negb].
    + rewrite (contains_app_l _ _ _ Hhard). apply andb_false_r.
    + rewrite (contains_app_l _ _ tail (replace_think_contains base Hthink)).
      apply andb_false_r.
  - destruct Htail as [->| ->].
    + rewrite app_empty, Hthink. reflexivity.
    + change (base ++ " --delegate") with (base ++ String " " "--delegate").
      rewrite (contains_across " " "-" "-think" base "--delegate" eq_refl).
      rewrite Hthink. reflexivity.
Qed.

(** X1.  [PerformanceOptimizer._adjust_flags_for_context] is idempotent:
    for every base string and context a second application changes
    nothing, since the elevated flag and the delegation flag are looked
    for before they are written. *)
Theorem optimizer_adjust_flags_idempotent (base : string) (ctx : Context.t) :
  Optimizer._adjust_flags_for_context
    (Optimizer._adjust_flags_for_context base ctx) ctx
  = Optimizer._adjust_flags_for_context base ctx.
Proof.
  unfold Optimizer._adjust_flags_for_context.
  set (complex := String.eqb (Context.get (Context.complexity ctx) "moderate") "complex").
  set (many := (Context.get (Context.file_count ctx) 0 >? 50)%Z).
  pose proof (elevated_is_stable complex base "" (or_introl eq_refl)) as Hplain.
  pose proof (elevated_is_stable complex base " --delegate" (or_intror eq_refl))
    as Hdelegated.
  cbv zeta in Hplain, Hdelegated.
  set (elevated := if complex && contains "--think" base
                      && negb (contains "--think-hard" base)
                   then replace "--think" "--think-hard" base else base) in *.
  rewrite app_empty in Hplain.
  destruct (many && negb (contains "--delegate" elevated)) eqn:Hfirst.
  - rewrite Hdelegated.
    rewrite (contains_app_r "--delegate" elevated " --delegate" eq_refl).
    rewrite andb_false_r. reflexivity.
  - rewrite Hplain, Hfirst. reflexivity.
Qed.

Lemma engine_adjust_as_appended (base : string) (ctx : Context.t) :
  Engine._adjust_flags_for_context base ctx
  = strip
      (appended
         (existsb (fun fw => mem fw (Context.get (Context.frameworks ctx) []))
                  ["react"; "vue"; "angular"])
         "--magic"
         (appended
            (mem "python" (Context.get (Context.languages ctx) []))
            "--validate"
            (appended
               (String.eqb (Context.get (Context.project_size ctx) "small") "very_large"
                || (Context.get (Context.file_count ctx) 0 >? 100)%Z)
               "--uc"
               (appended
                  (mem (Context.get (Context.project_size ctx) "small")
                       ["large"; "very_large"]
                   || (Context.get (Context.file_count ctx) 0 >? 50)%Z)
                  "--delegate" base)))).
Proof.
  unfold Engine._adjust_flags_for_context, appended.
  repeat match goal with
         | |- context [if ?b || ?c then _ else _] => destruct (b || c)
         end; cbn [andb]; reflexivity.
Qed.

(** X2.  [AdaptiveLearningEngine._adjust_flags_for_context] is idempotent:
    for every base string and context a second application changes
    nothing, since each of the four flags is looked for before it is
    appended, and stripping a stripped string changes nothing. *)
Theorem engine_adjust_flags_idempotent (base : string) (ctx : Context.t) :
  Engine._adjust_flags_for_context
    (Engine._adjust_flags_for_context base ctx) ctx
  = Engine._adjust_flags_for_context base ctx.
Proof.
  rewrite (engine_adjust_as_appended (Engine._adjust_flags_for_context base ctx)).
  rewrite (engine_adjust_as_appended base).
  set (n1 := mem _ _ || _). set (n2 := String.eqb _ _ || _).
  set (n3 := mem "python" _). set (n4 := existsb _ _).
  set (f1 := appended n1 "--delegate" base).
  set (f2 := appended n2 "--uc" f1).
  set (f3 := appended n3 "--validate" f2).
  set (f4 := appended n4 "--magic" f3).
  assert (H1 : n1 = true -> contains "--delegate" (strip f4) = true).
  { intros E. rewrite contains_strip by reflexivity.
    do 3 apply appended_keeps. subst f1. rewrite E. apply appended_has. }
  assert (H2 : n2 = true -> contains "--uc" (strip f4) = true).
  { intros E. rewrite contains_strip by reflexivity.
    do 2 apply appended_keeps. subst f2. rewrite E. apply appended_has. }
  assert (H3 : n3 = true -> contains "--validate" (strip f4) = true).
  { intros E. rewrite contains_strip by reflexivity.
    apply appended_keeps. subst f3. rewrite E. apply appended_has. }
  assert (H4 : n4 = true -> contains "--magic" (strip f4) = true).
  { intros E. rewrite contains_strip by reflexivity.
    subst f4. rewrite E. apply appended_has. }
  rewrite (appended_fixed n1 _ _ H1), (appended_fixed n2 _ _ H2),
    (appended_fixed n3 _ _ H3), (appended_fixed n4 _ _ H4).
  apply strip_idempotent.
Qed.

End AdjustmentFacts.

(** *** The storage *)

(** On a file that is no database [get_user_interactions] raises; it does
    not return the empty list. *)
Lemma get_user_interactions_raises_on_corrupted_file :
  Storage.get_user_interactions (unreadable "user") 0 30 None
  = Raise (DatabaseError "file is not a database").
Proof. reflexivity. Qed.

(** C3, as the code has it.  [get_user_interactions] has no handler: when
    the file cannot be read as a database the exception of the storage
    reaches the caller, and when it can be read the call returns. *)
Theorem get_user_interactions_propagates_storage_failure
  (uid : string) (now days : Z) (project : option string) :
  Storage.get_user_interactions (unreadable uid) now days project
  = Raise (DatabaseError "file is not a database")
  /\ forall db : Storage.Database,
       raised (Storage.get_user_interactions (readable db uid) now days project)
       = false.
Proof. split; [reflexivity | intros db; reflexivity]. Qed.

Lemma find_pattern_update_row name new rows r :
  Storage.pattern_name new = name ->
  Storage.find_pattern name rows = Some r ->
  Storage.find_pattern name (Storage.update_row new rows) = Some new.
Proof.
  intros <-. unfold Storage.find_pattern, Storage.update_row.
  induction rows as [|x rows IH]; cbn [find map]; [discriminate|].
  destruct (String.eqb (Storage.pattern_name x) (Storage.pattern_name new)) eqn:Hx.
  - intros _. cbn [find]. rewrite String.eqb_refl. reflexivity.
  - intros H. cbn [find]. rewrite Hx. apply IH, H.
Qed.

Lemma find_pattern_append name new rows :
  Storage.pattern_name new = name ->
  Storage.find_pattern name rows = None ->
  Storage.find_pattern name (rows ++ [new]) = Some new.
Proof.
  intros <-. unfold Storage.find_pattern.
  induction rows as [|x rows IH]; cbn [find app].
  - intros _. rewrite String.eqb_refl. reflexivity.
  - destruct (String.eqb (Storage.pattern_name x) (Storage.pattern_name new));
      [discriminate|exact IH].
Qed.

(** What an update writes: the counts of the row it leaves. *)
Lemma update_pattern_success_row db uid now name succeeded context :
  row_consistent name (readable db uid) ->
  exists db' r',
    Storage.update_pattern_success (readable db uid) now name succeeded context
    = Ok (readable db' uid)
    /\ row_of name (readable db' uid) = Some r'
    /\ Storage.total_uses r'
       = match row_of name (readable db uid) with
         | Some r => (Storage.total_uses r + 1)%Z
         | None => 1%Z
         end
    /\ Storage.successful_uses r'
       = ((match row_of name (readable db uid) with
           | Some r => Storage.successful_uses r
           | None => 0%Z
           end) + (if succeeded then 1 else 0))%Z
    /\ Storage.success_rate r'
       = inject_Z (Storage.successful_uses r') / inject_Z (Storage.total_uses r').
Proof.
  intros Hinv. unfold row_consistent, row_of in *. cbn [Storage.db_file readable] in *.
  unfold Storage.update_pattern_success. cbn [Storage.connect Storage.db_file readable bind].
  destruct (Storage.find_pattern name (Storage.pattern_success db)) as [r|] eqn:Hrow.
  - destruct (Hinv r eq_refl) as [[Hs0 Hst] [Ht _]].
    unfold Storage.divide.
    destruct (Storage.total_uses r + 1 =? 0)%Z eqn:Hz; [lia|]. cbn [bind].
    eexists _, _. split; [reflexivity|].
    cbn [Storage.db_file Storage.with_db Storage.set_pattern_success
           Storage.pattern_success readable].
    split; [eapply find_pattern_update_row; [reflexivity|exact Hrow]|].
    cbn. destruct succeeded; repeat split; f_equal; lia.
  - cbn [Storage.divide Z.eqb bind].
    eexists _, _. split; [reflexivity|].
    cbn [Storage.db_file Storage.with_db Storage.set_pattern_success
           Storage.pattern_success readable].
    split; [apply find_pattern_append; [reflexivity|exact Hrow]|].
    cbn. destruct succeeded; repeat split.
Qed.

Lemma ratio_as_fraction (a : Z) (p : positive) :
  inject_Z a / inject_Z (Zpos p) == a # p.
Proof. symmetry. apply Qmake_Qdiv. Qed.

Lemma ratio_le_1 (s t : Z) :
  (0 <= s <= t)%Z -> (0 < t)%Z -> inject_Z s / inject_Z t <= 1.
Proof.
  intros Hs Ht. destruct t as [|p|p]; try lia.
  rewrite ratio_as_fraction. unfold Qle. cbn. lia.
Qed.

Lemma ratio_grows (s t : Z) :
  (0 <= s <= t)%Z -> (0 < t)%Z ->
  inject_Z s / inject_Z t <= inject_Z (s + 1) / inject_Z (t + 1).
Proof.
  intros Hs Ht. destruct t as [|p|p]; try lia.
  replace (Z.pos p + 1)%Z with (Z.pos (p + 1)) by lia.
  rewrite !ratio_as_fraction. unfold Qle. cbn. nia.
Qed.

Lemma ratio_near_1 (eps : Q) (s t n : Z) :
  0 < eps -> (0 <= s <= t)%Z -> (0 <= t)%Z -> (0 < t + n)%Z ->
  ((t - s) * Zpos (Qden eps) < n)%Z ->
  1 - eps < inject_Z (s + n) / inject_Z (t + n).
Proof.
  intros Heps Hs Ht Htn Hn.
  destruct (t + n)%Z as [|p|p] eqn:Hp; try lia.
  rewrite ratio_as_fraction.
  destruct eps as [a b].
  unfold Qlt, Qminus, Qplus, Qopp in *. cbn [Qnum Qden] in *.
  rewrite ?Pos2Z.inj_mul. rewrite <- Hp.
  assert (Ha : (1 <= a)%Z) by lia.
  assert (Hb : (0 < Z.pos b)%Z) by lia.
  assert (Han : (n <= a * (t + n))%Z) by nia.
  nia.
Qed.

Lemma update_keeps_consistent db uid now name succeeded context :
  row_consistent name (readable db uid) ->
  exists db',
    Storage.update_pattern_success (readable db uid) now name succeeded context
    = Ok (readable db' uid)
    /\ row_consistent name (readable db' uid)
    /\ counts name (readable db' uid)
       = ((fst (counts name (readable db uid)) + (if succeeded then 1 else 0))%Z,
          (snd (counts name (readable db uid)) + 1)%Z).
Proof.
  intros Hinv.
  destruct (update_pattern_success_row db uid now name succeeded context Hinv)
    as [db' [r' [Hup [Hrow [Ht [Hs Hrate]]]]]].
  exists db'. split; [exact Hup|].
  assert (Hold : (0 <= fst (counts name (readable db uid))
                  <= snd (counts name (readable db uid)))%Z
                 /\ (0 <= snd (counts name (readable db uid)))%Z).
  { unfold counts. destruct (row_of name (readable db uid)) as [r|] eqn:Hr.
    - destruct (Hinv r Hr) as [? [? _]]. cbn. lia.
    - cbn. lia. }
  unfold counts in *. rewrite Hrow.
  destruct (row_of name (readable db uid)) as [r|]; cbn [fst snd] in *.
  - split.
    + intros r0 Hr0. rewrite Hrow in Hr0. injection Hr0 as <-.
      unfold consistent. rewrite Hrate, Ht, Hs.
      destruct succeeded; repeat split; try lia; reflexivity.
    + rewrite Ht, Hs. reflexivity.
  - split.
    + intros r0 Hr0. rewrite Hrow in Hr0. injection Hr0 as <-.
      unfold consistent. rewrite Hrate, Ht, Hs.
      destruct succeeded; repeat split; try lia; reflexivity.
    + rewrite Ht, Hs. reflexivity.
Qed.

Lemma record_successes_counts times : forall db uid name context,
  row_consistent name (readable db uid) ->
  exists db',
    record_successes (readable db uid) times name context = Ok (readable db' uid)
    /\ row_consistent name (readable db' uid)
    /\ counts name (readable db' uid)
       = ((fst (counts name (readable db uid)) + Z.of_nat (List.length times))%Z,
          (snd (counts name (readable db uid)) + Z.of_nat (List.length times))%Z).
Proof.
  induction times as [|now later IH]; intros db uid name context Hinv.
  - exists db. cbn [record_successes List.length Z.of_nat].
    rewrite !Z.add_0_r. split; [reflexivity|]. split; [exact Hinv|].
    destruct (counts name (readable db uid)). reflexivity.
  - destruct (update_keeps_consistent db uid now name true context Hinv)
      as [db1 [Hup [Hinv1 Hc1]]].
    destruct (IH db1 uid name context Hinv1) as [db' [Hrec [Hinv' Hc']]].
    exists db'. cbn [record_successes]. rewrite Hup. cbn [bind].
    split; [exact Hrec|]. split; [exact Hinv'|].
    rewrite Hc', Hc1. cbn [fst snd List.length]. f_equal; lia.
Qed.

Lemma counts_nonneg name self :
  row_consistent name self ->
  (0 <= fst (counts name self) <= snd (counts name self))%Z.
Proof.
  intros Hinv. unfold counts.
  destruct (row_of name self) as [r|] eqn:Hr; cbn [fst snd]; [|lia].
  destruct (Hinv r Hr) as [? _]. lia.
Qed.

(** C7.  On a readable store whose row of the pattern, if there is one,
    satisfies the invariant: every [update_pattern_success] returns and
    leaves a row with [0 <= successful_uses <= total_uses] and
    [success_rate = successful_uses / total_uses], at most 1; an update
    with [success = True] does not lower the stored rate; and the rate
    comes as close to 1 as one wants under repeated successful updates. *)
Theorem update_pattern_success_rate_invariant
  (db : Storage.Database) (uid name : string) (context : PyDict.t Q) :
  row_consistent name (readable db uid) ->
  (forall now succeeded, exists self' r',
      Storage.update_pattern_success (readable db uid) now name succeeded context
      = Ok self'
      /\ row_of name self' = Some r'
      /\ consistent r'
      /\ Storage.success_rate r' <= 1)
  /\ (forall now self' r r',
        Storage.update_pattern_success (readable db uid) now name true context
        = Ok self' ->
        row_of name (readable db uid) = Some r ->
        row_of name self' = Some r' ->
        Storage.success_rate r <= Storage.success_rate r'
        /\ Storage.success_rate r' <= 1)
  /\ (forall eps, 0 < eps ->
      exists N, forall times, (N <= List.length times)%nat ->
        exists self' r',
          record_successes (readable db uid) times name context = Ok self'
          /\ row_of name self' = Some r'
          /\ 1 - eps < Storage.success_rate r'
          /\ Storage.success_rate r' <= 1).
Proof.
  intros Hinv.
  assert (Hbound : forall r, consistent r -> Storage.success_rate r <= 1).
  { intros r [Hs [Ht Hrate]]. rewrite Hrate. apply ratio_le_1; assumption. }
  split; [|split].
  - intros now succeeded.
    destruct (update_keeps_consistent db uid now name succeeded context Hinv)
      as [db' [Hup [Hinv' _]]].
    destruct (update_pattern_success_row db uid now name succeeded context Hinv)
      as [db2 [r' [Hup2 [Hrow _]]]].
    rewrite Hup in Hup2. injection Hup2 as <-.
    exists (readable db' uid), r'.
    split; [exact Hup|]. split; [exact Hrow|].
    split; [apply (Hinv' r' Hrow) | apply Hbound, (Hinv' r' Hrow)].
  - intros now self' r r' Hup Hr Hr'.
    destruct (update_keeps_consistent db uid now name true context Hinv)
      as [db' [Hup1 [Hinv' _]]].
    destruct (update_pattern_success_row db uid now name true context Hinv)
      as [db2 [r2 [Hup2 [Hrow [Ht [Hs Hrate]]]]]].
    rewrite Hup in Hup1, Hup2. injection Hup1 as ->. injection Hup2 as <-.
    rewrite Hr' in Hrow. injection Hrow as <-.
    rewrite Hr in Ht, Hs.
    split; [|apply Hbound, (Hinv' r' Hr')].
    destruct (Hinv r Hr) as [Hs0 [Ht0 Hrate0]].
    rewrite Hrate0, Hrate, Ht, Hs. apply ratio_grows; assumption.
  - intros eps Heps.
    pose proof (counts_nonneg name (readable db uid) Hinv) as Hc0.
    destruct (counts name (readable db uid)) as [s0 t0] eqn:Hcounts.
    cbn [fst snd] in Hc0.
    exists (S (Z.to_nat ((t0 - s0) * Zpos (Qden eps)))).
    intros times Hlen.
    destruct (record_successes_counts times db uid name context Hinv)
      as [db' [Hrec [Hinv' Hc']]].
    rewrite Hcounts in Hc'. cbn [fst snd] in Hc'.
    unfold counts in Hc'.
    destruct (row_of name (readable db' uid)) as [r'|] eqn:Hr'.
    + exists (readable db' uid), r'. split; [exact Hrec|]. split; [exact Hr'|].
      split; [|apply Hbound, (Hinv' r' Hr')].
      destruct (Hinv' r' Hr') as [_ [_ Hrate]].
      injection Hc' as Hs Ht. rewrite Hrate, Hs, Ht.
      apply ratio_near_1; try assumption; lia.
    + injection Hc' as Hs Ht. lia.
Qed.

(** A pattern without a row satisfies the invariant, and every update
    keeps it: it holds of every store the updates build. *)
Lemma no_row_is_consistent (name : string) (self : Storage.LearningStorage) :
  row_of name self = None -> row_consistent name self.
Proof. intros Hnone r Hr. rewrite Hnone in Hr. discriminate Hr. Qed.

Lemma one_pattern_consistent :
  row_consistent "analyze_security" (readable one_pattern "user").
Proof.
  intros r Hr. injection Hr as <-. unfold consistent. cbn.
  repeat split; try lia; discriminate.
Qed.

(** The invariant holds of a store with one row, 2 successes of 4 uses. *)
Lemma update_pattern_success_rate_invariant_witness :
  row_consistent "analyze_security" (readable one_pattern "user")
  /\ exists self' r',
      Storage.update_pattern_success (readable one_pattern "user") hour
        "analyze_security" true [] = Ok self'
      /\ row_of "analyze_security" self' = Some r'
      /\ consistent r'
      /\ Storage.success_rate r' <= 1.
Proof.
  split; [exact one_pattern_consistent|].
  exact (proj1 (update_pattern_success_rate_invariant one_pattern "user"
                  "analyze_security" [] one_pattern_consistent) hour true).
Defined.

(** *** The feedback processor *)

Lemma os_is_not_a_global : Feedback.load_global "os" = Raise (NameError "os").
Proof. reflexivity. Qed.

(** C2.  Every call of [process_immediate_feedback] and of
    [process_explicit_feedback] raises: the module never imports [os], so
    [os.getcwd()] is a [NameError], unless reading the storage has raised
    before. *)
Theorem feedback_processing_raises
  (cwd : string) (sha256_16 : string -> string)
  (self : Feedback.FeedbackProcessor) (now : Z) (interaction_id : string)
  (succeeded : bool) (execution_time : Q) (details : option string)
  (user_rating : Z) :
  Feedback.process_immediate_feedback cwd sha256_16 self now
    interaction_id succeeded execution_time details
  = match Storage.db_file (Feedback.storage self) with
    | Some _ => Raise (NameError "os")
    | None => Raise (DatabaseError "file is not a database")
    end
  /\ Feedback.process_explicit_feedback cwd sha256_16 self now
       interaction_id user_rating details = Raise (NameError "os").
Proof.
  split; [|reflexivity].
  unfold Feedback.process_immediate_feedback,
    Feedback._determine_pattern_adjustments, Storage.get_user_interactions,
    Storage.connect.
  destruct (Storage.db_file (Feedback.storage self)); cbn [bind]; [|reflexivity].
  match goal with |- context [find ?f ?l] => destruct (find f l) end; reflexivity.
Qed.

(** A second run of the batch over the same window finds the same
    interactions unprocessed: it returns the same feedback and puts out
    the same averaged adjustments once more. *)
Lemma batch_rerun_repeats_the_updates
  (self : Feedback.FeedbackProcessor) (now days : Z)
  (fbs : list Feedback.ProcessedFeedback) (self1 : Feedback.FeedbackProcessor) :
  Feedback.process_batch_feedback self now days = Ok (fbs, self1) ->
  exists lines,
    Feedback.stdout self1 = (Feedback.stdout self ++ lines)%list
    /\ Feedback.process_batch_feedback self1 now days
       = Ok (fbs, Feedback.print self1 lines).
Proof.
  unfold Feedback.process_batch_feedback.
  destruct (Storage.get_user_interactions (Feedback.storage self) now days None)
    as [recent|e] eqn:Hrecent; cbn [bind]; try discriminate.
  destruct (fold_left (Feedback.batch_step self now) recent ([], []))
    as [processed updates] eqn:Hfold.
  intros H; injection H as <- <-.
  exists (Feedback.batch_lines updates). split; [reflexivity|].
  cbn [Feedback._apply_batch_updates Feedback.print Feedback.storage].
  rewrite Hrecent. cbn [bind].
  replace (fold_left (Feedback.batch_step _ now) recent ([], []))
    with (processed, updates); reflexivity.
Qed.

(** C5.  On a store with one closed interaction, the first batch run
    applies two averaged adjustments, and the second run over the same
    window applies the same two again: no interaction is recognised as
    processed. *)
Theorem batch_feedback_is_applied_again
  : exists fbs self1 self2,
    Feedback.process_batch_feedback fresh_processor hour 7 = Ok (fbs, self1)
    /\ Feedback.process_batch_feedback self1 hour 7 = Ok (fbs, self2)
    /\ List.length fbs = 1%nat
    /\ Feedback._is_feedback_processed self1 "1" = false
    /\ List.length (Feedback.stdout self1) = 2%nat
    /\ Feedback.stdout self2
       = (Feedback.stdout self1 ++ Feedback.stdout self1)%list
    /\ Feedback.storage self2 = Feedback.storage fresh_processor.
Proof.
  destruct (Feedback.process_batch_feedback fresh_processor hour 7)
    as [[fbs self1]|e] eqn:Hfirst; [|discriminate Hfirst].
  destruct (batch_rerun_repeats_the_updates _ _ _ _ _ Hfirst)
    as [lines [Hout Hsecond]].
  exists fbs, self1, (Feedback.print self1 lines).
  split; [reflexivity|]. split; [exact Hsecond|].
  vm_compute in Hfirst. injection Hfirst as <- <-.
  cbn in Hout. subst lines. repeat split.
Qed.

(** *** The learning engine *)

Section EngineFacts.
Import Engine.

(** A pattern whose total score is 50.75: the confidence is 50, where
    rounding the score gives 51.  And the same pattern in the cache,
    after [_update_pattern_weights] has raised its success rate from 0.5
    to 0.6: its confidence score is still 0.075, where
    [success_rate * min(usage_count / 20, 1)] is 0.09. *)
Lemma confidence_truncates_the_score :
  let r := _calculate_adaptive_score exp_taylor hour half_successful_pattern
             "analyze" "" no_context in
  score r == 203 # 4
  /\ confidence r = 50%Z
  /\ Z.min 95 (round (score r)) = 51%Z
  /\ let self := _update_pattern_weights no_json warm_engine hour
                   "analyze_general" 1 analyze_interaction in
     exists p,
       PyDict.get "analyze_general" (_pattern_cache self) = Some p
       /\ success_rate p == 3 # 5
       /\ usage_count p = 3%Z
       /\ confidence_score p == 3 # 40
       /\ success_rate p * Qmin (inject_Z (usage_count p) / 20) 1 == 9 # 100.
Proof.
  cbv zeta. split; [|split; [|split]]; try reflexivity.
  eexists. split; [reflexivity|]. repeat split.
Qed.

(** [int] of a number that is not negative is its floor. *)
Lemma int_is_floor (x : Q) : 0 <= x -> int x = Qfloor x.
Proof.
  destruct x as [n d]. unfold Qle, int, Qfloor. cbn [Qnum Qden].
  intros H. apply Z.quot_div_nonneg; lia.
Qed.

Lemma Qmin_below (a b : Q) : Qmin a b <= b.
Proof.
  unfold Qmin. destruct (Qle_bool a b) eqn:H; [|apply Qle_refl].
  apply Qle_bool_iff, H.
Qed.

(** For a success rate between 0 and 1 the cap at 1 of
    [_calculate_confidence_score] changes nothing. *)
Lemma confidence_score_uncapped (usage : Z) (rate : Q) :
  0 <= rate -> rate <= 1 ->
  _calculate_confidence_score usage rate
  == rate * Qmin (inject_Z usage / 20) 1.
Proof.
  intros H0 H1. unfold _calculate_confidence_score.
  set (factor := Qmin (inject_Z usage / 20) 1).
  assert (Hle : rate * factor <= 1).
  { rewrite Qmult_comm. apply Qle_trans with (1 * rate).
    - apply Qmult_le_compat_r; [apply Qmin_below|exact H0].
    - rewrite Qmult_1_l. exact H1. }
  unfold Qmin at 1. apply Qle_bool_iff in Hle. rewrite Hle. reflexivity.
Qed.

(** C4, as the code has it.  For every pattern that is scored, the total
    score is the sum of the five weighted terms, the fourth being the
    confidence score the pattern holds, and the confidence is
    [min(95, int(total_score))]: the score is truncated, not rounded.
    The confidence score of a pattern as [_load_patterns_cache] builds it
    is [success_rate * min(usage_count / 20, 1)] when the stored rate
    lies between 0 and 1; [_update_pattern_weights] changes the success
    rate of a cached pattern and leaves its confidence score as it
    was. *)
Theorem adaptive_score_formula
  (math_exp : Q -> Q) (now : Z) (p : LearningPattern)
  (command description : string) (ctx : Context.t) :
  let r := _calculate_adaptive_score math_exp now p command description ctx in
  score r == success_rate p * 40
             + Qmin (user_preference_score p) 2 * 10
             + _calculate_context_similarity (context_weights p) ctx * 20
             + confidence_score p * 10
             + _calculate_recency_score math_exp now (last_updated p) * 10
  /\ confidence r = Z.min 95 (int (score r))
  /\ (0 <= score r -> confidence r = Z.min 95 (Qfloor (score r)))
  /\ (forall prefs name row,
        0 <= Storage.success_rate row -> Storage.success_rate row <= 1 ->
        let loaded := snd (load_pattern prefs (name, row)) in
        success_rate loaded = Storage.success_rate row
        /\ usage_count loaded = Storage.total_uses row
        /\ confidence_score loaded
           == success_rate loaded * Qmin (inject_Z (usage_count loaded) / 20) 1)
  /\ forall json_loads self at_time name weight interaction cached,
       PyDict.get name (_pattern_cache self) = Some cached ->
       exists updated,
         PyDict.get name
           (_pattern_cache (_update_pattern_weights json_loads self at_time name
                              weight interaction)) = Some updated
         /\ success_rate updated
            = Qmax 0 (Qmin 1 (success_rate cached + weight * learning_rate))
         /\ usage_count updated = usage_count cached
         /\ confidence_score updated = confidence_score cached.
Proof.
  cbv zeta. split; [reflexivity|]. split; [reflexivity|].
  split; [|split].
  - intros H. cbn [confidence _calculate_adaptive_score score] in *.
    rewrite (int_is_floor _ H). reflexivity.
  - intros prefs name row H0 H1.
    cbn [load_pattern snd confidence_score success_rate usage_count].
    split; [reflexivity|]. split; [reflexivity|].
    apply confidence_score_uncapped; assumption.
  - intros json_loads self at_time name weight interaction cached Hcached.
    unfold _update_pattern_weights. rewrite Hcached.
    eexists. split.
    + destruct (bind _ _); cbn [with_storage _pattern_cache]; apply get_set_same.
    + repeat split.
Qed.

Lemma candidates_are_cached cache command description ctx p :
  In p (_find_candidate_patterns cache command description ctx) ->
  In p (PyDict.values cache).
Proof.
  unfold _find_candidate_patterns, PyDict.values.
  intros H. apply in_map_iff in H. destruct H as [[k v] [<- H]].
  apply in_of_items in H. apply in_map_iff in H. destruct H as [q [E H]].
  injection E as _ <-. cbn [snd].
  apply in_map_iff in H. destruct H as [kv [<- H]].
  apply in_map. apply in_app_or in H.
  destruct H as [H|H]; apply filter_In in H; apply H.
Qed.

Lemma score_depends_on_recency math_exp now1 now2 p command description ctx :
  _calculate_recency_score math_exp now1 (last_updated p)
  = _calculate_recency_score math_exp now2 (last_updated p) ->
  _calculate_adaptive_score math_exp now1 p command description ctx
  = _calculate_adaptive_score math_exp now2 p command description ctx.
Proof. intros H. unfold _calculate_adaptive_score. rewrite H. reflexivity. Qed.

Lemma loaded_patterns_come_from_rows prefs rows p :
  In p (PyDict.values
          (PyDict.of_items
             (map (load_pattern prefs)
                  (PyDict.of_items
                     (map (fun r => (Storage.pattern_name r, r)) rows))))) ->
  In (last_updated p) (map Storage.last_updated rows).
Proof.
  unfold PyDict.values. intros H.
  apply in_map_iff in H. destruct H as [[k v] [<- H]].
  apply in_of_items in H. apply in_map_iff in H. destruct H as [[name row] [E H]].
  apply in_of_items in H. apply in_map_iff in H. destruct H as [r [E' H]].
  injection E' as _ <-. cbn [load_pattern] in E. injection E as _ <-.
  cbn [snd last_updated]. apply in_map, H.
Qed.

(** C6, as the code has it.  The recommendation is a function of the
    engine's state, the input and the clock: two calls from the same state
    with the same input return the same recommendation whenever the clock
    readings agree on whether the cache has expired and on the recency of
    every pattern of the cache and of the storage. *)
Theorem recommendation_depends_on_state_input_and_clock
  (math_exp : Q -> Q) (self : AdaptiveLearningEngine) (now1 now2 : Z)
  (command description : string) (ctx : Context.t) :
  cache_expired self now1 = cache_expired self now2 ->
  (forall u, In u (timestamps self) ->
             _calculate_recency_score math_exp now1 u
             = _calculate_recency_score math_exp now2 u) ->
  recommendation (get_adaptive_recommendation math_exp self now1
                    command description ctx)
  = recommendation (get_adaptive_recommendation math_exp self now2
                      command description ctx).
Proof.
  intros Hexpired Hrecency.
  unfold get_adaptive_recommendation, _load_patterns_cache.
  rewrite <- Hexpired.
  assert (Hscored : forall cache,
             (forall p, In p (PyDict.values cache) -> In (last_updated p) (timestamps self)) ->
             map (fun p => _calculate_adaptive_score math_exp now1 p command description ctx)
                 (_find_candidate_patterns cache command description ctx)
             = map (fun p => _calculate_adaptive_score math_exp now2 p command description ctx)
                   (_find_candidate_patterns cache command description ctx)).
  { intros cache Hcache. apply map_ext_in. intros p Hp.
    apply score_depends_on_recency, Hrecency, Hcache.
    apply (candidates_are_cached _ _ _ _ _ Hp). }
  destruct (cache_expired self now1).
  - unfold Storage.get_pattern_success_rates, Storage.get_user_preferences,
      Storage.connect.
    destruct (Storage.db_file (storage self)) as [db|] eqn:Hdb; [|reflexivity].
    cbn [bind _pattern_cache].
    rewrite Hscored.
    + destruct (map _ _); reflexivity.
    + intros p Hp. unfold timestamps. rewrite Hdb. apply in_or_app. right.
      apply (loaded_patterns_come_from_rows _ _ _ Hp).
  - cbn [bind]. rewrite Hscored.
    + destruct (map _ _); reflexivity.
    + intros p Hp. unfold timestamps. apply in_or_app. left. apply in_map, Hp.
Qed.

(** The same engine, storage and input give the confidence 51 ten days
    after the pattern was updated and 42 a hundred days after. *)
Lemma recommendation_changes_with_the_clock :
  recommended_confidence
    (get_adaptive_recommendation exp_taylor cold_engine (days 10)
       "analyze" "find security vulnerabilities" no_context) = Some 51%Z
  /\ recommended_confidence
       (get_adaptive_recommendation exp_taylor cold_engine (days 100)
          "analyze" "find security vulnerabilities" no_context) = Some 42%Z.
Proof. split; vm_compute; reflexivity. Qed.

(** One and two days after the last update the recency is 1 at both
    readings. *)
Lemma recommendation_depends_on_state_input_and_clock_witness :
  cache_expired cold_engine (days 1) = cache_expired cold_engine (days 2)
  /\ (forall u, In u (timestamps cold_engine) ->
                _calculate_recency_score exp_taylor (days 1) u
                = _calculate_recency_score exp_taylor (days 2) u)
  /\ recommendation (get_adaptive_recommendation exp_taylor cold_engine (days 1)
                       "analyze" "find security vulnerabilities" no_context)
     = recommendation (get_adaptive_recommendation exp_taylor cold_engine (days 2)
                         "analyze" "find security vulnerabilities" no_context).
Proof.
  assert (H : forall u, In u (timestamps cold_engine) ->
                _calculate_recency_score exp_taylor (days 1) u
                = _calculate_recency_score exp_taylor (days 2) u).
  { intros u [<-|[]]. reflexivity. }
  split; [reflexivity|]. split; [exact H|].
  apply (recommendation_depends_on_state_input_and_clock exp_taylor cold_engine
           (days 1) (days 2) "analyze" "find security vulnerabilities" no_context
           eq_refl H).
Defined.

End EngineFacts.

(** *** The recommendation cache *)

Section OptimizerFacts.
Import Optimizer.

Lemma get_time_well_formed e :
  has_timestamp e = true -> exists t, get_time "timestamp" e = Ok t.
Proof.
  unfold has_timestamp, get_time.
  destruct (PyDict.get "timestamp" e) as [[s|n|t|b]|]; try discriminate.
  intros _. exists t. reflexivity.
Qed.

Lemma well_formed_get c key e :
  well_formed c = true -> PyDict.get key c = Some e -> has_timestamp e = true.
Proof.
  unfold well_formed.
  induction c as [|[k v] c IH]; cbn [forallb PyDict.get snd]; [discriminate|].
  intros H. apply andb_prop in H. destruct H as [Hv Hc].
  destruct (String.eqb k key).
  - intros E. injection E as <-. exact Hv.
  - apply IH, Hc.
Qed.

Lemma well_formed_remove c key :
  well_formed c = true -> well_formed (PyDict.remove key c) = true.
Proof.
  unfold well_formed, PyDict.remove.
  induction c as [|[k v] c IH]; cbn [forallb filter fst snd]; [reflexivity|].
  intros H. apply andb_prop in H. destruct H as [Hv Hc].
  destruct (negb (String.eqb k key)); cbn [forallb snd]; [rewrite Hv|]; apply IH, Hc.
Qed.

Lemma well_formed_set c key e :
  well_formed c = true -> has_timestamp e = true ->
  well_formed (PyDict.set key e c) = true.
Proof.
  unfold well_formed. intros Hc He.
  induction c as [|[k v] c IH]; cbn [PyDict.set forallb snd].
  - rewrite He. reflexivity.
  - cbn [forallb snd] in Hc. apply andb_prop in Hc. destruct Hc as [Hv Hc].
    destruct (String.eqb k key); cbn [forallb snd].
    + rewrite He, Hc. reflexivity.
    + rewrite Hv. apply IH, Hc.
Qed.

Lemma oldest_from_well_formed c : forall best stamp,
  well_formed c = true -> exists k, oldest_from best stamp c = Ok k.
Proof.
  induction c as [|[k e] c IH]; intros best stamp Hc; cbn [oldest_from].
  - exists best. reflexivity.
  - cbn [well_formed forallb snd] in Hc. apply andb_prop in Hc.
    destruct Hc as [He Hc].
    destruct (get_time_well_formed e He) as [t ->]. cbn [bind].
    destruct (t <? stamp)%Z; apply IH, Hc.
Qed.

Lemma oldest_key_well_formed c :
  well_formed c = true -> exists k, oldest_key c = Ok k.
Proof.
  destruct c as [|[k e] c]; intros Hc; cbn [oldest_key].
  - exists None. reflexivity.
  - cbn [well_formed forallb snd] in Hc. apply andb_prop in Hc.
    destruct Hc as [He Hc].
    destruct (get_time_well_formed e He) as [t ->]. cbn [bind].
    destruct (oldest_from_well_formed c k t Hc) as [k' ->]. cbn [bind].
    exists (Some k'). reflexivity.
Qed.

(** Storing an entry: afterwards the key holds it, or holds nothing. *)
Lemma cache_recommendation_stores self key e :
  well_formed (pattern_cache self) = true -> has_timestamp e = true ->
  exists self',
    _cache_recommendation self key e = (Ok tt, self')
    /\ (PyDict.get key (pattern_cache self') = Some e
        \/ PyDict.get key (pattern_cache self') = None).
Proof.
  intros Hc He. unfold _cache_recommendation.
  cbn [pattern_cache with_cache].
  destruct (1000 <? _)%Z.
  - destruct (oldest_key_well_formed _ (well_formed_set _ key e Hc He)) as [[k|] ->].
    + eexists. split; [reflexivity|]. cbn [pattern_cache with_cache].
      destruct (String.eqb k key) eqn:Hk.
      * apply String.eqb_eq in Hk. subst k. right. apply get_remove_same.
      * left. rewrite (get_remove_other _ _ _ Hk). apply get_set_same.
    + eexists. split; [reflexivity|]. left. apply get_set_same.
  - eexists. split; [reflexivity|]. left. apply get_set_same.
Qed.

(** A call that finds the entry returns what is stored under [flags] and
    [confidence]. *)
Lemma hit_returns_stored py_hash self now response_time user_input
      command description ctx fl conf stamp :
  let key := make_cache_key py_hash command description ctx in
  stored (pattern_cache self) key fl conf stamp ->
  is_hit self now key = true ->
  let r := fst (get_quick_recommendation py_hash self now response_time
                  user_input command description ctx) in
  flags r = fl /\ confidence r = conf.
Proof.
  intros key [e [Hkey [Hf [Hconf Ht]]]] Hhit.
  unfold get_quick_recommendation. fold key.
  unfold is_hit, _get_cached_recommendation in *. rewrite Hkey in *.
  unfold get_time in *. rewrite Ht in *.
  destruct (now - stamp <? cache_ttl)%Z; [|discriminate Hhit].
  cbn [fst] in Hhit.
  destruct e as [|item e]; [discriminate Hhit|].
  unfold get_str, get_int. rewrite Hf, Hconf. cbn. split; reflexivity.
Qed.

End OptimizerFacts.

(* ===================================================================== *)
(** ** Further properties of the code *)
(* ===================================================================== *)

(** *** Numbers and lists *)

Lemma Qltb_true (a b : Q) : Qltb a b = true -> a < b.
Proof.
  unfold Qltb. destruct (Qcompare a b) eqn:H; try discriminate.
  intros _. apply Qlt_alt, H.
Qed.

Lemma Qltb_false (a b : Q) : Qltb a b = false -> b <= a.
Proof.
  unfold Qltb. destruct (Qcompare a b) eqn:H; try discriminate; intros _.
  - apply Qeq_alt in H. rewrite H. apply Qle_refl.
  - apply Qlt_le_weak. apply Qgt_alt, H.
Qed.

Lemma Qmin_below_l (a b : Q) : Qmin a b <= a.
Proof.
  unfold Qmin. destruct (Qle_bool a b) eqn:H; [apply Qle_refl|].
  apply Qlt_le_weak, Qnot_le_lt. intros Hle. apply Qle_bool_iff in Hle. congruence.
Qed.

Lemma Qmin_above (a b c : Q) : c <= a -> c <= b -> c <= Qmin a b.
Proof. intros Ha Hb. unfold Qmin. destruct (Qle_bool a b); assumption. Qed.

Lemma Qmax_above_l (a b : Q) : a <= Qmax a b.
Proof.
  unfold Qmax. destruct (Qle_bool a b) eqn:H; [|apply Qle_refl].
  apply Qle_bool_iff, H.
Qed.

Lemma Qmax_above_r (a b : Q) : b <= Qmax a b.
Proof.
  unfold Qmax. destruct (Qle_bool a b) eqn:H; [apply Qle_refl|].
  apply Qlt_le_weak, Qnot_le_lt. intros Hle. apply Qle_bool_iff in Hle. congruence.
Qed.



Lemma unit_clamp_bounds (x : Q) : 0 <= Qmin 1 (Qmax 0 x) /\ Qmin 1 (Qmax 0 x) <= 1.
Proof.
  split; [|apply Qmin_below_l].
  apply Qmin_above; [discriminate|apply Qmax_above_l].
Qed.

Lemma filter_length_le {A} (p : A -> bool) (l : list A) :
  (List.length (filter p l) <= List.length l)%nat.
Proof.
  induction l as [|x l IH]; cbn [filter List.length]; [lia|].
  destruct (p x); cbn [List.length]; lia.
Qed.

Lemma filter_length_mono {A} (p q : A -> bool) (l : list A) :
  (forall x, p x = true -> q x = true) ->
  (List.length (filter p l) <= List.length (filter q l))%nat.
Proof.
  intros H. induction l as [|x l IH]; cbn [filter]; [lia|].
  destruct (p x) eqn:Hp.
  - rewrite (H x Hp). cbn [List.length]. lia.
  - destruct (q x); cbn [List.length]; lia.
Qed.

Lemma filter_implied {A} (p q : A -> bool) (l : list A) :
  (forall x, p x = true -> q x = true) ->
  filter p (filter q l) = filter p l.
Proof.
  intros H. induction l as [|x l IH]; cbn [filter]; [reflexivity|].
  destruct (q x) eqn:Hq; cbn [filter].
  - rewrite IH. reflexivity.
  - destruct (p x) eqn:Hp; [rewrite (H x Hp) in Hq; discriminate|exact IH].
Qed.

Lemma count_ratio_bounds (m n : nat) :
  (m <= n)%nat -> (0 < n)%nat ->
  0 <= inject_Z (Z.of_nat m) / inject_Z (Z.of_nat n)
  /\ inject_Z (Z.of_nat m) / inject_Z (Z.of_nat n) <= 1.
Proof.
  intros Hm Hn.
  destruct (Z.of_nat n) as [|p|p] eqn:Hp; try lia.
  rewrite ratio_as_fraction. unfold Qle. cbn. lia.
Qed.

Lemma count_ratio_mono (m m' n : nat) :
  (m <= m')%nat -> (0 < n)%nat ->
  inject_Z (Z.of_nat m) / inject_Z (Z.of_nat n)
  <= inject_Z (Z.of_nat m') / inject_Z (Z.of_nat n).
Proof.
  intros Hm Hn.
  destruct (Z.of_nat n) as [|p|p] eqn:Hp; try lia.
  rewrite !ratio_as_fraction. unfold Qle. cbn. nia.
Qed.

Lemma fold_add (l : list Z) : forall a, fold_left Z.add l a = (a + fold_left Z.add l 0)%Z.
Proof.
  induction l as [|x l IH]; intros a; cbn [fold_left]; [lia|].
  rewrite (IH (a + x)%Z), (IH (0 + x)%Z). lia.
Qed.

(** *** Dicts, continued *)

Section DictLookups.
Context {V : Type}.

Lemma get_set (k k' : string) (v : V) (d : PyDict.t V) :
  PyDict.get k (PyDict.set k' v d) = assigned k (PyDict.get k d) (k', v).
Proof.
  unfold assigned. cbn [fst snd]. destruct (String.eqb k' k) eqn:Hk.
  - apply String.eqb_eq in Hk. subst k'. apply get_set_same.
  - apply get_set_other, Hk.
Qed.

Lemma get_update (k : string) (e : PyDict.t V) : forall d : PyDict.t V,
  PyDict.get k (PyDict.update e d) = fold_left (assigned k) e (PyDict.get k d).
Proof.
  unfold PyDict.update.
  induction e as [|[k' v] e IH]; intros d; cbn [fold_left fst snd]; [reflexivity|].
  rewrite IH, get_set. reflexivity.
Qed.

Lemma get_of_items (k : string) (items : list (string * V)) :
  PyDict.get k (PyDict.of_items items) = fold_left (assigned k) items None.
Proof. unfold PyDict.of_items. rewrite get_update. reflexivity. Qed.

Lemma get_in (k : string) (v : V) (d : PyDict.t V) :
  PyDict.get k d = Some v -> In (k, v) d.
Proof.
  induction d as [|[k' v'] d IH]; cbn [PyDict.get]; [discriminate|].
  destruct (String.eqb k' k) eqn:Hk.
  - intros E. injection E as ->. apply String.eqb_eq in Hk. subst k'. left. reflexivity.
  - intros H. right. apply IH, H.
Qed.

Lemma set_length (k : string) (v : V) (d : PyDict.t V) :
  (List.length (PyDict.set k v d) <= S (List.length d))%nat.
Proof.
  induction d as [|[k' v'] d IH]; cbn [PyDict.set List.length]; [lia|].
  destruct (String.eqb k' k); cbn [List.length]; lia.
Qed.

Lemma set_length_present (k : string) (v w : V) (d : PyDict.t V) :
  PyDict.get k d = Some w -> List.length (PyDict.set k v d) = List.length d.
Proof.
  induction d as [|[k' v'] d IH]; cbn [PyDict.set PyDict.get List.length];
    [discriminate|].
  destruct (String.eqb k' k); cbn [List.length]; [reflexivity|].
  intros H. rewrite (IH H). reflexivity.
Qed.

Lemma remove_length (k : string) (d : PyDict.t V) :
  (List.length (PyDict.remove k d) <= List.length d)%nat.
Proof. apply filter_length_le. Qed.

Lemma remove_length_present (k : string) (d : PyDict.t V) :
  In k (map fst d) -> (List.length (PyDict.remove k d) < List.length d)%nat.
Proof.
  unfold PyDict.remove.
  induction d as [|[k' v'] d IH]; cbn [map fst In filter List.length]; [tauto|].
  pose proof (filter_length_le (fun kv : string * V => negb (String.eqb (fst kv) k)) d).
  intros [->|H'].
  - rewrite String.eqb_refl. cbn [negb]. lia.
  - destruct (negb (String.eqb k' k)); cbn [List.length]; [|lia].
    apply IH in H'. lia.
Qed.

End DictLookups.

(** *** The pattern matcher *)

Section MatcherFacts.
Import Preprocessor.

(** X3.  The match score of [_calculate_match_score] is a fraction of the
    keywords: for every text and keyword list it lies between 0 and 1,
    and it is 0 for the empty list. *)
Theorem match_score_bounds (text : string) (kws : list string) :
  0 <= _calculate_match_score text kws
  /\ _calculate_match_score text kws <= 1
  /\ _calculate_match_score text [] = 0.
Proof.
  split; [|split; [|reflexivity]]; unfold _calculate_match_score;
    (destruct kws as [|k kws]; [discriminate|]);
    apply count_ratio_bounds; first [apply filter_length_le | cbn; lia].
Qed.

Lemma lookup_in {A} (k : string) (d : list (string * A)) (v : A) :
  lookup k d = Some v -> In (k, v) d.
Proof.
  unfold lookup. destruct (find _ d) as [[k' v']|] eqn:H; [|discriminate].
  cbn. intros E. injection E as ->.
  apply find_some in H. destruct H as [Hin Hk]. cbn in Hk.
  apply String.eqb_eq in Hk. subst k'. exact Hin.
Qed.

Lemma priority_scan_finds rules text names n info s :
  priority_scan rules text names = Some (n, info, s) ->
  In (n, info) rules
  /\ 0 < _calculate_match_score text (keywords info)
  /\ s = (_calculate_match_score text (keywords info) + (1 # 2))%Q.
Proof.
  induction names as [|x names IH]; cbn [priority_scan]; [discriminate|].
  destruct (lookup x rules) as [i|] eqn:Hl; [|exact IH].
  destruct (Qltb 0 (_calculate_match_score text (keywords i))) eqn:Hs; [|exact IH].
  intros E. injection E as -> -> <-.
  split; [apply lookup_in, Hl|]. split; [apply Qltb_true, Hs|reflexivity].
Qed.

Lemma general_scan_finds text : forall todo best highest n info h,
  (forall n0 i0, best = Some (n0, i0) ->
     0 < highest /\ highest = _calculate_match_score text (keywords i0)) ->
  0 <= highest ->
  general_scan text todo best highest = (Some (n, info), h) ->
  (In (n, info) todo \/ best = Some (n, info))
  /\ 0 < h /\ h = _calculate_match_score text (keywords info).
Proof.
  induction todo as [|[n0 i0] todo IH]; intros best highest n info h Hbest H0;
    cbn [general_scan].
  - intros E. injection E as -> <-.
    split; [right; reflexivity|]. apply (Hbest n info eq_refl).
  - destruct (Qltb highest (_calculate_match_score text (keywords i0))) eqn:Hs.
    + intros E. apply IH in E.
      * destruct E as [[Hin|Hb] Hh]; [split; [left; right; exact Hin|exact Hh]|].
        injection Hb as <- <-. split; [left; left; reflexivity|exact Hh].
      * intros n1 i1 E1. injection E1 as <- <-. split; [|reflexivity].
        apply Qle_lt_trans with highest; [exact H0|apply Qltb_true, Hs].
      * apply Qle_trans with highest; [exact H0|apply Qlt_le_weak, Qltb_true, Hs].
    + intros E. apply IH in E; [|exact Hbest|exact H0].
      destruct E as [[Hin|Hb] Hh]; [split; [left; right; exact Hin|exact Hh]|].
      split; [right; exact Hb|exact Hh].
Qed.

Lemma orchestrator_confidence n p :
  In (n, p) _load_orchestrator_patterns ->
  (90 <= orch_confidence p <= 95)%Z.
Proof.
  intros H. cbn in H.
  repeat (destruct H as [H|H]; [injection H as <- <-; cbn; lia|]). destruct H.
Qed.

Lemma default_confidence command context :
  (60 <= confidence (_get_default_recommendation command context) <= 75)%Z.
Proof.
  unfold _get_default_recommendation.
  destruct (PyStr.contains "analyze" command); [cbn; lia|].
  destruct (PyStr.contains "implement" command); [cbn; lia|].
  destruct (PyStr.contains "improve" command); cbn; lia.
Qed.

(** A rule of the built-in catalogue that matches a keyword gives a
    confidence of 52 at least, with or without the priority bonus. *)
Lemma default_rule_confidence text n info :
  In (n, info) _get_default_rules ->
  0 < _calculate_match_score text (keywords info) ->
  (52 <= int (inject_Z (rule_confidence info)
              * ((1 # 2) + _calculate_match_score text (keywords info) * (1 # 2)))%Q)%Z
  /\ (52 <= int (inject_Z (rule_confidence info)
                 * ((1 # 2)
                    + (_calculate_match_score text (keywords info) + (1 # 2))
                      * (1 # 2)))%Q)%Z.
Proof.
  intros Hin. unfold _calculate_match_score.
  set (t := PyStr.lower text).
  cbn in Hin.
  repeat (destruct Hin as [Hin|Hin];
          [injection Hin as <- <-; cbn [keywords rule_confidence filter];
           repeat match goal with
                  | |- context [PyStr.contains ?k t] => destruct (PyStr.contains k t)
                  end;
           intros Hpos; vm_compute in Hpos |- *;
           first [discriminate Hpos | split; discriminate]|]).
  destruct Hin.
Qed.

(** X4.  The confidence [find_best_match] returns never exceeds 95,
    whatever the rules, the command, the description and the project; with
    the built-in rules of [_get_default_rules] it is never below 52. *)
Theorem find_best_match_confidence_bounds
  (rules : Rules) (command description : string) (context : ProjectContext) :
  (confidence (find_best_match rules command description context) <= 95)%Z
  /\ (52 <= confidence (find_best_match _get_default_rules command description
                          context))%Z.
Proof.
  assert (Hany : forall rules, 
    (confidence (find_best_match rules command description context) <= 95)%Z
    /\ (rules = _get_default_rules ->
        (52 <= confidence (find_best_match rules command description context))%Z)).
  { clear rules. intros rules. unfold find_best_match.
    set (text := PyStr.lower (command ++ " " ++ description)).
    pose proof (default_confidence command context) as Hd.
    destruct (find _ _load_orchestrator_patterns) as [[pn pi]|] eqn:Hf.
    { apply find_some in Hf. destruct Hf as [Hin _].
      pose proof (orchestrator_confidence _ _ Hin). cbn [confidence]. lia. }
    destruct (priority_scan rules text priority_patterns) as [[[n info] s]|] eqn:Hp.
    - apply priority_scan_finds in Hp. destruct Hp as [Hin [Hpos ->]].
      destruct (Qltb 0 _); [|lia].
      cbn [confidence]. split; [apply Z.le_min_l|].
      intros ->. apply Z.min_glb; [lia|].
      apply (default_rule_confidence text n info Hin Hpos).
    - destruct (general_scan text rules None 0) as [best h] eqn:Hg.
      destruct best as [[n info]|]; [|lia].
      apply general_scan_finds in Hg; [|discriminate|apply Qle_refl].
      destruct Hg as [[Hin|Hb] [Hpos ->]]; [|discriminate Hb].
      destruct (Qltb 0 _); [|lia].
      cbn [confidence]. split; [apply Z.le_min_l|].
      intros ->. apply Z.min_glb; [lia|].
      apply (default_rule_confidence text n info Hin Hpos). }
  split; [apply Hany|apply Hany; reflexivity].
Qed.

End MatcherFacts.

(** *** The tables of the storage *)

Section TableFacts.
Import Storage.

(** X6.  [cleanup_old_data] deletes nothing a later query can see: after a
    clean-up that keeps [days] days, [get_user_interactions] over at most
    as many days, asked at the same time or later, returns what it
    returned before, and the patterns and preferences are untouched. *)
Theorem cleanup_keeps_recent_interactions
  (db : Database) (uid : string) (now now' days days' : Z)
  (project : option string) :
  (now <= now')%Z -> (days' <= days)%Z ->
  exists self',
    cleanup_old_data (readable db uid) now days = Ok self'
    /\ get_user_interactions self' now' days' project
       = get_user_interactions (readable db uid) now' days' project
    /\ get_pattern_success_rates self' = get_pattern_success_rates (readable db uid)
    /\ get_user_preferences self' project
       = get_user_preferences (readable db uid) project.
Proof.
  intros Hnow Hdays. eexists. split; [reflexivity|].
  split; [|split; reflexivity].
  unfold get_user_interactions.
  cbn [connect db_file with_db readable bind interactions self_user_id].
  rewrite filter_implied; [reflexivity|].
  intros r H. apply andb_prop in H. destruct H as [H _].
  apply andb_prop in H. destruct H as [_ H].
  apply Z.ltb_lt in H. apply negb_true_iff, Z.ltb_ge.
  unfold day, second in *. nia.
Qed.

(** A clean-up that keeps 90 days and a query over 7 days an hour later. *)
Lemma cleanup_keeps_recent_interactions_witness :
  (hour <= 2 * hour)%Z /\ (7 <= 90)%Z
  /\ exists self',
       cleanup_old_data (readable (one_interaction 0) "user") hour 90 = Ok self'
       /\ get_user_interactions self' (2 * hour) 7 None
          = get_user_interactions (readable (one_interaction 0) "user")
                                  (2 * hour) 7 None
       /\ get_pattern_success_rates self'
          = get_pattern_success_rates (readable (one_interaction 0) "user")
       /\ get_user_preferences self' None
          = get_user_preferences (readable (one_interaction 0) "user") None.
Proof.
  assert (H1 : (hour <= 2 * hour)%Z) by (vm_compute; discriminate).
  assert (H2 : (7 <= 90)%Z) by lia.
  split; [exact H1|]. split; [exact H2|].
  apply (cleanup_keeps_recent_interactions (one_interaction 0) "user"
           hour (2 * hour) 90 7 None H1 H2).
Defined.

Lemma other_pattern_unchanged (sel : Preference -> bool) (uid project name other : string)
      (new : Preference) :
  String.eqb other name = false ->
  pref_pattern_name new = name ->
  forall (rows : list Preference) (acc : option Q),
  fold_left (assigned other)
    (map as_item
       (filter sel (filter (fun r => negb (same_preference uid project name r)) rows
                    ++ [new])))
    acc
  = fold_left (assigned other) (map as_item (filter sel rows)) acc.
Proof.
  intros Hne Hnew.
  assert (Hskip : forall r acc, pref_pattern_name r = name ->
                    assigned other acc (as_item r) = acc).
  { intros r acc Hr. unfold assigned, as_item. cbn [fst snd]. rewrite Hr.
    rewrite String.eqb_sym, Hne. reflexivity. }
  induction rows as [|r rows IH]; intros acc.
  - cbn [filter app]. destruct (sel new); cbn [map fold_left]; [|reflexivity].
    apply Hskip, Hnew.
  - cbn [filter]. destruct (same_preference uid project name r) eqn:Hsame; cbn [negb].
    + rewrite IH. destruct (sel r); cbn [map fold_left]; [|reflexivity].
      rewrite Hskip; [reflexivity|].
      unfold same_preference in Hsame. apply andb_prop in Hsame.
      destruct Hsame as [_ Hn]. apply String.eqb_eq, Hn.
    + cbn [app filter]. destruct (sel r); cbn [map fold_left]; apply IH.
Qed.

(** X5.  A preference written with [update_user_preference] for a project
    (a hash that is not empty) is what [get_user_preferences] reads back
    for that project and pattern, and the preferences of the other
    patterns of the project are as before. *)
Theorem preference_round_trip
  (db : Database) (uid : string) (now : Z) (name : string) (weight : Q)
  (project : string) :
  String.eqb project "" = false ->
  exists self' before after,
    update_user_preference (readable db uid) now name weight project = Ok self'
    /\ get_user_preferences (readable db uid) (Some project) = Ok before
    /\ get_user_preferences self' (Some project) = Ok after
    /\ PyDict.get name after = Some weight
    /\ forall other, String.eqb other name = false ->
                     PyDict.get other after = PyDict.get other before.
Proof.
  intros Hproject. eexists _, _, _.
  split; [reflexivity|]. split; [reflexivity|]. split; [reflexivity|].
  cbn [connect db_file with_db readable bind user_preferences self_user_id
         set_user_preferences truthy].
  rewrite Hproject. cbn [negb].
  split.
  - rewrite get_of_items, filter_app, map_app, fold_left_app.
    cbn [filter pref_user_id pref_project_hash].
    rewrite !String.eqb_refl. cbn [andb map fold_left]. unfold assigned at 1.
    cbn [fst snd pref_pattern_name preference_weight].
    rewrite String.eqb_refl. reflexivity.
  - intros other Hother. rewrite !get_of_items.
    apply (other_pattern_unchanged _ uid project name other); [exact Hother|reflexivity].
Qed.

(** The weight 1.5 written for [analyze_security]. *)
Lemma preference_round_trip_witness :
  String.eqb "0123456789abcdef" "" = false
  /\ exists self' before after,
       update_user_preference (readable one_pattern "user") hour
         "analyze_security" (3 # 2) "0123456789abcdef" = Ok self'
       /\ get_user_preferences (readable one_pattern "user")
            (Some "0123456789abcdef") = Ok before
       /\ get_user_preferences self' (Some "0123456789abcdef") = Ok after
       /\ PyDict.get "analyze_security" after = Some (3 # 2)
       /\ forall other, String.eqb other "analyze_security" = false ->
                        PyDict.get other after = PyDict.get other before.
Proof.
  split; [reflexivity|].
  apply (preference_round_trip one_pattern "user" hour "analyze_security" (3 # 2)
           "0123456789abcdef" eq_refl).
Defined.



Lemma update_pattern_success_tables self now name succeeded context self' :
  update_pattern_success self now name succeeded context = Ok self' ->
  exists db db',
    db_file self = Some db /\ db_file self' = Some db'
    /\ interactions db' = interactions db
    /\ feedback db' = feedback db
    /\ user_preferences db' = user_preferences db
    /\ self_user_id self' = self_user_id self.
Proof.
  unfold update_pattern_success, connect.
  destruct (db_file self) as [db|] eqn:Hdb; [|discriminate].
  cbn [bind].
  destruct (find_pattern name (pattern_success db)) as [row|].
  - unfold divide. destruct (total_uses row + 1 =? 0)%Z; [discriminate|].
    cbn [bind]. intros E. injection E as <-.
    eexists _, _. split; [reflexivity|]. split; [reflexivity|]. repeat split.
  - cbn [divide Z.eqb bind]. intros E. injection E as <-.
    eexists _, _. split; [reflexivity|]. split; [reflexivity|]. repeat split.
Qed.



End TableFacts.

(** *** Learning from interactions *)

Section LearningFacts.
Import Engine.

Lemma general_is_no_catalogue_name (command : string) :
  String.eqb (command ++ "_general") "improve_performance" = false.
Proof.
  apply String.eqb_neq. intros H.
  assert (Hlen : String.length command = 11%nat).
  { apply (f_equal String.length) in H. rewrite length_app in H. cbn in H. lia. }
  do 11 (destruct command as [|? command]; cbn in Hlen; [discriminate Hlen|]).
  destruct command; cbn in Hlen; [|discriminate Hlen].
  cbn in H. discriminate H.
Qed.

Lemma existsb_false_in {A} (p : A -> bool) (l : list A) (x : A) :
  existsb p l = false -> In x l -> p x = false.
Proof.
  intros H Hin. destruct (p x) eqn:Hp; [|reflexivity].
  rewrite <- H. symmetry. apply existsb_exists. exists x. split; assumption.
Qed.

(** X8.  [_identify_interaction_pattern] never answers
    [improve_performance]: each keyword of that entry also stands in an
    earlier entry of the catalogue ([analyze_performance] or
    [improve_quality]), which wins, and the default name ends in
    [_general]. *)
Theorem improve_performance_is_never_identified (interaction : Storage.Interaction) :
  String.eqb (_identify_interaction_pattern interaction) "improve_performance"
  = false.
Proof.
  unfold _identify_interaction_pattern.
  set (text := PyStr.lower _).
  unfold interaction_patterns. cbn [find snd].
  set (p := fun keyword => PyStr.contains keyword text).
  destruct (existsb p ["security"; _; _; _; _]); [reflexivity|].
  destruct (existsb p ["performance"; _; _; _; _]) eqn:Hperf; [reflexivity|].
  destruct (existsb p ["architecture"; _; _; _]); [reflexivity|].
  destruct (existsb p ["component"; _; _; _; _]); [reflexivity|].
  destruct (existsb p ["api"; _; _; _; _]); [reflexivity|].
  destruct (existsb p ["auth"; _; _; _; _]); [reflexivity|].
  destruct (existsb p ["improve"; _; _; _; _]) eqn:Hqual; [reflexivity|].
  assert (Hdead : existsb p ["improve"; "개선"; "performance"; "성능"; "optimize"]
                  = false).
  { cbn [existsb].
    rewrite (existsb_false_in p _ "improve" Hqual) by (cbn; tauto).
    rewrite (existsb_false_in p _ "개선" Hqual) by (cbn; tauto).
    rewrite (existsb_false_in p _ "performance" Hperf) by (cbn; tauto).
    rewrite (existsb_false_in p _ "성능" Hperf) by (cbn; tauto).
    rewrite (existsb_false_in p _ "optimize" Hperf) by (cbn; tauto).
    reflexivity. }
  rewrite Hdead. apply general_is_no_catalogue_name.
Qed.

Lemma firstn_skipn_length {A} (l : list A) :
  List.length (firstn 5 (skipn 5 l)) = Nat.min 5 (List.length l - 5).
Proof. rewrite length_firstn, length_skipn. reflexivity. Qed.

(** X9.  [_calculate_learning_trend] raises [ZeroDivisionError] exactly
    when it is given five interactions: the older slice [interactions[5:10]]
    is then empty and its length is the divisor.  On every other list it
    returns. *)
Theorem learning_trend_fails_on_five (interactions : list Storage.Interaction) :
  if (List.length interactions =? 5)%nat
  then _calculate_learning_trend interactions = Raise ZeroDivisionError
  else raised (_calculate_learning_trend interactions) = false.
Proof.
  unfold _calculate_learning_trend.
  destruct (List.length interactions =? 5)%nat eqn:H5.
  - apply Nat.eqb_eq in H5. rewrite H5. cbn [Z.of_nat Z.ltb Z.compare Pos.of_succ_nat
      Pos.succ Pos.compare Pos.compare_cont].
    unfold Storage.divide at 1. cbn [Z.eqb bind].
    rewrite firstn_skipn_length, H5. reflexivity.
  - apply Nat.eqb_neq in H5.
    destruct (Z.of_nat (List.length interactions) <? 5)%Z eqn:Hlt; [reflexivity|].
    apply Z.ltb_ge in Hlt.
    unfold Storage.divide at 1. cbn [Z.eqb bind].
    rewrite firstn_skipn_length.
    unfold Storage.divide.
    destruct (Z.min 5 (Z.of_nat (Nat.min 5 (List.length interactions - 5))) =? 0)%Z
      eqn:Hz; [apply Z.eqb_eq in Hz; lia|].
    cbn [bind].
    destruct (Qltb _ _); [reflexivity|]. destruct (Qltb _ _); reflexivity.
Qed.

Lemma add_match_averaging pattern_context key w acc :
  (forall k v, In (k, v) pattern_context -> 0 <= v /\ v <= 1) ->
  0 <= w -> averaging acc -> averaging (add_match pattern_context key w acc).
Proof.
  intros Hw H0 [Ha Hb]. unfold add_match.
  destruct (PyDict.get key pattern_context) as [v|] eqn:Hg; [|split; assumption].
  destruct (Hw _ _ (get_in _ _ _ Hg)) as [Hv0 Hv1].
  unfold averaging. cbn [fst snd]. split.
  - rewrite <- (Qplus_0_r 0). apply Qplus_le_compat; [exact Ha|].
    apply Qmult_le_0_compat; assumption.
  - apply Qplus_le_compat; [exact Hb|].
    rewrite <- (Qmult_1_l w) at 2. apply Qmult_le_compat_r; assumption.
Qed.

Lemma fold_averaging {A} pattern_context (key : A -> string) w (l : list A) :
  (forall k v, In (k, v) pattern_context -> 0 <= v /\ v <= 1) ->
  0 <= w -> forall acc, averaging acc ->
  averaging (fold_left (fun a x => add_match pattern_context (key x) w a) l acc).
Proof.
  intros Hw H0. induction l as [|x l IH]; intros acc Hacc; [exact Hacc|].
  cbn [fold_left]. apply IH. apply add_match_averaging; assumption.
Qed.

(** X10.  [_calculate_context_similarity] is a weighted average: when every
    weight of the pattern lies between 0 and 1, so does the similarity,
    for every project context. *)
Theorem context_similarity_bounds
  (pattern_context : PyDict.t Q) (current : Context.t) :
  (forall k v, In (k, v) pattern_context -> 0 <= v /\ v <= 1) ->
  0 <= _calculate_context_similarity pattern_context current
  /\ _calculate_context_similarity pattern_context current <= 1.
Proof.
  intros Hw. unfold _calculate_context_similarity.
  destruct pattern_context as [|item rest]; [split; discriminate|].
  set (pc := item :: rest) in *.
  match goal with
  | |- context [Qltb 0 (snd ?a)] => set (acc := a)
  end.
  assert (Hacc : averaging acc).
  { subst acc.
    apply (fold_averaging pc (fun fw => "framework_" ++ fw)); [exact Hw|discriminate|].
    apply (fold_averaging pc (fun lang => "lang_" ++ lang)); [exact Hw|discriminate|].
    apply add_match_averaging; [exact Hw|discriminate|].
    split; apply Qle_refl. }
  destruct Hacc as [Ha Hb].
  destruct (Qltb 0 (snd acc)) eqn:Hpos; [|split; discriminate].
  apply Qltb_true in Hpos. split.
  - apply Qle_shift_div_l; [exact Hpos|]. rewrite Qmult_0_l. exact Ha.
  - apply Qle_shift_div_r; [exact Hpos|]. rewrite Qmult_1_l. exact Hb.
Qed.

(** A pattern learned on large Python projects, met in a Python backend. *)
Lemma context_similarity_bounds_witness :
  (forall k v, In (k, v) [("size_large", 1 # 4); ("lang_python", 3 # 4)] ->
               0 <= v /\ v <= 1)
  /\ 0 <= _calculate_context_similarity
            [("size_large", 1 # 4); ("lang_python", 3 # 4)] backend_context
  /\ _calculate_context_similarity
       [("size_large", 1 # 4); ("lang_python", 3 # 4)] backend_context <= 1.
Proof.
  assert (H : forall k v, In (k, v) [("size_large", 1 # 4); ("lang_python", 3 # 4)] ->
                          0 <= v /\ v <= 1).
  { intros k v [E|[E|[]]]; injection E as _ <-; split; discriminate. }
  split; [exact H|].
  apply (context_similarity_bounds
           [("size_large", 1 # 4); ("lang_python", 3 # 4)] backend_context H).
Defined.

Lemma max_by_score_in l : forall best,
  In (max_by_score best l) (best :: l).
Proof.
  induction l as [|x l IH]; intros best; cbn [max_by_score]; [left; reflexivity|].
  destruct (Qltb (score best) (score x)).
  - right. apply IH.
  - destruct (IH best) as [H|H]; [left; exact H|right; right; exact H].
Qed.

(** X11.  A recommendation of [get_adaptive_recommendation] never has a
    confidence above 95, be it a scored pattern or the fallback; the call
    raises only when the database cannot be read. *)
Theorem adaptive_confidence_is_capped
  (math_exp : Q -> Q) (self : AdaptiveLearningEngine) (now : Z)
  (command description : string) (ctx : Context.t) :
  match get_adaptive_recommendation math_exp self now command description ctx with
  | Ok (r, _) => (confidence r <= 95)%Z
  | Raise e => Storage.db_file (storage self) = None
  end.
Proof.
  unfold get_adaptive_recommendation.
  assert (Hfb : (confidence (_get_fallback_recommendation command description) <= 95)%Z).
  { unfold _get_fallback_recommendation.
    destruct (String.eqb command "analyze"); [cbn; lia|].
    destruct (String.eqb command "implement"); [cbn; lia|].
    destruct (String.eqb command "improve"); cbn; lia. }
  assert (Hscored : forall self' : AdaptiveLearningEngine,
    match
      match map (fun p => _calculate_adaptive_score math_exp now p command description ctx)
                (_find_candidate_patterns (_pattern_cache self') command description ctx)
      with
      | first :: rest =>
          Ok (with_flags (max_by_score first rest)
                (_adjust_flags_for_context (flags (max_by_score first rest)) ctx), self')
      | [] => Ok (_get_fallback_recommendation command description, self')
      end
    with
    | Ok (r, _) => (confidence r <= 95)%Z
    | Raise e => Storage.db_file (storage self) = None
    end).
  { intros self'.
    destruct (map _ _) as [|first rest] eqn:Hm; [exact Hfb|].
    cbn [with_flags confidence].
    pose proof (max_by_score_in rest first) as Hin. rewrite <- Hm in Hin.
    apply in_map_iff in Hin. destruct Hin as [p [<- _]].
    cbn [_calculate_adaptive_score confidence]. apply Z.le_min_l. }
  unfold _load_patterns_cache.
  destruct (cache_expired self now); [|cbn [bind]; apply Hscored].
  unfold Storage.get_pattern_success_rates, Storage.get_user_preferences,
    Storage.connect.
  destruct (Storage.db_file (storage self)); [|reflexivity].
  cbn [bind]. apply Hscored.
Qed.

(** X12.  While the pattern cache is younger than its TTL,
    [get_adaptive_recommendation] does not read the storage: it returns,
    and returns the same recommendation, whatever the storage holds, even
    when the database cannot be read. *)
Theorem fresh_cache_hides_the_storage
  (math_exp : Q -> Q) (self : AdaptiveLearningEngine) (now : Z)
  (command description : string) (ctx : Context.t)
  (other : Storage.LearningStorage) :
  cache_expired self now = false ->
  raised (get_adaptive_recommendation math_exp self now command description ctx)
  = false
  /\ recommendation
       (get_adaptive_recommendation math_exp (with_storage self other) now
          command description ctx)
     = recommendation
         (get_adaptive_recommendation math_exp self now command description ctx).
Proof.
  intros Hfresh. unfold get_adaptive_recommendation, _load_patterns_cache.
  change (cache_expired (with_storage self other) now) with (cache_expired self now).
  rewrite Hfresh. cbn [bind with_storage _pattern_cache].
  destruct (map _ _); split; reflexivity.
Qed.

(** A minute after the cache was loaded, with a readable and with an
    unreadable database. *)
Lemma fresh_cache_hides_the_storage_witness :
  cache_expired cold_engine minute = false
  /\ raised (get_adaptive_recommendation exp_taylor cold_engine minute
               "analyze" "find security vulnerabilities" no_context) = false
  /\ recommendation
       (get_adaptive_recommendation exp_taylor
          (with_storage cold_engine (unreadable "user")) minute
          "analyze" "find security vulnerabilities" no_context)
     = recommendation
         (get_adaptive_recommendation exp_taylor cold_engine minute
            "analyze" "find security vulnerabilities" no_context).
Proof.
  split; [reflexivity|].
  apply (fresh_cache_hides_the_storage exp_taylor cold_engine minute "analyze"
           "find security vulnerabilities" no_context (unreadable "user") eq_refl).
Defined.

Lemma count_total_cons x items : count_total (x :: items) = (snd x + count_total items)%Z.
Proof. unfold count_total. cbn [map fold_left]. rewrite fold_add. lia. Qed.

Lemma count_total_insert x : forall l, count_total (insert_by_count x l) = (snd x + count_total l)%Z.
Proof.
  induction l as [|y l IH]; cbn [insert_by_count]; [apply count_total_cons|].
  destruct (snd y <? snd x)%Z; [apply count_total_cons|].
  rewrite !count_total_cons, IH. lia.
Qed.

Lemma insert_positive x l :
  (0 < snd x)%Z -> Forall (fun y => 0 < snd y)%Z l ->
  Forall (fun y => 0 < snd y)%Z (insert_by_count x l).
Proof.
  intros Hx. induction 1 as [|y l Hy Hl IH]; cbn [insert_by_count].
  - constructor; [exact Hx|constructor].
  - destruct (snd y <? snd x)%Z.
    + constructor; [exact Hx|]. constructor; assumption.
    + constructor; assumption.
Qed.

Lemma most_common_count_total counter : forall sorted,
  Forall (fun y => 0 < snd y)%Z counter ->
  Forall (fun y => 0 < snd y)%Z sorted ->
  count_total (fold_left (fun s x => insert_by_count x s) counter sorted)
  = (count_total counter + count_total sorted)%Z
  /\ Forall (fun y => 0 < snd y)%Z
            (fold_left (fun s x => insert_by_count x s) counter sorted).
Proof.
  induction counter as [|x counter IH]; intros sorted Hc Hs; cbn [fold_left].
  - split; [reflexivity|exact Hs].
  - inversion Hc as [|? ? Hx Hc']; subst.
    destruct (IH (insert_by_count x sorted) Hc' (insert_positive _ _ Hx Hs)) as [Ht Hp].
    split; [|exact Hp]. rewrite Ht, count_total_insert, count_total_cons. lia.
Qed.

(** The flags selected from [items] are few: each of them has more than
    three tenths of [t], and together they have at most [count_total items]. *)
Lemma select_flags_few (t : Z) :
  (0 < t)%Z -> forall items, Forall (fun y => 0 < snd y)%Z items ->
  exists selected,
    select_flags t items = Ok selected
    /\ (3 * t * Z.of_nat (List.length selected) <= 10 * count_total items)%Z
    /\ (selected = [] \/ 3 * t * Z.of_nat (List.length selected) < 10 * count_total items)%Z.
Proof.
  intros Ht. induction items as [|[flag count] items IH]; intros Hp.
  - exists []. cbn. split; [reflexivity|]. split; [lia|left; reflexivity].
  - inversion Hp as [|? ? Hc Hp']; subst. cbn [snd] in Hc.
    destruct (IH Hp') as [sel [Hsel [Hle Hlt]]].
    cbn [select_flags]. unfold Storage.divide.
    destruct (t =? 0)%Z eqn:Hz; [apply Z.eqb_eq in Hz; lia|].
    cbn [bind]. rewrite Hsel. cbn [bind].
    rewrite count_total_cons. cbn [snd].
    destruct (Qltb (3 # 10) (inject_Z count / inject_Z t)) eqn:Hrate.
    + eexists. split; [reflexivity|].
      apply Qltb_true in Hrate.
      assert (Hc3 : (3 * t < 10 * count)%Z).
      { destruct t as [|p|p]; try lia.
        rewrite ratio_as_fraction in Hrate. unfold Qlt in Hrate. cbn in Hrate. lia. }
      cbn [List.length]. split; [lia|right; lia].
    + exists sel. split; [reflexivity|]. split; [lia|].
      destruct Hlt as [->|Hlt]; [left; reflexivity|right; lia].
Qed.

(** X14.  [_determine_optimal_flags] keeps at most three flags: on a
    counter of positive counts the loop over [most_common()] returns, and
    since each flag it selects has more than 30% of all uses, it selects
    three at most; the result is their join, or the default when none is
    selected. *)
Theorem optimal_flags_are_at_most_three (flag_usage : PyDict.t Z) :
  Forall (fun item => 0 < snd item)%Z flag_usage ->
  exists selected,
    select_flags (fold_left Z.add (PyDict.values flag_usage) 0%Z)
                 (most_common flag_usage) = Ok selected
    /\ (List.length selected <= 3)%nat
    /\ _determine_optimal_flags flag_usage
       = Ok (match selected with
             | [] => "--think --uc"
             | _ => PyStr.join " " selected
             end).
Proof.
  intros Hp. destruct flag_usage as [|item rest].
  { exists []. repeat split. cbn. lia. }
  set (usage := item :: rest) in *.
  assert (Htotal : (0 < count_total usage)%Z).
  { subst usage. rewrite count_total_cons. inversion Hp as [|? ? Hi Hr]; subst.
    assert (0 <= count_total rest)%Z; [|lia].
    clear -Hr. induction Hr as [|x l Hx Hl IH]; [unfold count_total; cbn; lia|].
    rewrite count_total_cons. lia. }
  destruct (most_common_count_total usage [] Hp (Forall_nil _)) as [Hsum Hpos].
  fold (most_common usage) in Hsum, Hpos.
  destruct (select_flags_few (count_total usage) Htotal (most_common usage) Hpos)
    as [sel [Hsel [Hle Hlt]]].
  exists sel. split; [exact Hsel|]. split.
  - destruct Hlt as [->|Hlt]; [cbn; lia|].
    rewrite Hsum in Hlt. change (count_total []) with 0%Z in Hlt. nia.
  - subst usage.
    change (_determine_optimal_flags (item :: rest))
      with (selected_flags <-
              select_flags (count_total (item :: rest)) (most_common (item :: rest)) ;;
            match selected_flags with
            | [] => Ok "--think --uc"
            | _ => Ok (PyStr.join " " selected_flags)
            end).
    rewrite Hsel. cbn [bind]. destruct sel; reflexivity.
Qed.

(** Four flags counted 4, 3, 2 and 1 times. *)
Lemma optimal_flags_are_at_most_three_witness :
  Forall (fun item => 0 < snd item)%Z
         [("--think", 4%Z); ("--uc", 3%Z); ("--seq", 2%Z); ("--c7", 1%Z)]
  /\ exists selected,
       select_flags
         (fold_left Z.add
            (PyDict.values [("--think", 4%Z); ("--uc", 3%Z); ("--seq", 2%Z); ("--c7", 1%Z)])
            0%Z)
         (most_common [("--think", 4%Z); ("--uc", 3%Z); ("--seq", 2%Z); ("--c7", 1%Z)])
       = Ok selected
       /\ (List.length selected <= 3)%nat
       /\ _determine_optimal_flags
            [("--think", 4%Z); ("--uc", 3%Z); ("--seq", 2%Z); ("--c7", 1%Z)]
          = Ok (match selected with
                | [] => "--think --uc"
                | _ => PyStr.join " " selected
                end).
Proof.
  assert (H : Forall (fun item => 0 < snd item)%Z
                [("--think", 4%Z); ("--uc", 3%Z); ("--seq", 2%Z); ("--c7", 1%Z)]).
  { repeat constructor. }
  split; [exact H|].
  apply (optimal_flags_are_at_most_three _ H).
Defined.




End LearningFacts.

(** *** The measures of the feedback processor *)

(** X13.  The two measures called [_calculate_recommendation_accuracy]
    differ in one direction only: on every list of interactions the
    measure of the learning engine is at most that of the feedback
    processor, and both lie between 0 and 1; on the empty list both
    are 0. *)
Theorem accuracy_measures_compared (interactions : list Storage.Interaction) :
  0 <= Engine._calculate_recommendation_accuracy interactions
  /\ Engine._calculate_recommendation_accuracy interactions
     <= Feedback._calculate_recommendation_accuracy interactions
  /\ Feedback._calculate_recommendation_accuracy interactions <= 1
  /\ Engine._calculate_recommendation_accuracy [] = 0
  /\ Feedback._calculate_recommendation_accuracy [] = 0.
Proof.
  cut (0 <= Engine._calculate_recommendation_accuracy interactions
       /\ Engine._calculate_recommendation_accuracy interactions
          <= Feedback._calculate_recommendation_accuracy interactions
       /\ Feedback._calculate_recommendation_accuracy interactions <= 1).
  { intros [H0 [Hle H1]]. repeat split; first [assumption | reflexivity]. }
  unfold Engine._calculate_recommendation_accuracy,
    Feedback._calculate_recommendation_accuracy, Feedback.len.
  destruct interactions as [|i rest]; [repeat split; discriminate|].
  set (l := i :: rest).
  assert (Hn : (0 < List.length l)%nat) by (cbn; lia).
  split; [apply count_ratio_bounds; [apply filter_length_le|exact Hn]|].
  split; [|apply count_ratio_bounds; [apply filter_length_le|exact Hn]].
  apply count_ratio_mono; [|exact Hn].
  apply filter_length_mono. intros x.
  destruct (80 <=? Storage.confidence x)%Z eqn:H80;
    destruct (Storage.confidence x <=? 60)%Z eqn:H60;
    destruct (Storage.success x); cbn; try congruence.
  apply Z.leb_le in H80, H60. lia.
Qed.

Section TrendFacts.
Import Feedback.

Lemma user_satisfaction_bounds interactions :
  0 <= _calculate_user_satisfaction interactions
  /\ _calculate_user_satisfaction interactions <= 1.
Proof.
  unfold _calculate_user_satisfaction.
  destruct interactions; [split; discriminate|apply unit_clamp_bounds].
Qed.

Lemma feedback_accuracy_bounds interactions :
  0 <= _calculate_recommendation_accuracy interactions
  /\ _calculate_recommendation_accuracy interactions <= 1.
Proof.
  unfold _calculate_recommendation_accuracy, len.
  destruct interactions as [|i rest]; [split; discriminate|].
  apply count_ratio_bounds; [apply filter_length_le|cbn; lia].
Qed.

(** X16.  The analysis of [analyze_feedback_trends]: the positive and the
    negative ratio, the satisfaction score and the accuracy all lie
    between 0 and 1; the two ratios add up to 1 when there is an
    interaction and are both 0 when there is none; the call raises only
    when the database cannot be read. *)
Theorem feedback_analysis_ratios (self : FeedbackProcessor) (now days : Z) :
  match analyze_feedback_trends self now days with
  | Ok a =>
      (0 <= positive_feedback_ratio a /\ positive_feedback_ratio a <= 1)
      /\ (0 <= negative_feedback_ratio a /\ negative_feedback_ratio a <= 1)
      /\ (if (total_feedback_count a =? 0)%Z
          then positive_feedback_ratio a == 0 /\ negative_feedback_ratio a == 0
          else positive_feedback_ratio a + negative_feedback_ratio a == 1)
      /\ (0 <= user_satisfaction_score a /\ user_satisfaction_score a <= 1)
      /\ (0 <= recommendation_accuracy a /\ recommendation_accuracy a <= 1)
  | Raise _ => Storage.db_file (storage self) = None
  end.
Proof.
  unfold analyze_feedback_trends, Storage.get_user_interactions, Storage.connect.
  destruct (Storage.db_file (storage self)); [|reflexivity].
  cbn [bind].
  destruct (Storage.order_by_timestamp_desc _) as [|i rest].
  { cbn. repeat split; discriminate. }
  set (l := i :: rest).
  cbn [positive_feedback_ratio negative_feedback_ratio total_feedback_count
         user_satisfaction_score recommendation_accuracy].
  assert (Hp : 0 <= success_count l / len l /\ success_count l / len l <= 1).
  { unfold success_count, len.
    apply count_ratio_bounds; [apply filter_length_le|cbn; lia]. }
  destruct Hp as [Hp0 Hp1].
  split; [split; assumption|].
  split.
  { split.
    - unfold Qminus. rewrite <- (Qplus_opp_r (success_count l / len l)).
      apply Qplus_le_compat; [exact Hp1|apply Qle_refl].
    - unfold Qminus. rewrite <- (Qplus_0_r 1) at 2.
      apply Qplus_le_compat; [apply Qle_refl|].
      apply (Qopp_le_compat 0). exact Hp0. }
  split.
  { destruct (Z.of_nat (List.length l) =? 0)%Z eqn:Hz;
      [apply Z.eqb_eq in Hz; cbn in Hz; lia|]. ring. }
  split; [apply user_satisfaction_bounds|apply feedback_accuracy_bounds].
Qed.

End TrendFacts.

(** *** The optimizer over a trace of events *)

Section TraceFacts.
Import Optimizer.

Lemma oldest_from_present c : forall best stamp k,
  oldest_from best stamp c = Ok k -> k = best \/ In k (map fst c).
Proof.
  induction c as [|[k0 e] c IH]; intros best stamp k; cbn [oldest_from].
  - intros E. injection E as <-. left. reflexivity.
  - destruct (get_time "timestamp" e) as [t|]; [|discriminate]. cbn [bind].
    cbn [map fst In].
    destruct (t <? stamp)%Z; intros H; apply IH in H;
      destruct H as [->|H]; tauto.
Qed.

Lemma oldest_key_present c k :
  oldest_key c = Ok (Some k) -> In k (map fst c).
Proof.
  destruct c as [|[k0 e] c]; cbn [oldest_key]; [discriminate|].
  destruct (get_time "timestamp" e) as [t|]; [|discriminate]. cbn [bind].
  destruct (oldest_from k0 t c) as [k'|] eqn:Ho; [|discriminate]. cbn [bind].
  intros E. injection E as <-. cbn [map fst In].
  apply oldest_from_present in Ho. destruct Ho as [->|H]; tauto.
Qed.

Lemma get_cached_effect self now key :
  well_formed (pattern_cache self) = true ->
  exists found self',
    _get_cached_recommendation self now key = (Ok found, self')
    /\ well_formed (pattern_cache self') = true
    /\ (List.length (pattern_cache self') <= List.length (pattern_cache self))%nat
    /\ metrics self' = metrics self
    /\ background_queue self' = background_queue self
    /\ (found = None \/ exists item e, found = Some (item :: e)).
Proof.
  intros Hc. unfold _get_cached_recommendation.
  destruct (PyDict.get key (pattern_cache self)) as [cached|] eqn:Hkey.
  - pose proof (well_formed_get _ _ _ Hc Hkey) as He.
    destruct (get_time_well_formed cached He) as [t ->].
    destruct (now - t <? cache_ttl)%Z.
    + exists (Some cached), self. split; [reflexivity|]. split; [exact Hc|].
      split; [lia|]. split; [reflexivity|]. split; [reflexivity|].
      right. destruct cached as [|item e]; [discriminate He|].
      exists item, e. reflexivity.
    + eexists None, _. split; [reflexivity|]. cbn [pattern_cache with_cache].
      split; [apply well_formed_remove, Hc|].
      split; [apply remove_length|]. repeat split. left. reflexivity.
  - exists None, self. split; [reflexivity|]. split; [exact Hc|].
    split; [lia|]. repeat split. left. reflexivity.
Qed.

Lemma cache_recommendation_effect self key e :
  well_formed (pattern_cache self) = true -> has_timestamp e = true ->
  (List.length (pattern_cache self) <= 1000)%nat ->
  exists self',
    _cache_recommendation self key e = (Ok tt, self')
    /\ well_formed (pattern_cache self') = true
    /\ (List.length (pattern_cache self') <= 1000)%nat
    /\ metrics self' = metrics self
    /\ background_queue self' = background_queue self.
Proof.
  intros Hc He Hn. unfold _cache_recommendation.
  cbn [pattern_cache with_cache].
  pose proof (well_formed_set _ key e Hc He) as Hset.
  pose proof (set_length key e (pattern_cache self)) as Hlen.
  destruct (1000 <? _)%Z eqn:Hfull.
  - destruct (oldest_key_well_formed _ Hset) as [[k|] Hold]; rewrite Hold.
    + eexists. split; [reflexivity|]. cbn [pattern_cache with_cache metrics
        background_queue].
      split; [apply well_formed_remove, Hset|].
      pose proof (remove_length_present k _ (oldest_key_present _ _ Hold)).
      split; [lia|]. split; reflexivity.
    + apply Z.ltb_lt in Hfull.
      destruct (PyDict.set key e (pattern_cache self)); [cbn in Hfull; lia|].
      cbn [oldest_key] in Hold.
      destruct (get_time "timestamp" (snd p)) eqn:Ht; destruct p; cbn [snd] in Ht;
        rewrite Ht in Hold; cbn [bind] in Hold; [|discriminate Hold].
      destruct (oldest_from _ _ _); discriminate Hold.
  - apply Z.ltb_ge in Hfull.
    eexists. split; [reflexivity|]. cbn [pattern_cache with_cache metrics
      background_queue].
    split; [exact Hset|]. split; [lia|]. split; reflexivity.
Qed.

Lemma request_keeps_steady py_hash self now response_time user_input command
      description ctx :
  steady self ->
  steady (snd (quick_recommend py_hash self now response_time user_input command
                 description ctx)).
Proof.
  intros [Hc [Hn [Hh [He [Hbal Hq]]]]].
  unfold quick_recommend, get_quick_recommendation.
  set (self1 := with_metrics self _).
  set (key := make_cache_key py_hash command description ctx).
  destruct (get_cached_effect self1 now key Hc)
    as [found [self2 [Hget [Hc2 [Hn2 [Hm2 [Hq2 Hfound]]]]]]].
  rewrite Hget.
  destruct Hfound as [->|[item [e ->]]].
  - destruct (_quick_pattern_match command description ctx) as [[quick_fl conf] why].
    set (entry := [("flags", VStr quick_fl); ("confidence", VInt conf);
                   ("timestamp", VTime now)]).
    destruct (cache_recommendation_effect (quick self2) key entry)
      as [self3 [Hstore [Hc3 [Hn3 [Hm3 Hq3]]]]];
      [exact Hc2|reflexivity|cbn [quick pattern_cache with_metrics]; 
       cbn [self1 with_metrics pattern_cache] in Hn2; lia|].
    rewrite Hstore. cbn [snd].
    unfold steady. cbn [_queue_background_enhancement pattern_cache metrics
      background_queue].
    rewrite Hm3, Hq3. cbn [quick with_metrics metrics background_queue
      cache_hits quick_responses total_requests enhanced_responses].
    rewrite Hm2, Hq2. subst self1. cbn [with_metrics metrics background_queue
      cache_hits quick_responses total_requests enhanced_responses].
    rewrite List.length_app. cbn [List.length].
    repeat split; try assumption; lia.
  - assert (Hs : steady (hit self2)).
    { unfold steady. cbn [hit with_metrics pattern_cache metrics background_queue
        cache_hits quick_responses total_requests enhanced_responses].
      rewrite Hm2, Hq2. subst self1. cbn [with_metrics metrics background_queue
        cache_hits quick_responses total_requests enhanced_responses pattern_cache] in *.
      repeat split; try assumption; lia. }
    destruct (get_str "flags" (item :: e)); [|exact Hs].
    destruct (get_int "confidence" (item :: e)); exact Hs.
Qed.

Lemma worker_keeps_steady self : steady self -> steady (background_step self).
Proof.
  intros [Hc [Hn [Hh [He [Hbal Hq]]]]]. unfold background_step.
  destruct (background_queue self) as [|task rest] eqn:Hqueue.
  { unfold steady. rewrite Hqueue. repeat split; assumption. }
  cbn [_process_learning_enhancement].
  unfold steady, _update_enhanced_cache.
  cbn [pattern_cache metrics background_queue with_metrics].
  destruct (PyDict.get (task_cache_key task) (pattern_cache self)) as [entry|] eqn:Hk;
    cbn [pattern_cache metrics background_queue with_cache with_metrics
           cache_hits quick_responses total_requests enhanced_responses];
    cbn [List.length] in Hq.
  - split.
    { apply well_formed_set; [exact Hc|].
      pose proof (well_formed_get _ _ _ Hc Hk) as Ht.
      unfold has_timestamp in *.
      rewrite get_set_other by reflexivity.
      rewrite get_update_absent by reflexivity. exact Ht. }
    split; [rewrite (set_length_present _ _ entry); assumption|].
    repeat split; try assumption; lia.
  - repeat split; try assumption; lia.
Qed.

Lemma run_keeps_steady py_hash trace : forall self,
  steady self -> steady (run py_hash self trace).
Proof.
  induction trace as [|event trace IH]; intros self Hs; [exact Hs|].
  destruct event; cbn [run]; apply IH.
  - apply request_keeps_steady, Hs.
  - apply worker_keeps_steady, Hs.
Qed.

Lemma empty_optimizer_steady : steady empty_optimizer.
Proof. unfold steady. cbn. repeat split; lia. Qed.

(** X17.  The metrics of an optimizer used through [quick_recommend], after
    any sequence of requests and turns of the background worker: every
    request was counted as a cache hit or as a quick response, the
    enhanced responses are at most the quick ones, and the
    [cache_hit_rate] of [get_performance_metrics] lies between 0 and 1. *)
Theorem metrics_stay_balanced (py_hash : string -> Z) (trace : list Event) :
  let self := run py_hash empty_optimizer trace in
  let m := metrics self in
  (cache_hits m + quick_responses m = total_requests m)%Z
  /\ (0 <= enhanced_responses m <= quick_responses m)%Z
  /\ 0 <= cache_hit_rate self /\ cache_hit_rate self <= 1.
Proof.
  cbv zeta.
  destruct (run_keeps_steady py_hash trace _ empty_optimizer_steady)
    as [_ [_ [Hh [He [Hbal Hq]]]]].
  split; [exact Hbal|]. split; [lia|].
  unfold cache_hit_rate.
  destruct (total_requests _ >? 0)%Z eqn:Hpos; [|split; discriminate].
  apply Z.gtb_lt in Hpos.
  destruct (total_requests _) as [|p|p] eqn:Ht; try lia.
  rewrite ratio_as_fraction. unfold Qle. cbn. lia.
Qed.

(** X18.  After any sequence of requests and turns of the background
    worker the cache holds at most 1000 entries, each with the time stamp
    the eviction and the expiry read. *)
Theorem cache_stays_bounded (py_hash : string -> Z) (trace : list Event) :
  (List.length (pattern_cache (run py_hash empty_optimizer trace)) <= 1000)%nat
  /\ well_formed (pattern_cache (run py_hash empty_optimizer trace)) = true.
Proof.
  destruct (run_keeps_steady py_hash trace _ empty_optimizer_steady)
    as [Hc [Hn _]].
  split; assumption.
Qed.

End TraceFacts.

(** *** The expiry of the recommendation cache *)

Section ExpiryFacts.
Import Optimizer.

(** X19.  An entry older than the TTL is never served: a request that
    meets it under its key is answered with what [_quick_pattern_match]
    computes for the request, it is counted as a quick response and not
    as a cache hit, and the key then holds the new recommendation with
    the time of the request (or nothing, when the eviction took it). *)
Theorem expired_entry_is_recomputed
  (py_hash : string -> Z) (self : PerformanceOptimizer) (now : Z)
  (response_time : Q) (user_input command description : string)
  (ctx : Context.t) (fl : string) (conf stamp : Z) :
  let key := make_cache_key py_hash command description ctx in
  well_formed (pattern_cache self) = true ->
  (List.length (pattern_cache self) <= 1000)%nat ->
  stored (pattern_cache self) key fl conf stamp ->
  (cache_ttl <= now - stamp)%Z ->
  let '(r, self') :=
    get_quick_recommendation py_hash self now response_time user_input
                             command description ctx in
  (flags r, confidence r) = fst (_quick_pattern_match command description ctx)
  /\ cache_hits (metrics self') = cache_hits (metrics self)
  /\ quick_responses (metrics self') = (quick_responses (metrics self) + 1)%Z
  /\ (stored (pattern_cache self') key (flags r) (confidence r) now
      \/ PyDict.get key (pattern_cache self') = None).
Proof.
  intros key Hc Hn [e [Hkey [Hf [Hconf Ht]]]] Hold.
  unfold get_quick_recommendation. fold key.
  unfold _get_cached_recommendation. rewrite Hkey.
  unfold get_time. rewrite Ht.
  destruct (now - stamp <? cache_ttl)%Z eqn:Hlt; [apply Z.ltb_lt in Hlt; lia|].
  destruct (_quick_pattern_match command description ctx) as [[quick_fl c] why].
  set (entry := [("flags", VStr quick_fl); ("confidence", VInt c);
                 ("timestamp", VTime now)]).
  set (self1 := with_cache self (PyDict.remove key (pattern_cache self))).
  destruct (cache_recommendation_effect (quick self1) key entry)
    as [self2 [Hstore [_ [_ [Hm _]]]]].
  { apply well_formed_remove, Hc. }
  { reflexivity. }
  { cbn [quick self1 with_metrics with_cache pattern_cache].
    pose proof (remove_length key (pattern_cache self)). lia. }
  destruct (cache_recommendation_stores (quick self1) key entry)
    as [self2' [Hstore' Hget]];
    [apply well_formed_remove, Hc|reflexivity|].
  rewrite Hstore in Hstore'. injection Hstore' as <-.
  rewrite Hstore.
  cbn [flags confidence fst _queue_background_enhancement metrics pattern_cache].
  rewrite Hm. cbn [quick self1 with_metrics with_cache metrics cache_hits
                     quick_responses].
  split; [reflexivity|]. split; [reflexivity|]. split; [reflexivity|].
  destruct Hget as [Hget|Hget]; [left|right; exact Hget].
  exists entry. repeat split. exact Hget.
Qed.

(** The entry of a first request, met again an hour later. *)
Lemma expired_entry_is_recomputed_witness :
  let key := make_cache_key length_hash "implement" "api endpoint" backend_context in
  well_formed (pattern_cache (snd first_answer)) = true
  /\ (List.length (pattern_cache (snd first_answer)) <= 1000)%nat
  /\ stored (pattern_cache (snd first_answer)) key
            "--persona-backend --seq --c7 --uc --delegate" 92 0
  /\ (cache_ttl <= hour - 0)%Z
  /\ let '(r, self') :=
       get_quick_recommendation length_hash (snd first_answer) hour (1 # 2)
         "/sc:implement api endpoint" "implement" "api endpoint" backend_context in
     (flags r, confidence r)
     = fst (_quick_pattern_match "implement" "api endpoint" backend_context)
     /\ cache_hits (metrics self') = cache_hits (metrics (snd first_answer))
     /\ quick_responses (metrics self')
        = (quick_responses (metrics (snd first_answer)) + 1)%Z
     /\ (stored (pattern_cache self') key (flags r) (confidence r) hour
         \/ PyDict.get key (pattern_cache self') = None).
Proof.
  cbv zeta.
  assert (H1 : well_formed (pattern_cache (snd first_answer)) = true)
    by reflexivity.
  assert (H2 : (List.length (pattern_cache (snd first_answer)) <= 1000)%nat)
    by (vm_compute; lia).
  assert (H3 : stored (pattern_cache (snd first_answer))
                 (make_cache_key length_hash "implement" "api endpoint"
                    backend_context)
                 "--persona-backend --seq --c7 --uc --delegate" 92 0).
  { eexists. split; [vm_compute; reflexivity|]. repeat split. }
  assert (H4 : (cache_ttl <= hour - 0)%Z) by (vm_compute; discriminate).
  split; [exact H1|]. split; [exact H2|]. split; [exact H3|]. split; [exact H4|].
  apply (expired_entry_is_recomputed length_hash (snd first_answer) hour (1 # 2)
           "/sc:implement api endpoint" "implement" "api endpoint" backend_context
           "--persona-backend --seq --c7 --uc --delegate" 92 0 H1 H2 H3 H4).
Defined.

End ExpiryFacts.

(** *** The data collector *)

(** [str] is one-to-one on the integers. *)
Lemma of_Z_inj (a b : Z) : PyStr.of_Z a = PyStr.of_Z b -> a = b.
Proof.
  unfold PyStr.of_Z. intros H.
  assert (Hnil : forall n : Z,
            Z.to_int n <> Decimal.Pos Decimal.Nil
            /\ Z.to_int n <> Decimal.Neg Decimal.Nil).
  { intros [|p|p]; cbn; split; try discriminate;
      intros E; injection E as E; apply (DecimalPos.Unsigned.to_uint_nonnil p E). }
  apply (f_equal NilZero.int_of_string) in H.
  rewrite !NilZero.isi in H by apply Hnil.
  injection H as H. apply DecimalZ.to_int_inj, H.
Qed.

Lemma find_unique {A} (p : A -> bool) (l : list A) (x : A) :
  In x l -> p x = true -> (forall y, In y l -> p y = true -> y = x) ->
  find p l = Some x.
Proof.
  induction l as [|y l IH]; cbn [In find]; [tauto|].
  intros Hin Hx Huniq. destruct (p y) eqn:Hy.
  - f_equal. apply Huniq; [left; reflexivity|exact Hy].
  - destruct Hin as [->|Hin]; [congruence|].
    apply IH; [exact Hin|exact Hx|].
    intros z Hz. apply Huniq. right. exact Hz.
Qed.

Section OrderFacts.
Import Storage.

Lemma insert_desc_in x y l : In y (insert_desc x l) <-> y = x \/ In y l.
Proof.
  induction l as [|z l IH]; cbn [insert_desc In]; [intuition congruence|].
  destruct (timestamp z <? timestamp x)%Z; cbn [In]; [intuition congruence|].
  rewrite IH. intuition congruence.
Qed.

Lemma order_by_timestamp_in y l :
  In y (order_by_timestamp_desc l) <-> In y l.
Proof.
  unfold order_by_timestamp_desc.
  induction l as [|x l IH]; cbn [fold_right In]; [tauto|].
  rewrite insert_desc_in, IH. intuition congruence.
Qed.

End OrderFacts.

Section OpenFacts.
Import Feedback.

Lemma open_interactions_are_skipped self now l : forall acc,
  forallb open_interaction l = true -> fold_left (batch_step self now) l acc = acc.
Proof.
  induction l as [|i l IH]; intros acc; cbn [forallb fold_left]; [reflexivity|].
  intros H. apply andb_prop in H. destruct H as [Hi Hl].
  rewrite <- (IH acc Hl) at 2. f_equal.
  unfold batch_step, _is_feedback_processed. cbn [negb].
  unfold _analyze_interaction_for_batch_processing.
  unfold open_interaction in Hi. apply andb_prop in Hi. destruct Hi as [_ Hi].
  rewrite Hi. reflexivity.
Qed.

Lemma batch_skips_open_storage (s : Storage.LearningStorage) out now days :
  all_open s = true ->
  process_batch_feedback {| storage := s; stdout := out |} now days
  = Ok ([], {| storage := s; stdout := out |}).
Proof.
  unfold all_open, process_batch_feedback, Storage.get_user_interactions,
    Storage.connect.
  cbn [storage].
  destruct (Storage.db_file s) as [db|]; [|discriminate].
  intros Hopen. cbn [bind].
  rewrite open_interactions_are_skipped.
  - unfold _apply_batch_updates, print. cbn [batch_lines flat_map storage stdout].
    rewrite app_nil_r. reflexivity.
  - apply forallb_forall. intros x Hx.
    apply (proj1 (order_by_timestamp_in _ _)) in Hx.
    apply filter_In in Hx.
    apply (proj1 (forallb_forall _ _) Hopen), Hx.
Qed.

End OpenFacts.

Section CollectorFacts.
Import Collector.

Variable cwd : string.
Variable sha256_16 : string -> string.
Variable json_dumps : Context.t -> string.
Variable json_loads : string -> result (PyDict.t Q).

Lemma same_interactions_open s s' :
  same_interactions s s' -> all_open s = true -> all_open s' = true.
Proof.
  intros [->|[db [db' [H1 [H2 H3]]]]]; [trivial|].
  unfold all_open. rewrite H1, H2, H3. trivial.
Qed.

Lemma same_interactions_trans s1 s2 s3 :
  same_interactions s1 s2 -> same_interactions s2 s3 -> same_interactions s1 s3.
Proof.
  intros [->|[db [db' [H1 [H2 H3]]]]]; [trivial|].
  intros [->|[db2 [db3 [H4 [H5 H6]]]]].
  - right. exists db, db'. auto.
  - right. exists db, db3. rewrite H2 in H4. injection H4 as <-.
    repeat split; [exact H1|exact H5|congruence].
Qed.

Lemma record_feedback_interactions s fb s' :
  Storage.record_feedback s fb = Ok s' -> same_interactions s s'.
Proof.
  unfold Storage.record_feedback, Storage.connect.
  destruct (Storage.db_file s) as [db|] eqn:Hdb; [|discriminate].
  cbn [bind]. intros E. injection E as <-.
  right. eexists _, _. split; [exact Hdb|]. split; reflexivity.
Qed.

Lemma record_implicit_feedback_interactions self now succeeded elapsed self' :
  record_implicit_feedback cwd sha256_16 self now succeeded elapsed = Ok self' ->
  same_interactions (storage self) (storage self').
Proof.
  unfold record_implicit_feedback.
  destruct (no_id _); [intros E; injection E as <-; left; reflexivity|].
  destruct (Storage.record_feedback _ _) as [s'|] eqn:Hr; [|discriminate].
  cbn [bind]. intros E. injection E as <-.
  apply record_feedback_interactions in Hr. exact Hr.
Qed.

Lemma record_explicit_feedback_interactions self now rating correction self' :
  record_explicit_feedback cwd sha256_16 self now rating correction = Ok self' ->
  same_interactions (storage self) (storage self').
Proof.
  unfold record_explicit_feedback.
  destruct (no_id _); [intros E; injection E as <-; left; reflexivity|].
  destruct (Storage.record_feedback _ _) as [s'|] eqn:Hr; [|discriminate].
  cbn [bind]. intros E. injection E as <-.
  apply record_feedback_interactions in Hr. exact Hr.
Qed.

Lemma close_interaction_interactions self now elapsed succeeded error_message
      interaction self' :
  close_interaction cwd sha256_16 json_loads self now elapsed succeeded
    error_message interaction = Ok self' ->
  same_interactions (storage self) (storage self').
Proof.
  unfold close_interaction.
  destruct (json_loads _) as [context|]; [|discriminate]. cbn [bind].
  destruct (negb _).
  - destruct (Storage.update_pattern_success _ _ _ _ _) as [s1|] eqn:Hup;
      [|discriminate].
    cbn [bind]. intros H. apply record_implicit_feedback_interactions in H.
    cbn [with_storage storage] in H.
    apply update_pattern_success_tables in Hup.
    destruct Hup as [db [db' [H1 [H2 [H3 _]]]]].
    apply (same_interactions_trans _ s1); [|exact H].
    right. exists db, db'. auto.
  - cbn [bind]. apply record_implicit_feedback_interactions.
Qed.

Lemma end_interaction_interactions self now flags succeeded error_message self' :
  end_interaction cwd sha256_16 json_loads self now flags succeeded error_message
  = Ok self' ->
  same_interactions (storage self) (storage self').
Proof.
  unfold end_interaction.
  destruct (_ || _); [intros E; injection E as <-; left; reflexivity|].
  destruct (Storage.get_user_interactions _ _ _ _) as [l|]; [|discriminate].
  cbn [bind].
  destruct (find _ l) as [i|].
  - destruct (close_interaction _ _ _ _ _ _ _ _ _) as [self1|] eqn:Hc;
      [|discriminate].
    cbn [bind]. intros E. injection E as <-. cbn [storage].
    apply close_interaction_interactions in Hc. exact Hc.
  - cbn [bind]. intros E. injection E as <-. left. reflexivity.
Qed.

Lemma start_interaction_open self now rowid input flags conf why context :
  all_open (storage self) = true ->
  all_open (storage (snd (start_interaction cwd sha256_16 json_dumps self now rowid
                            input flags conf why context))) = true.
Proof.
  unfold all_open, start_interaction, record_interaction, Storage.connect.
  destruct (_parse_user_input input) as [c d]. cbn [storage].
  destruct (Storage.db_file (storage self)) as [db|]; [|discriminate].
  cbn [bind snd storage Storage.with_db Storage.db_file Storage.interactions].
  intros H. rewrite forallb_app, H. reflexivity.
Qed.

Lemma collect_keeps_open steps : forall self,
  all_open (storage self) = true ->
  all_open (storage (collect cwd sha256_16 json_dumps json_loads self steps)) = true.
Proof.
  induction steps as [|step steps IH]; intros self H; [exact H|].
  destruct step; cbn [collect]; apply IH.
  - apply start_interaction_open, H.
  - destruct (end_interaction _ _ _ _ _ _ _ _) as [self'|] eqn:He; [|exact H].
    cbn [after]. apply end_interaction_interactions in He.
    apply (same_interactions_open _ _ He H).
  - destruct (record_explicit_feedback _ _ _ _ _ _) as [self'|] eqn:He; [|exact H].
    cbn [after]. apply record_explicit_feedback_interactions in He.
    apply (same_interactions_open _ _ He H).
Qed.

(** X20.  The collector never closes an interaction: after any sequence of
    [start_interaction], [end_interaction] and [record_explicit_feedback]
    on a new database, every row of [interactions] still has
    [success = False] and [execution_time = 0.0], as [start_interaction]
    wrote it; [process_batch_feedback], which skips the rows without an
    execution time, therefore processes none of them and prints
    nothing. *)
Theorem collected_interactions_stay_open
  (uid : string) (steps : list Step) (now days : Z) :
  let c := collect cwd sha256_16 json_dumps json_loads (new_collector uid) steps in
  all_open (storage c) = true
  /\ Feedback.process_batch_feedback
       {| Feedback.storage := storage c; Feedback.stdout := [] |} now days
     = Ok ([], {| Feedback.storage := storage c; Feedback.stdout := [] |}).
Proof.
  cbv zeta.
  assert (H : all_open (storage (collect cwd sha256_16 json_dumps json_loads
                                   (new_collector uid) steps)) = true).
  { apply collect_keeps_open. reflexivity. }
  split; [exact H|]. apply batch_skips_open_storage, H.
Qed.

(** X21.  The round trip of an interaction: [start_interaction] returns the
    id of the row it writes and keeps it as the current interaction, and
    for a day from then the look-up [end_interaction] makes
    ([get_user_interactions(days=1)], then the first row with that id)
    finds that row, with the input, flags and confidence given, the
    command and description parsed from the input, no success and no
    execution time.  The id SQLite assigns is above the ids of the
    table. *)
Theorem started_interaction_is_found
  (db : Storage.Database) (uid : string) (current : option string)
  (started : option Z) (now now' rowid : Z) (input flags : string) (conf : Z)
  (why : string) (context : Context.t) :
  let self := {| storage := readable db uid;
                 current_interaction_id := current;
                 interaction_start_time := started |} in
  fresh_id rowid (readable db uid) ->
  (now <= now' < now + Storage.day)%Z ->
  let '(answer, self') :=
    start_interaction cwd sha256_16 json_dumps self now rowid input flags conf why
                      context in
  answer = Ok (PyStr.of_Z rowid)
  /\ current_interaction_id self' = Some (PyStr.of_Z rowid)
  /\ exists found row,
       Storage.get_user_interactions (storage self') now' 1 None = Ok found
       /\ find (fun i => String.eqb (PyStr.of_Z (Storage.id i)) (PyStr.of_Z rowid))
               found = Some row
       /\ Storage.id row = rowid
       /\ Storage.timestamp row = now
       /\ Storage.user_input row = input
       /\ Storage.recommended_flags row = flags
       /\ Storage.confidence row = conf
       /\ (Storage.command row, Storage.description row) = _parse_user_input input
       /\ Storage.success row = false
       /\ Storage.execution_time row = 0.
Proof.
  intros self Hfresh Hnow. subst self.
  unfold start_interaction, record_interaction.
  destruct (_parse_user_input input) as [c d] eqn:Hparse.
  cbn [storage Storage.connect Storage.db_file readable bind Storage.self_user_id
         timestamp user_input command description recommended_flags actual_flags
         project_context success execution_time confidence reasoning user_id
         project_hash current_interaction_id].
  split; [reflexivity|]. split; [reflexivity|].
  eexists _, _. split; [reflexivity|].
  cbn [Storage.with_db Storage.self_user_id Storage.interactions Storage.truthy].
  split.
  { apply find_unique.
    - apply order_by_timestamp_in. apply filter_In. split.
      + apply in_or_app. right. left. reflexivity.
      + cbn [Storage.user_id Storage.timestamp]. rewrite String.eqb_refl.
        cbn [andb]. rewrite andb_true_r. apply Z.ltb_lt. lia.
    - cbn [Storage.id]. apply String.eqb_refl.
    - intros y Hy Hid. apply String.eqb_eq, of_Z_inj in Hid.
      apply (proj1 (order_by_timestamp_in _ _)) in Hy.
      apply filter_In in Hy. destruct Hy as [Hy _].
      apply in_app_or in Hy. destruct Hy as [Hy|[<-|[]]]; [|reflexivity].
      pose proof (Hfresh db y eq_refl Hy). lia. }
  repeat split.
Qed.

End CollectorFacts.

Section CollectorRun.
Import Collector.

(** A second interaction, looked up an hour after it started. *)
Lemma started_interaction_is_found_witness :
  let self := {| storage := readable (one_interaction 0) "user";
                 current_interaction_id := None;
                 interaction_start_time := None |} in
  fresh_id 2 (readable (one_interaction 0) "user")
  /\ (hour <= 2 * hour < hour + Storage.day)%Z
  /\ let '(answer, self') :=
       start_interaction "/home/user/project" fixed_hash empty_dumps self hour 2
         "/sc:implement api endpoint" "--persona-backend --seq --c7" 92
         "pattern" backend_context in
     answer = Ok (PyStr.of_Z 2)
     /\ current_interaction_id self' = Some (PyStr.of_Z 2)
     /\ exists found row,
          Storage.get_user_interactions (storage self') (2 * hour) 1 None = Ok found
          /\ find (fun i => String.eqb (PyStr.of_Z (Storage.id i)) (PyStr.of_Z 2))
                  found = Some row
          /\ Storage.id row = 2%Z
          /\ Storage.timestamp row = hour
          /\ Storage.user_input row = "/sc:implement api endpoint"
          /\ Storage.recommended_flags row = "--persona-backend --seq --c7"
          /\ Storage.confidence row = 92%Z
          /\ (Storage.command row, Storage.description row)
             = _parse_user_input "/sc:implement api endpoint"
          /\ Storage.success row = false
          /\ Storage.execution_time row = 0.
Proof.
  cbv zeta.
  assert (H1 : fresh_id 2 (readable (one_interaction 0) "user")).
  { intros db i Hdb Hi. injection Hdb as <-. destruct Hi as [<-|[]]. reflexivity. }
  assert (H2 : (hour <= 2 * hour < hour + Storage.day)%Z).
  { split; [discriminate|reflexivity]. }
  split; [exact H1|]. split; [exact H2|].
  apply (started_interaction_is_found "/home/user/project" fixed_hash empty_dumps
           (one_interaction 0) "user" None None hour (2 * hour) 2
           "/sc:implement api endpoint" "--persona-backend --seq --c7" 92
           "pattern" backend_context H1 H2).
Defined.

End CollectorRun.

(** *** Parsing a command *)

Section ParseFacts.
Import PyStr.

Lemma plain_unspaced (c : ascii) (t : string) :
  ws_byte c = false -> ws_len (String c t) = 0%nat.
Proof.
  intros H. destruct (ws_len (String c t)) eqn:E; [reflexivity|].
  apply ws_len_bytes in E. cbn [first_are] in E. rewrite H in E. discriminate E.
Qed.

Lemma word_char_plain (c : ascii) : word_char c = true -> ws_byte c = false.
Proof.
  destruct c as [[] [] [] [] [] [] [] []]; intros H;
    first [discriminate H | reflexivity].
Qed.

Lemma word_char_unspaced (c : ascii) (t : string) :
  word_char c = true -> ws_len (String c t) = 0%nat.
Proof. intros H. apply plain_unspaced, word_char_plain, H. Qed.

Lemma word_char_is_word_byte (c : ascii) :
  word_char c = true -> Preprocessor.is_word_byte c = true.
Proof.
  unfold word_char, Preprocessor.is_word_byte. cbv zeta.
  intros H. rewrite H. reflexivity.
Qed.

Lemma words_plain (w : string) :
  all_chars word_char w = true ->
  all_chars (fun c => negb (ws_byte c)) w = true.
Proof.
  induction w as [|c w IH]; cbn [all_chars]; [reflexivity|].
  intros H. apply andb_prop in H. destruct H as [Hc Hw].
  rewrite (word_char_plain c Hc), (IH Hw). reflexivity.
Qed.

Lemma all_chars_app (q : ascii -> bool) (a b : string) :
  all_chars q (a ++ b) = all_chars q a && all_chars q b.
Proof.
  induction a as [|c a IH]; cbn [append all_chars]; [reflexivity|].
  rewrite IH. apply andb_assoc.
Qed.

Lemma rstrip_after_plain (a t : string) :
  all_chars (fun c => negb (ws_byte c)) a = true -> rstrip (a ++ t) = a ++ rstrip t.
Proof.
  induction a as [|c a IH]; cbn [all_chars append]; [reflexivity|].
  intros H. apply andb_prop in H. destruct H as [Hc Ha].
  apply negb_true_iff in Hc.
  cbn [rstrip all_ws_from]. rewrite (plain_unspaced c _ Hc).
  rewrite (IH Ha). reflexivity.
Qed.

Lemma span_word_words (w t : string) :
  all_chars word_char w = true ->
  (t = "" \/ exists c t', t = String c t' /\ ws_len t <> 0%nat) ->
  Preprocessor.span_word (w ++ t) = (w, t).
Proof.
  intros Hw Ht. induction w as [|c w IH]; cbn [append].
  - destruct Ht as [->|[c [t' [-> Hlen]]]]; [reflexivity|].
    cbn [Preprocessor.span_word].
    destruct (ws_len (String c t')) eqn:E; [congruence|reflexivity].
  - cbn [all_chars] in Hw. apply andb_prop in Hw. destruct Hw as [Hc Hw].
    cbn [Preprocessor.span_word].
    rewrite (word_char_unspaced c _ Hc), (word_char_is_word_byte c Hc).
    cbn [Nat.eqb andb]. rewrite (IH Hw). reflexivity.
Qed.

Lemma first_line_whole (d : string) :
  lacks Preprocessor.newline d = true -> Preprocessor.first_line d = d.
Proof.
  induction d as [|c d IH]; cbn [lacks Preprocessor.first_line]; [reflexivity|].
  intros H. apply andb_prop in H. destruct H as [Hc Hd].
  apply negb_true_iff in Hc. rewrite Hc, (IH Hd). reflexivity.
Qed.

Lemma stripped_unspaced (d : string) : strip d = d -> ws_len d = 0%nat.
Proof.
  intros H. rewrite <- H. unfold strip.
  apply rstrip_unspaced, lstrip_from_unspaced.
Qed.

Lemma stripped_rstrip (d : string) : strip d = d -> rstrip d = d.
Proof.
  intros H. pose proof (stripped_unspaced d H) as Hlen.
  unfold strip in H. rewrite (lstrip_of_unspaced d Hlen) in H. exact H.
Qed.

(** X22.  [_parse_sc_command] reads a command back: for a command word of
    ASCII letters, digits and underscores and a description that is
    stripped and has no newline, the input [/sc:<word> <description>] is
    parsed into the word and the description. *)
Theorem parse_sc_command_round_trip (c : ascii) (w d : string) :
  all_chars word_char (String c w) = true ->
  strip d = d ->
  lacks Preprocessor.newline d = true ->
  Preprocessor._parse_sc_command ("/sc:" ++ String c w ++ " " ++ d)
  = (String c w, d).
Proof.
  intros Hw Hd Hline.
  pose proof (stripped_unspaced d Hd) as Hlen.
  pose proof (stripped_rstrip d Hd) as Hr.
  unfold Preprocessor._parse_sc_command.
  assert (Hstrip : strip ("/sc:" ++ String c w ++ " " ++ d)
                   = "/sc:" ++ String c w ++ rstrip (" " ++ d)).
  { unfold strip. rewrite lstrip_of_unspaced by reflexivity.
    change ("/sc:" ++ String c w ++ " " ++ d)
      with (("/sc:" ++ String c w) ++ " " ++ d).
    rewrite rstrip_after_plain; [reflexivity|].
    rewrite all_chars_app, (words_plain _ Hw). reflexivity. }
  rewrite Hstrip.
  change (startswith "/sc:" ("/sc:" ++ String c w ++ rstrip (" " ++ d))) with true.
  cbv iota.
  change (drop 4 ("/sc:" ++ String c w ++ rstrip (" " ++ d)))
    with (String c w ++ rstrip (" " ++ d)).
  destruct d as [|x d].
  - change (rstrip (" " ++ "")) with "".
    rewrite (span_word_words (String c w) "" Hw) by (left; reflexivity).
    reflexivity.
  - assert (Hall : all_ws_from 0 (String x d) = false).
    { cbn [rstrip] in Hr. destruct (all_ws_from 0 (String x d)); [discriminate Hr|].
      reflexivity. }
    assert (Hrest : rstrip (" " ++ String x d) = " " ++ String x d).
    { change (rstrip (" " ++ String x d))
        with (if all_ws_from 0 (String x d) then ""
              else String " " (rstrip (String x d))).
      rewrite Hall, Hr. reflexivity. }
    rewrite Hrest.
    rewrite (span_word_words (String c w) (" " ++ String x d) Hw).
    + change (lstrip (" " ++ String x d)) with (lstrip (String x d)).
      rewrite (lstrip_of_unspaced _ Hlen), (first_line_whole _ Hline).
      reflexivity.
    + right. exists " "%char, (String x d). split; [reflexivity|].
      change (ws_len (" " ++ String x d)) with 1%nat. discriminate.
Qed.

(** The command of the specification's example. *)
Lemma parse_sc_command_round_trip_witness :
  all_chars word_char "analyze" = true
  /\ strip "find security vulnerabilities" = "find security vulnerabilities"
  /\ lacks Preprocessor.newline "find security vulnerabilities" = true
  /\ Preprocessor._parse_sc_command ("/sc:" ++ "analyze" ++ " "
                                     ++ "find security vulnerabilities")
     = ("analyze", "find security vulnerabilities").
Proof.
  split; [reflexivity|]. split; [reflexivity|]. split; [reflexivity|].
  apply (parse_sc_command_round_trip "a" "nalyze" "find security vulnerabilities"
           eq_refl eq_refl eq_refl).
Defined.

End ParseFacts.

(** *** The words of a string *)

Section SplitFacts.
Import PyStr.

Lemma append_assoc (a b c : string) : (a ++ b) ++ c = a ++ b ++ c.
Proof. induction a as [|x a IH]; cbn [append]; [reflexivity|]. rewrite IH. reflexivity. Qed.

Lemma ws_len_le (s : string) : (ws_len s <= String.length s)%nat.
Proof.
  destruct s as [|a [|b [|c s]]]; cbn [ws_len String.length];
    repeat match goal with |- context [if ?b then _ else _] => destruct b end; lia.
Qed.

Lemma ws_len_before_space (a : ascii) (u t : string) :
  ws_len (String a u ++ String " " t) = ws_len (String a u).
Proof.
  destruct u as [|b [|c u]]; cbn [append ws_len]; try reflexivity.
  - destruct (ascii_ws (byte a)); [reflexivity|].
    assert (H : ws2 (byte a) (byte " ") = false).
    { unfold ws2. change (byte " ") with 32%nat. cbn. apply andb_false_r. }
    rewrite H.
    destruct t as [|c t]; [reflexivity|].
    assert (H3 : ws3 (byte a) (byte " ") (byte c) = false).
    { unfold ws3. change (byte " ") with 32%nat. cbn.
      rewrite !andb_false_r. reflexivity. }
    rewrite H3. reflexivity.
  - destruct (ascii_ws (byte a)); [reflexivity|].
    destruct (ws2 (byte a) (byte b)); [reflexivity|].
    assert (H3 : ws3 (byte a) (byte b) (byte " ") = false).
    { unfold ws3, e2_80_ws, between. change (byte " ") with 32%nat. cbn.
      rewrite !andb_false_r. reflexivity. }
    rewrite H3. reflexivity.
Qed.

Lemma split_from_before_space (t : string) : forall (s : string) (skip : nat) (cur : string),
  (skip <= String.length s)%nat ->
  split_from skip cur (s ++ String " " t) = (split_from skip cur s ++ split t)%list.
Proof.
  induction s as [|c s IH]; intros skip cur Hskip.
  - cbn [String.length] in Hskip. assert (skip = 0%nat) as -> by lia.
    cbn [append].
    change (split_from 0 cur (String " " t))
      with (flush cur ++ split_from 0 "" t)%list.
    reflexivity.
  - cbn [String.length] in Hskip.
    change (String c s ++ String " " t) with (String c (s ++ String " " t)).
    cbn [split_from]. destruct skip as [|k].
    + change (String c (s ++ String " " t)) with (String c s ++ String " " t).
      rewrite ws_len_before_space.
      pose proof (ws_len_le (String c s)) as Hle. cbn [String.length] in Hle.
      destruct (ws_len (String c s)) as [|k].
      * apply IH. lia.
      * rewrite IH by lia. apply app_assoc.
    + apply IH. lia.
Qed.

Lemma split_join (l : list string) :
  split (join " " l) = concat (map split l).
Proof.
  induction l as [|x l IH]; [reflexivity|].
  destruct l as [|y l].
  - cbn [join map concat]. rewrite app_nil_r. reflexivity.
  - change (join " " (x :: y :: l)) with (x ++ String " " (join " " (y :: l))).
    unfold split at 1. rewrite split_from_before_space by lia.
    rewrite IH. reflexivity.
Qed.

Lemma ws_len_prefix (u s : string) :
  ws_len (u ++ s) = 0%nat -> ws_len u = 0%nat.
Proof.
  destruct u as [|a [|b [|c u]]]; cbn [append ws_len]; intros H;
    [reflexivity| | |exact H].
  - destruct (ascii_ws (byte a)); [discriminate H|reflexivity].
  - destruct (ascii_ws (byte a)); [discriminate H|].
    destruct (ws2 (byte a) (byte b)); [discriminate H|reflexivity].
Qed.

Lemma unbroken_before_end (cur s : string) :
  unbroken_before cur s -> unbroken cur = true.
Proof.
  induction cur as [|c cur IH]; cbn [unbroken_before unbroken]; [reflexivity|].
  intros [Hlen Hrest]. apply ws_len_prefix in Hlen. rewrite Hlen, (IH Hrest). reflexivity.
Qed.

Lemma unbroken_before_step (c : ascii) (s : string) : forall cur : string,
  ws_len (String c s) = 0%nat ->
  unbroken_before cur (String c s) ->
  unbroken_before (cur ++ String c "") s.
Proof.
  induction cur as [|x cur IH]; intros Hc H.
  - cbn [append unbroken_before]. split; [exact Hc|exact I].
  - cbn [unbroken_before] in H. destruct H as [Hlen Hrest].
    change (String x cur ++ String c "") with (String x (cur ++ String c "")).
    cbn [unbroken_before]. split; [|apply IH; assumption].
    change (String x (cur ++ String c "") ++ s) with (String x ((cur ++ String c "") ++ s)).
    rewrite append_assoc. exact Hlen.
Qed.

Lemma split_from_words (w : string) : forall (s : string) (skip : nat) (cur : string),
  (skip = 0%nat /\ unbroken_before cur s) \/ cur = "" ->
  In w (split_from skip cur s) -> unbroken w = true /\ w <> "".
Proof.
  assert (Hflush : forall cur s, unbroken_before cur s -> In w (flush cur) ->
                                 unbroken w = true /\ w <> "").
  { intros cur s Hcur Hin. destruct cur as [|c cur]; [destruct Hin|].
    destruct Hin as [<-|[]]. split; [apply (unbroken_before_end _ s), Hcur|discriminate]. }
  induction s as [|c s IH]; intros skip cur Hinv Hin.
  - cbn [split_from] in Hin. destruct Hinv as [[_ Hcur]| ->]; [|destruct Hin].
    apply (Hflush cur ""); assumption.
  - cbn [split_from] in Hin. destruct skip as [|k].
    + assert (Hcur : unbroken_before cur (String c s)).
      { destruct Hinv as [[_ H]| ->]; [exact H|exact I]. }
      destruct (ws_len (String c s)) as [|k] eqn:Hlen.
      * apply (IH 0%nat (cur ++ String c "")); [|exact Hin].
        left. split; [reflexivity|]. apply unbroken_before_step; assumption.
      * apply in_app_or in Hin. destruct Hin as [Hin|Hin].
        -- apply (Hflush cur (String c s)); assumption.
        -- apply (IH k ""); [right; reflexivity|exact Hin].
    + destruct Hinv as [[Habs _]| ->]; [discriminate Habs|].
      apply (IH k ""); [right; reflexivity|exact Hin].
Qed.

Lemma split_from_unbroken (w : string) : forall cur : string,
  unbroken w = true -> split_from 0 cur w = flush (cur ++ w).
Proof.
  induction w as [|c w IH]; intros cur H.
  - cbn [split_from]. rewrite app_empty. reflexivity.
  - cbn [unbroken] in H. apply andb_prop in H. destruct H as [Hlen Hw].
    apply Nat.eqb_eq in Hlen. cbn [split_from]. rewrite Hlen.
    rewrite (IH _ Hw), append_assoc. reflexivity.
Qed.

Lemma split_unbroken (w : string) :
  unbroken w = true -> w <> "" -> split w = [w].
Proof.
  intros H Hne. unfold split. rewrite (split_from_unbroken w "" H).
  cbn [append]. destruct w; [congruence|reflexivity].
Qed.

Lemma split_word_fixed (s w : string) : In w (split s) -> split w = [w].
Proof.
  intros H. apply (split_from_words w s 0%nat "") in H; [|right; reflexivity].
  apply split_unbroken; tauto.
Qed.

Lemma plain_unbroken (w : string) :
  all_chars (fun c => negb (ws_byte c)) w = true -> unbroken w = true.
Proof.
  induction w as [|c w IH]; cbn [all_chars unbroken]; [reflexivity|].
  intros H. apply andb_prop in H. destruct H as [Hc Hw].
  apply negb_true_iff in Hc. rewrite (plain_unspaced c w Hc), (IH Hw). reflexivity.
Qed.

Lemma in_split_join (w : string) (l : list string) :
  In w l -> split w = [w] -> In w (split (join " " l)).
Proof.
  intros Hin Hw. rewrite split_join. apply in_concat.
  exists (split w). split; [apply in_map, Hin|rewrite Hw; left; reflexivity].
Qed.

Lemma split_join_in (w : string) (l : list string) :
  In w (split (join " " l)) -> exists p, In p l /\ In w (split p).
Proof.
  rewrite split_join. intros H. apply in_concat in H.
  destruct H as [ws [Hws Hw]]. apply in_map_iff in Hws.
  destruct Hws as [p [<- Hp]]. exists p. split; assumption.
Qed.

End SplitFacts.

(** *** Personalization *)

Section PersonalizationFacts.
Import PyStr Recommender.

Lemma mem_in (x : string) (l : list string) : mem x l = true <-> In x l.
Proof.
  unfold mem. rewrite existsb_exists. split.
  - intros [y [Hy Heq]]. apply String.eqb_eq in Heq. subst y. exact Hy.
  - intros H. exists x. split; [exact H|apply String.eqb_refl].
Qed.

Lemma mem_out (x : string) (l : list string) : mem x l = false -> ~ In x l.
Proof. intros H Hin. apply mem_in in Hin. congruence. Qed.

Lemma split_word_nonempty (s w : string) : In w (split s) -> w <> "".
Proof. intros H. apply split_word_fixed in H. intros ->. discriminate H. Qed.

Lemma in_joined (w : string) (s : string) (l : list string) :
  In w (split s) -> (In w (split s) -> In w l) -> In w (split (join " " l)).
Proof.
  intros Hw Hl. apply in_split_join; [apply Hl, Hw|apply (split_word_fixed s), Hw].
Qed.

Lemma personas_keep (flags : string) (preferred : PyDict.t Q) (w : string) :
  In w (split flags) -> is_persona_flag w = false ->
  In w (split (_personalize_personas flags preferred)).
Proof.
  intros Hw Hp. unfold _personalize_personas.
  destruct preferred as [|item preferred]; [exact Hw|].
  apply (in_joined w flags); [exact Hw|]. intros _.
  apply filter_In. split.
  - apply in_or_app. left. apply in_map_iff. exists w.
    rewrite Hp. cbn [andb]. split; [reflexivity|exact Hw].
  - apply negb_true_iff, String.eqb_neq, (split_word_nonempty flags), Hw.
Qed.

Lemma replace_first_thinking_keeps (new w : string) (parts : list string) :
  mem w thinking_flags = false -> In w parts ->
  In w (replace_first_thinking new parts).
Proof.
  intros Hw. induction parts as [|flag parts IH]; cbn [replace_first_thinking];
    [trivial|].
  intros [->|Hin].
  - rewrite Hw. left. reflexivity.
  - destruct (mem flag thinking_flags); right; [exact Hin|apply IH, Hin].
Qed.

Lemma thinking_keeps (flags : string) (preferred : PyDict.t Q) (ctx : Context.t)
      (w : string) :
  In w (split flags) -> mem w thinking_flags = false ->
  In w (split (_personalize_thinking_levels flags preferred ctx)).
Proof.
  intros Hw Ht. unfold _personalize_thinking_levels.
  destruct preferred as [|first rest]; [exact Hw|].
  destruct (max_by_value first rest) as [level score].
  apply (in_joined w flags); [exact Hw|]. intros _.
  destruct (_ && _); [apply replace_first_thinking_keeps; assumption|exact Hw].
Qed.

Lemma remove_first_keeps (x w : string) (l : list string) :
  w <> x -> In w l -> In w (remove_first x l).
Proof.
  intros Hne. induction l as [|y l IH]; cbn [remove_first]; [trivial|].
  intros [->|Hin].
  - destruct (String.eqb w x) eqn:E; [apply String.eqb_eq in E; congruence|].
    left. reflexivity.
  - destruct (String.eqb y x); [exact Hin|right; apply IH, Hin].
Qed.

Lemma options_known (server : string) (opt : string) :
  In opt (PyDict.get_default server [] server_flags) ->
  In opt (concat (PyDict.values server_flags)).
Proof.
  unfold PyDict.get_default. destruct (PyDict.get server server_flags) as [opts|] eqn:H;
    [|intros []].
  intros Hopt. apply in_concat. exists opts. split; [|exact Hopt].
  apply get_in in H. apply (in_map snd) in H. exact H.
Qed.

Lemma drop_options_keep (w : string) (opts : list string) : forall parts,
  (forall opt, In opt opts -> w <> opt) -> In w parts ->
  In w (fold_left (fun parts flag_option =>
                     if mem flag_option parts then remove_first flag_option parts
                     else parts) opts parts).
Proof.
  induction opts as [|opt opts IH]; intros parts Hne Hin; cbn [fold_left];
    [exact Hin|].
  apply IH; [intros o Ho; apply Hne; right; exact Ho|].
  destruct (mem opt parts); [|exact Hin].
  apply remove_first_keeps; [apply Hne; left; reflexivity|exact Hin].
Qed.

Lemma drop_server_keeps (w : string) (item : string * Q) (parts : list string) :
  mem w (concat (PyDict.values server_flags)) = false -> In w parts ->
  In w (drop_server parts item).
Proof.
  intros Hw Hin. unfold drop_server. destruct (Qltb _ _); [|exact Hin].
  apply drop_options_keep; [|exact Hin].
  intros opt Hopt ->. apply options_known in Hopt. apply mem_in in Hopt. congruence.
Qed.

Lemma add_server_keeps (w : string) (item : string * Q) (parts : list string) :
  In w parts -> In w (add_server parts item).
Proof.
  intros Hin. unfold add_server. destruct (Qltb _ _); [|exact Hin].
  destruct (PyDict.get_default _ _ _) as [|first opts]; [exact Hin|].
  destruct (existsb _ _); [exact Hin|apply in_or_app; left; exact Hin].
Qed.

Lemma fold_keeps (w : string) (step : list string -> string * Q -> list string)
      (items : list (string * Q)) : forall parts,
  (forall parts item, In w parts -> In w (step parts item)) ->
  In w parts -> In w (fold_left step items parts).
Proof.
  induction items as [|item items IH]; intros parts Hstep Hin; cbn [fold_left];
    [exact Hin|].
  apply IH; [exact Hstep|apply Hstep, Hin].
Qed.

Lemma servers_keep (flags : string) (preferred : PyDict.t Q) (w : string) :
  In w (split flags) -> mem w (concat (PyDict.values server_flags)) = false ->
  In w (split (_personalize_mcp_servers flags preferred)).
Proof.
  intros Hw Hs. unfold _personalize_mcp_servers.
  destruct preferred as [|item preferred]; [exact Hw|].
  apply (in_joined w flags); [exact Hw|]. intros _.
  apply fold_keeps; [intros; apply add_server_keeps; assumption|].
  apply fold_keeps; [intros; apply drop_server_keeps; assumption|exact Hw].
Qed.

Lemma project_type_keeps (flags : string) (preferences : PyDict.t Q)
      (ctx : Context.t) (w : string) :
  In w (split flags) ->
  In w (split (_personalize_for_project_type flags preferences ctx)).
Proof.
  intros Hw. unfold _personalize_for_project_type. cbv zeta.
  apply (in_joined w flags); [exact Hw|]. intros _.
  repeat match goal with
         | |- In _ (if ?b then _ else _) => destruct b
         end;
    first [exact Hw | apply in_or_app; left; exact Hw].
Qed.

(** X24.  Personalization leaves the other flags alone: a flag of the base
    recommendation that is no persona, no thinking level and no flag of an
    MCP server is a flag of the personalized recommendation. *)
Theorem personalization_keeps_other_flags
  (base : Engine.RecommendationScore) (profile : UserProfile) (ctx : Context.t)
  (flag : string) :
  In flag (split (Engine.flags base)) ->
  personal_flag flag = false ->
  In flag (split (flags (_apply_personalization base profile ctx))).
Proof.
  intros Hin Hother. unfold personal_flag in Hother.
  apply orb_false_elim in Hother. destruct Hother as [Hother Hserver].
  apply orb_false_elim in Hother. destruct Hother as [Hpersona Hthinking].
  unfold _apply_personalization.
  destruct (_ <? _)%Z; cbn [flags]; [exact Hin|].
  apply project_type_keeps, servers_keep; [|exact Hserver].
  apply thinking_keeps; [|exact Hthinking].
  apply personas_keep; assumption.
Qed.

Lemma personalization_keeps_other_flags_witness :
  In "--validate" (split (Engine.flags backend_recommendation))
  /\ personal_flag "--validate" = false
  /\ In "--validate"
        (split (flags (_apply_personalization backend_recommendation
                         seasoned_profile backend_context))).
Proof.
  assert (Hin : In "--validate" (split (Engine.flags backend_recommendation))).
  { vm_compute. auto 6. }
  split; [exact Hin|]. split; [reflexivity|].
  apply (personalization_keeps_other_flags backend_recommendation seasoned_profile
           backend_context "--validate" Hin).
  reflexivity.
Defined.

Lemma insert_by_value_in (x y : string * Q) (l : list (string * Q)) :
  In y (insert_by_value x l) <-> y = x \/ In y l.
Proof.
  induction l as [|z l IH]; cbn [insert_by_value In]; [intuition congruence|].
  destruct (Qltb (snd z) (snd x)); cbn [In]; [intuition congruence|].
  rewrite IH. intuition congruence.
Qed.

Lemma sorted_by_value_in (y : string * Q) (d : PyDict.t Q) :
  In y (sorted_by_value d) <-> In y d.
Proof.
  unfold sorted_by_value.
  assert (H : forall acc, In y (fold_left (fun sorted x => insert_by_value x sorted) d acc)
                          <-> In y acc \/ In y d).
  { induction d as [|x d IH]; intros acc; cbn [fold_left In]; [tauto|].
    rewrite IH, insert_by_value_in. intuition congruence. }
  rewrite H. cbn [In]. tauto.
Qed.

Lemma add_server_enables (item : string * Q) (first : string) (rest parts : list string) :
  Qltb (8 # 10) (snd item) = true ->
  PyDict.get_default (fst item) [] server_flags = first :: rest ->
  exists opt, In opt (first :: rest) /\ In opt (add_server parts item).
Proof.
  intros Hhigh Hopts. unfold add_server. rewrite Hhigh, Hopts.
  destruct (existsb (fun opt => mem opt parts) (first :: rest)) eqn:Hany.
  - apply existsb_exists in Hany. destruct Hany as [opt [Hopt Hmem]].
    exists opt. split; [exact Hopt|apply mem_in, Hmem].
  - exists first. split; [left; reflexivity|].
    apply in_or_app. right. left. reflexivity.
Qed.

Lemma add_servers_enable (item : string * Q) (first : string) (rest : list string)
      (items : list (string * Q)) : forall parts,
  In item items ->
  Qltb (8 # 10) (snd item) = true ->
  PyDict.get_default (fst item) [] server_flags = first :: rest ->
  exists opt, In opt (first :: rest) /\ In opt (fold_left add_server items parts).
Proof.
  induction items as [|x items IH]; intros parts Hin Hhigh Hopts; [destruct Hin|].
  cbn [fold_left]. destruct Hin as [->|Hin].
  - destruct (add_server_enables item first rest parts Hhigh Hopts) as [opt [Ho Hp]].
    exists opt. split; [exact Ho|].
    apply fold_keeps; [intros; apply add_server_keeps; assumption|exact Hp].
  - apply IH; assumption.
Qed.

Lemma server_option_is_word (opt : string) :
  In opt (concat (PyDict.values server_flags)) -> split opt = [opt].
Proof.
  cbn. intros H.
  repeat (destruct H as [<-|H]; [reflexivity|]). destruct H.
Qed.

Lemma known_server_has_options (server : string) (options : list string) :
  PyDict.get server server_flags = Some options ->
  exists first rest, options = first :: rest.
Proof.
  intros H. apply get_in in H. cbn in H.
  repeat (destruct H as [H|H]; [injection H as _ <-; eauto|]). destruct H.
Qed.

(** X25.  A preferred server is switched on: when personalization applies
    and the profile prefers one of the four known MCP servers above 0.8,
    one of that server's flags is a flag of the personalized
    recommendation. *)
Theorem preferred_server_is_enabled
  (base : Engine.RecommendationScore) (profile : UserProfile) (ctx : Context.t)
  (server : string) (preference : Q) (options : list string) :
  (min_interactions_for_personalization <= total_interactions profile)%Z ->
  In (server, preference) (preferred_mcp_servers profile) ->
  Qltb (8 # 10) preference = true ->
  PyDict.get server server_flags = Some options ->
  existsb (fun opt =>
             mem opt (split (flags (_apply_personalization base profile ctx))))
          options = true.
Proof.
  intros Hmany Hin Hhigh Hknown.
  destruct (known_server_has_options server options Hknown) as [first [rest ->]].
  unfold _apply_personalization.
  destruct (_ <? _)%Z eqn:Hfew; [apply Z.ltb_lt in Hfew; lia|]. cbn [flags].
  set (with_thinking := _personalize_thinking_levels _ _ _).
  destruct (add_servers_enable (server, preference) first rest
              (sorted_by_value (preferred_mcp_servers profile))
              (fold_left drop_server (preferred_mcp_servers profile)
                         (split with_thinking)))
    as [opt [Hopt Hpart]].
  { apply sorted_by_value_in, Hin. }
  { exact Hhigh. }
  { unfold PyDict.get_default. cbn [fst]. rewrite Hknown. reflexivity. }
  assert (Hword : split opt = [opt]).
  { apply server_option_is_word, in_concat. exists (first :: rest).
    split; [|exact Hopt]. apply get_in in Hknown.
    apply (in_map snd) in Hknown. exact Hknown. }
  apply existsb_exists. exists opt. split; [exact Hopt|].
  apply mem_in, project_type_keeps.
  unfold _personalize_mcp_servers.
  destruct (preferred_mcp_servers profile) as [|item others] eqn:Hprefs;
    [destruct Hin|].
  apply in_split_join; [exact Hpart|exact Hword].
Qed.

Lemma preferred_server_is_enabled_witness :
  (min_interactions_for_personalization <= total_interactions seasoned_profile)%Z
  /\ In ("Context7", 9 # 10) (preferred_mcp_servers seasoned_profile)
  /\ Qltb (8 # 10) (9 # 10) = true
  /\ PyDict.get "Context7" server_flags = Some ["--c7"; "--context7"]
  /\ existsb (fun opt =>
                mem opt (split (flags (_apply_personalization backend_recommendation
                                         seasoned_profile backend_context))))
             ["--c7"; "--context7"] = true.
Proof.
  assert (Hmany : (min_interactions_for_personalization
                   <= total_interactions seasoned_profile)%Z).
  { vm_compute. discriminate. }
  assert (Hin : In ("Context7", 9 # 10) (preferred_mcp_servers seasoned_profile)).
  { right. left. reflexivity. }
  exact (conj Hmany (conj Hin (conj eq_refl (conj eq_refl
           (preferred_server_is_enabled backend_recommendation seasoned_profile
              backend_context "Context7" (9 # 10) ["--c7"; "--context7"]
              Hmany Hin eq_refl eq_refl))))).
Defined.

Lemma append_inj (p a b : string) : p ++ a = p ++ b -> a = b.
Proof.
  induction p as [|c p IH]; cbn [append]; [trivial|].
  intros H. injection H as H. apply IH, H.
Qed.

Lemma conflicting_cases (a b : string) :
  conflicting a b = true ->
  (a = "frontend" /\ b = "backend") \/ (a = "backend" /\ b = "frontend")
  \/ (a = "security" /\ b = "performance") \/ (a = "performance" /\ b = "security").
Proof.
  unfold conflicting, incompatible_pairs. cbn [existsb fst snd].
  rewrite orb_false_r. intros H.
  repeat match type of H with
         | (_ || _) = true => apply orb_prop in H; destruct H as [H|H]
         | (_ && _) = true => apply andb_prop in H; destruct H as [Ha Hb];
                              apply String.eqb_eq in Ha, Hb
         end; tauto.
Qed.

(** X26.  The persona that is added never conflicts with one that is
    there: when the flags hold the persona [a], and [a] and [b] exclude
    each other (frontend and backend, security and performance), the
    persona [b] is among the personalized flags only if it was among the
    flags.  The persona names of the profile have no white space. *)
Theorem conflicting_persona_is_not_added
  (flags : string) (preferred_personas : PyDict.t Q) (a b : string) :
  plain_keys preferred_personas = true ->
  conflicting a b = true ->
  In ("--persona-" ++ a) (split flags) ->
  In ("--persona-" ++ b) (split (_personalize_personas flags preferred_personas)) ->
  In ("--persona-" ++ b) (split flags).
Proof.
  intros Hplain Hconflict Ha Hb. unfold _personalize_personas in Hb.
  destruct preferred_personas as [|item others] eqn:Hprefs; [exact Hb|].
  rewrite <- Hprefs in *. clear Hprefs item others.
  apply split_join_in in Hb. destruct Hb as [part [Hpart Hb]].
  apply filter_In in Hpart. destruct Hpart as [Hpart Hfull].
  apply in_app_or in Hpart. destruct Hpart as [Hpart|Hpart].
  - apply in_map_iff in Hpart. destruct Hpart as [w [Hw Hin]].
    destruct (_ && _) in Hw.
    + subst part. discriminate Hfull.
    + subst part. rewrite (split_word_fixed flags w Hin) in Hb.
      destruct Hb as [<-|[]]. exact Hin.
  - exfalso.
    destruct (find _ _) as [[persona value]|] eqn:Hfind; [|destruct Hpart].
    destruct Hpart as [<-|[]].
    apply find_some in Hfind. destruct Hfind as [Hitem Hok].
    apply (proj1 (sorted_by_value_in _ _)) in Hitem.
    cbn [fst snd] in Hok.
    apply andb_prop in Hok. destruct Hok as [_ Hcompatible].
    assert (Hword : split ("--persona-" ++ persona) = ["--persona-" ++ persona]).
    { apply split_unbroken; [|discriminate].
      apply plain_unbroken. rewrite all_chars_app. apply andb_true_intro.
      split; [reflexivity|].
      unfold plain_keys in Hplain.
      apply (proj1 (forallb_forall _ _) Hplain (persona, value) Hitem). }
    rewrite Hword in Hb. destruct Hb as [Hb|[]].
    apply append_inj in Hb. subst persona.
    unfold _is_compatible_persona in Hcompatible.
    assert (Hcurrent : In (persona_of ("--persona-" ++ a))
                          (map persona_of (filter is_persona_flag (split flags)))).
    { apply in_map, filter_In. split; [exact Ha|].
      unfold is_persona_flag, startswith. apply prefix_app. }
    apply (proj1 (forallb_forall _ _) Hcompatible) in Hcurrent.
    destruct (conflicting_cases a b Hconflict) as [[-> ->]|[[-> ->]|[[-> ->]|[-> ->]]]];
      vm_compute in Hcurrent; discriminate Hcurrent.
Qed.

Lemma conflicting_persona_is_not_added_witness :
  plain_keys (preferred_personas seasoned_profile) = true
  /\ conflicting "backend" "frontend" = true
  /\ In ("--persona-" ++ "backend") (split "--persona-backend --persona-frontend")
  /\ In ("--persona-" ++ "frontend")
        (split (_personalize_personas "--persona-backend --persona-frontend"
                  (preferred_personas seasoned_profile)))
  /\ In ("--persona-" ++ "frontend") (split "--persona-backend --persona-frontend").
Proof.
  assert (Ha : In ("--persona-" ++ "backend")
                  (split "--persona-backend --persona-frontend")).
  { vm_compute. auto. }
  assert (Hb : In ("--persona-" ++ "frontend")
                  (split (_personalize_personas "--persona-backend --persona-frontend"
                            (preferred_personas seasoned_profile)))).
  { vm_compute. auto. }
  assert (Hplain : plain_keys (preferred_personas seasoned_profile) = true).
  { vm_compute. reflexivity. }
  assert (Hconflict : conflicting "backend" "frontend" = true).
  { vm_compute. reflexivity. }
  exact (conj Hplain (conj Hconflict (conj Ha (conj Hb
           (conflicting_persona_is_not_added "--persona-backend --persona-frontend"
              (preferred_personas seasoned_profile) "backend" "frontend"
              Hplain Hconflict Ha Hb))))).
Defined.

End PersonalizationFacts.

(** *** The windows of the storage *)

Section WindowFacts.
Import Storage.

Lemma insert_desc_front (since : Z) (x : Interaction) (older : list Interaction) :
  forall recent : list Interaction,
  (since < timestamp x)%Z ->
  (forall y, In y older -> (timestamp y <= since)%Z) ->
  insert_desc x (recent ++ older) = (insert_desc x recent ++ older)%list.
Proof.
  intros recent Hx Hold. induction recent as [|y recent IH]; cbn [app insert_desc].
  - destruct older as [|y older]; [reflexivity|]. cbn [insert_desc].
    assert (Hy : (timestamp y <= since)%Z) by (apply Hold; left; reflexivity).
    destruct (timestamp y <? timestamp x)%Z eqn:E; [reflexivity|].
    apply Z.ltb_ge in E. lia.
  - destruct (timestamp y <? timestamp x)%Z; [reflexivity|].
    rewrite IH. reflexivity.
Qed.

Lemma insert_desc_back (since : Z) (x : Interaction) (older : list Interaction) :
  forall recent : list Interaction,
  (timestamp x <= since)%Z ->
  (forall y, In y recent -> (since < timestamp y)%Z) ->
  insert_desc x (recent ++ older) = (recent ++ insert_desc x older)%list.
Proof.
  intros recent Hx. induction recent as [|y recent IH]; intros Hrecent;
    cbn [app insert_desc]; [reflexivity|].
  assert (Hy : (since < timestamp y)%Z) by (apply Hrecent; left; reflexivity).
  destruct (timestamp y <? timestamp x)%Z eqn:E; [apply Z.ltb_lt in E; lia|].
  rewrite IH; [reflexivity|]. intros z Hz. apply Hrecent. right. exact Hz.
Qed.

Lemma order_splits (since : Z) (p : Interaction -> bool) (l : list Interaction) :
  order_by_timestamp_desc (filter p l)
  = (order_by_timestamp_desc (filter (fun r => p r && (since <? timestamp r)%Z) l)
     ++ order_by_timestamp_desc
          (filter (fun r => p r && negb (since <? timestamp r)%Z) l))%list.
Proof.
  induction l as [|x l IH]; [reflexivity|]. cbn [filter].
  destruct (p x); cbn [andb]; [|exact IH].
  destruct (since <? timestamp x)%Z eqn:E; cbn [negb];
    unfold order_by_timestamp_desc in *; cbn [fold_right]; rewrite IH.
  - apply Z.ltb_lt in E. apply (insert_desc_front since); [exact E|].
    intros y Hy. apply (proj1 (order_by_timestamp_in _ _)) in Hy.
    apply filter_In in Hy. destruct Hy as [_ Hy].
    apply andb_prop in Hy. destruct Hy as [_ Hy].
    apply negb_true_iff, Z.ltb_ge in Hy. exact Hy.
  - apply Z.ltb_ge in E. apply (insert_desc_back since); [exact E|].
    intros y Hy. apply (proj1 (order_by_timestamp_in _ _)) in Hy.
    apply filter_In in Hy. destruct Hy as [_ Hy].
    apply andb_prop in Hy. destruct Hy as [_ Hy].
    apply Z.ltb_lt in Hy. exact Hy.
Qed.

(** X23.  A longer window extends a shorter one: when the second query
    reaches at least as far back as the first, its answer starts with the
    answer of the first, and the interactions that follow are those of
    the time before the first window.  A slice
    [longer[len(recent):]] is therefore the older part of the longer
    answer. *)
Theorem longer_window_extends
  (self : LearningStorage) (now now' days days' : Z) (project : option string) :
  (now' - days' * day <= now - days * day)%Z ->
  match get_user_interactions self now days project,
        get_user_interactions self now' days' project with
  | Ok recent, Ok longer =>
      firstn (List.length recent) longer = recent
      /\ forallb (fun i => (timestamp i <=? now - days * day)%Z)
                 (skipn (List.length recent) longer) = true
  | Raise e, Raise e' => e = e'
  | _, _ => False
  end.
Proof.
  intros Hsince. unfold get_user_interactions, connect.
  destruct (db_file self) as [db|]; cbn [bind]; [|reflexivity].
  set (since := (now - days * day)%Z) in *.
  set (since' := (now' - days' * day)%Z) in *.
  set (wanted := fun r : Interaction =>
                   String.eqb (user_id r) (self_user_id self)
                   && (since' <? timestamp r)%Z
                   && (if truthy project
                       then String.eqb (project_hash r)
                              (match project with Some p => p | None => "" end)
                       else true)).
  rewrite (order_splits since wanted).
  replace (filter (fun r => wanted r && (since <? timestamp r)%Z) (interactions db))
    with (filter (fun r =>
                    String.eqb (user_id r) (self_user_id self)
                    && (since <? timestamp r)%Z
                    && (if truthy project
                        then String.eqb (project_hash r)
                               (match project with Some p => p | None => "" end)
                        else true)) (interactions db)).
  - set (recent := order_by_timestamp_desc _).
    set (older := order_by_timestamp_desc _).
    rewrite firstn_app, Nat.sub_diag, firstn_all. cbn [firstn].
    rewrite app_nil_r. split; [reflexivity|].
    rewrite skipn_app, Nat.sub_diag, skipn_all. cbn [skipn app].
    apply forallb_forall. intros i Hi. subst older.
    apply (proj1 (order_by_timestamp_in _ _)) in Hi.
    apply filter_In in Hi. destruct Hi as [_ Hi].
    apply andb_prop in Hi. destruct Hi as [_ Hi].
    apply negb_true_iff, Z.ltb_ge in Hi. apply Z.leb_le. exact Hi.
  - apply filter_ext. intros r. subst wanted. cbv beta.
    destruct (since <? timestamp r)%Z eqn:E.
    + apply Z.ltb_lt in E.
      assert (E' : (since' <? timestamp r)%Z = true) by (apply Z.ltb_lt; lia).
      rewrite E'.
      destruct (String.eqb (user_id r) (self_user_id self));
        destruct (if truthy project then _ else _); reflexivity.
    + destruct (String.eqb (user_id r) (self_user_id self));
        destruct (since' <? timestamp r)%Z;
        destruct (if truthy project then _ else _); reflexivity.
Qed.

Lemma longer_window_extends_witness :
  (days 40 - 60 * day <= days 40 - 30 * day)%Z
  /\ match get_user_interactions (readable (one_interaction 0) "user") (days 40) 30 None,
           get_user_interactions (readable (one_interaction 0) "user") (days 40) 60 None
     with
     | Ok recent, Ok longer =>
         firstn (List.length recent) longer = recent
         /\ forallb (fun i => (timestamp i <=? days 40 - 30 * day)%Z)
                    (skipn (List.length recent) longer) = true
     | Raise e, Raise e' => e = e'
     | _, _ => False
     end.
Proof.
  assert (H : (days 40 - 60 * day <= days 40 - 30 * day)%Z).
  { vm_compute. discriminate. }
  exact (conj H (longer_window_extends (readable (one_interaction 0) "user")
                   (days 40) (days 40) 30 60 None H)).
Defined.

End WindowFacts.

(** *** The recommendation cache over a trace *)

Section OriginFacts.
Import Optimizer.

Variable py_hash : string -> Z.

Lemma run_app (a b : list Event) : forall self,
  run py_hash self (a ++ b) = run py_hash (run py_hash self a) b.
Proof.
  induction a as [|event a IH]; intros self; [reflexivity|].
  destruct event; cbn [app run]; apply IH.
Qed.

Lemma all_keep_snoc (key : string) (event : Event) (later : list Event) :
  forall earlier,
  all_keep py_hash key earlier (later ++ [event])
  = all_keep py_hash key earlier later
    && keeps_entry py_hash key (earlier ++ later) event.
Proof.
  induction later as [|x later IH]; intros earlier; cbn [app all_keep].
  - rewrite app_nil_r, andb_true_r. reflexivity.
  - rewrite IH, <- app_assoc. cbn [app]. apply andb_assoc.
Qed.

Lemma original_computation_extends trace event key fl conf stamp :
  original_computation py_hash trace key fl conf stamp ->
  keeps_entry py_hash key trace event = true ->
  original_computation py_hash (trace ++ [event]) key fl conf stamp.
Proof.
  intros [before [after [rt [ui [cmd [desc [ctx H]]]]]]] Hkeep.
  cbv zeta in H. destruct H as [Htrace [Hkey [Hmiss [Hq [Hf [Hc Hall]]]]]].
  exists before, (after ++ [event])%list, rt, ui, cmd, desc, ctx. cbv zeta.
  split; [rewrite Htrace, <- app_assoc; reflexivity|].
  repeat (split; [assumption|]).
  rewrite all_keep_snoc, Hall. cbn [andb].
  rewrite <- app_assoc. cbn [app]. rewrite <- Htrace. exact Hkeep.
Qed.

Lemma get_remove_some {V} (k k' : string) (d : PyDict.t V) (v : V) :
  PyDict.get k (PyDict.remove k' d) = Some v ->
  String.eqb k' k = false /\ PyDict.get k d = Some v.
Proof.
  destruct (String.eqb k' k) eqn:E.
  - apply String.eqb_eq in E. subst k'. rewrite get_remove_same. discriminate.
  - rewrite (get_remove_other _ _ _ E). intros H. split; [reflexivity|exact H].
Qed.

(** What a request does to the cache. *)
Lemma request_cache self now response_time user_input command description ctx :
  well_formed (pattern_cache self) = true ->
  let key := make_cache_key py_hash command description ctx in
  let answer := quick_recommend py_hash self now response_time user_input
                  command description ctx in
  if is_hit self now key
  then pattern_cache (snd answer) = pattern_cache self
  else fst (_quick_pattern_match command description ctx)
       = (flags (fst answer), confidence (fst answer))
       /\ forall k e,
            PyDict.get k (pattern_cache (snd answer)) = Some e ->
            (k = key
             /\ e = [("flags", VStr (flags (fst answer)));
                     ("confidence", VInt (confidence (fst answer)));
                     ("timestamp", VTime now)])
            \/ (String.eqb key k = false
                /\ PyDict.get k (pattern_cache self) = Some e).
Proof.
  intros Hc key answer. subst answer.
  unfold quick_recommend, get_quick_recommendation. fold key.
  unfold is_hit, _get_cached_recommendation.
  cbn [pattern_cache with_metrics].
  assert (Hstore : forall (self0 : PerformanceOptimizer) quick_fl conf,
             well_formed (pattern_cache self0) = true ->
             (forall k e, PyDict.get k (pattern_cache self0) = Some e ->
                          String.eqb key k = false
                          /\ PyDict.get k (pattern_cache self) = Some e) ->
             exists self1,
               _cache_recommendation (quick self0) key
                 [("flags", VStr quick_fl); ("confidence", VInt conf);
                  ("timestamp", VTime now)] = (Ok tt, self1)
               /\ forall k e,
                    PyDict.get k (pattern_cache self1) = Some e ->
                    (k = key
                     /\ e = [("flags", VStr quick_fl); ("confidence", VInt conf);
                             ("timestamp", VTime now)])
                    \/ (String.eqb key k = false
                        /\ PyDict.get k (pattern_cache self) = Some e)).
  { intros self0 quick_fl conf Hc0 Hold.
    set (entry := [("flags", VStr quick_fl); ("confidence", VInt conf);
                   ("timestamp", VTime now)]).
    assert (Hset : forall k e,
               PyDict.get k (PyDict.set key entry (pattern_cache self0)) = Some e ->
               (k = key /\ e = entry)
               \/ (String.eqb key k = false
                   /\ PyDict.get k (pattern_cache self) = Some e)).
    { intros k e. destruct (String.eqb key k) eqn:E.
      - apply String.eqb_eq in E. subst k. rewrite get_set_same.
        intros H. injection H as <-. left. split; reflexivity.
      - rewrite (get_set_other _ _ _ _ E). intros H. right.
        split; [reflexivity|exact (proj2 (Hold k e H))]. }
    unfold _cache_recommendation.
    cbn [pattern_cache with_cache quick with_metrics].
    destruct (1000 <? _)%Z.
    - destruct (oldest_key_well_formed _
                  (well_formed_set _ key entry Hc0 eq_refl)) as [[k0|] ->].
      + eexists. split; [reflexivity|]. cbn [pattern_cache with_cache].
        intros k e H. apply get_remove_some in H. apply Hset, H.
      + eexists. split; [reflexivity|]. exact Hset.
    - eexists. split; [reflexivity|]. exact Hset. }
  destruct (PyDict.get key (pattern_cache self)) as [cached|] eqn:Hkey.
  - pose proof (well_formed_get _ _ _ Hc Hkey) as He.
    destruct (get_time_well_formed cached He) as [t ->].
    destruct (now - t <? cache_ttl)%Z.
    + cbn [fst]. destruct cached as [|item cached]; [discriminate He|].
      destruct (get_str "flags" (item :: cached)); [|reflexivity].
      destruct (get_int "confidence" (item :: cached)); reflexivity.
    + cbn [fst].
      destruct (_quick_pattern_match command description ctx)
        as [[quick_fl conf] why].
      destruct (Hstore (with_cache
                          (with_metrics self
                             {| total_requests := total_requests (metrics self) + 1;
                                cache_hits := cache_hits (metrics self);
                                quick_responses := quick_responses (metrics self);
                                enhanced_responses :=
                                  enhanced_responses (metrics self) |})
                          (PyDict.remove key (pattern_cache self)))
                       quick_fl conf) as [self1 [Hs Hall]].
      { apply well_formed_remove, Hc. }
      { cbn [pattern_cache with_cache]. intros k e H.
        apply get_remove_some in H. exact H. }
      rewrite Hs. cbn [fst snd flags confidence pattern_cache
                         _queue_background_enhancement].
      split; [reflexivity|exact Hall].
  - cbn [fst].
    destruct (_quick_pattern_match command description ctx)
      as [[quick_fl conf] why].
    destruct (Hstore (with_metrics self
                        {| total_requests := total_requests (metrics self) + 1;
                           cache_hits := cache_hits (metrics self);
                           quick_responses := quick_responses (metrics self);
                           enhanced_responses :=
                             enhanced_responses (metrics self) |})
                     quick_fl conf) as [self1 [Hs Hall]].
    { exact Hc. }
    { cbn [pattern_cache with_metrics]. intros k e H.
      split; [|exact H].
      destruct (String.eqb key k) eqn:E; [|reflexivity].
      apply String.eqb_eq in E. subst k. congruence. }
    rewrite Hs. cbn [fst snd flags confidence pattern_cache
                       _queue_background_enhancement].
    split; [reflexivity|exact Hall].
Qed.

(** What a turn of the worker does to the cache: the entries it finds
    keep their flags, confidence and time stamp, and none is added. *)
Lemma worker_cache self k e' :
  PyDict.get k (pattern_cache (background_step self)) = Some e' ->
  exists e,
    PyDict.get k (pattern_cache self) = Some e
    /\ PyDict.get "flags" e' = PyDict.get "flags" e
    /\ PyDict.get "confidence" e' = PyDict.get "confidence" e
    /\ PyDict.get "timestamp" e' = PyDict.get "timestamp" e.
Proof.
  unfold background_step.
  destruct (background_queue self) as [|task rest]; [intros H; exists e'; auto|].
  cbn [_process_learning_enhancement pattern_cache with_metrics].
  unfold _update_enhanced_cache. cbn [pattern_cache].
  destruct (PyDict.get (task_cache_key task) (pattern_cache self)) as [entry|] eqn:Hk;
    cbn [pattern_cache with_cache]; [|intros H; exists e'; auto].
  destruct (String.eqb (task_cache_key task) k) eqn:E.
  - apply String.eqb_eq in E. subst k. rewrite get_set_same.
    intros H. injection H as <-. exists entry. split; [exact Hk|].
    repeat split; rewrite !get_set_other by reflexivity; reflexivity.
  - rewrite (get_set_other _ _ _ _ E). intros H. exists e'. auto.
Qed.

(** Every entry of the cache has its original computation in the trace. *)
Lemma entries_have_origin (trace : list Event) :
  forall key e,
    PyDict.get key (pattern_cache (run py_hash empty_optimizer trace)) = Some e ->
    exists fl conf stamp,
      PyDict.get "flags" e = Some (VStr fl)
      /\ PyDict.get "confidence" e = Some (VInt conf)
      /\ PyDict.get "timestamp" e = Some (VTime stamp)
      /\ original_computation py_hash trace key fl conf stamp.
Proof.
  induction trace as [|event trace IH] using rev_ind; [discriminate|].
  intros key e. rewrite run_app.
  pose proof (run_keeps_steady py_hash trace _ empty_optimizer_steady) as Hs.
  destruct Hs as [Hc _].
  set (self := run py_hash empty_optimizer trace) in *.
  destruct event as [now rt ui cmd desc ctx|]; cbn [run].
  - pose proof (request_cache self now rt ui cmd desc ctx Hc) as Hreq.
    cbv zeta in Hreq.
    set (key0 := make_cache_key py_hash cmd desc ctx) in *.
    destruct (is_hit self now key0) eqn:Hhit.
    + rewrite Hreq. intros H.
      destruct (IH key e H) as [fl [conf [stamp [Hf [Hcf [Ht Ho]]]]]].
      exists fl, conf, stamp. repeat (split; [assumption|]).
      apply original_computation_extends; [exact Ho|].
      cbn [keeps_entry]. fold key0. destruct (String.eqb key0 key) eqn:E;
        [|reflexivity].
      apply String.eqb_eq in E. subst key. exact Hhit.
    + destruct Hreq as [Hq Hall]. intros H.
      destruct (Hall key e H) as [[-> ->]|[Hne Hold]].
      * eexists _, _, now. split; [reflexivity|]. split; [reflexivity|].
        split; [reflexivity|].
        exists trace, [], rt, ui, cmd, desc, ctx. cbv zeta.
        repeat split; try reflexivity; try assumption.
      * destruct (IH key e Hold) as [fl [conf [stamp [Hf [Hcf [Ht Ho]]]]]].
        exists fl, conf, stamp. repeat (split; [assumption|]).
        apply original_computation_extends; [exact Ho|].
        cbn [keeps_entry]. fold key0. rewrite Hne. reflexivity.
  - intros H. apply worker_cache in H.
    destruct H as [e0 [He0 [Hf0 [Hc0 Ht0]]]].
    destruct (IH key e0 He0) as [fl [conf [stamp [Hf [Hcf [Ht Ho]]]]]].
    exists fl, conf, stamp.
    rewrite Hf0, Hc0, Ht0. repeat (split; [assumption|]).
    apply original_computation_extends; [exact Ho|reflexivity].
Qed.

(** C9.  Every hit returns the original computation.  Whatever requests
    and turns of the background worker an optimizer has gone through, a
    call that finds an entry for its key within the TTL returns the flags
    and the confidence of the original computation for that key: the last
    request that found no entry for the key, computed the recommendation
    and stored it, less than 1800 seconds before.  The worker's updates
    of the entry and the hits since then have changed neither. *)
Theorem cache_hit_returns_original_recommendation
  (trace : list Event) (now : Z) (response_time : Q)
  (user_input command description : string) (ctx : Context.t) :
  let self := run py_hash empty_optimizer trace in
  let key := make_cache_key py_hash command description ctx in
  let again := fst (get_quick_recommendation py_hash self now response_time
                      user_input command description ctx) in
  is_hit self now key = true ->
  exists stamp,
    original_computation py_hash trace key (flags again) (confidence again) stamp
    /\ stored (pattern_cache self) key (flags again) (confidence again) stamp
    /\ (now - stamp < cache_ttl)%Z.
Proof.
  intros self key again Hhit.
  assert (Hentry : exists e, PyDict.get key (pattern_cache self) = Some e).
  { unfold is_hit, _get_cached_recommendation in Hhit.
    destruct (PyDict.get key (pattern_cache self)) as [e|]; [|discriminate Hhit].
    exists e. reflexivity. }
  destruct Hentry as [e He].
  destruct (entries_have_origin trace key e He)
    as [fl [conf [stamp [Hf [Hcf [Ht Ho]]]]]].
  assert (Hstored : stored (pattern_cache self) key fl conf stamp).
  { exists e. repeat split; assumption. }
  destruct (hit_returns_stored py_hash self now response_time user_input
              command description ctx fl conf stamp Hstored Hhit) as [Hfl Hconf].
  fold again in Hfl, Hconf. rewrite Hfl, Hconf.
  exists stamp. split; [exact Ho|]. split; [exact Hstored|].
  unfold is_hit, _get_cached_recommendation, get_time in Hhit.
  fold self in Hhit. rewrite He, Ht in Hhit.
  destruct (now - stamp <? cache_ttl)%Z eqn:Hlt; [|discriminate Hhit].
  apply Z.ltb_lt, Hlt.
Qed.

End OriginFacts.

Section OriginRun.
Import Optimizer.

(** The second hit for [analyze], three minutes after the miss. *)
Lemma cache_hit_returns_original_recommendation_witness :
  let self := run length_hash empty_optimizer busy_trace in
  let key := make_cache_key length_hash "analyze" "find bugs" backend_context in
  let again := fst (get_quick_recommendation length_hash self (3 * minute) (1 # 10)
                      "/sc:analyze find bugs" "analyze" "find bugs"
                      backend_context) in
  is_hit self (3 * minute) key = true
  /\ flags again = "--persona-analyzer --think-hard --uc --delegate"
  /\ confidence again = 80%Z
  /\ exists stamp,
       original_computation length_hash busy_trace key (flags again)
         (confidence again) stamp
       /\ stored (pattern_cache self) key (flags again) (confidence again) stamp
       /\ (3 * minute - stamp < cache_ttl)%Z.
Proof.
  cbv zeta.
  assert (Hhit : is_hit (run length_hash empty_optimizer busy_trace) (3 * minute)
                   (make_cache_key length_hash "analyze" "find bugs"
                      backend_context) = true).
  { vm_compute. reflexivity. }
  split; [exact Hhit|].
  split; [vm_compute; reflexivity|].
  split; [vm_compute; reflexivity|].
  exact (cache_hit_returns_original_recommendation length_hash busy_trace
           (3 * minute) (1 # 10) "/sc:analyze find bugs" "analyze" "find bugs"
           backend_context Hhit).
Defined.

End OriginRun.
